(** * The audio dataset of naip-ssast: a shallow embedding of
      [src/dataloader_mayo.py] (class [AudioDataset]) and the properties of
      its transformation pipeline.

    The Python object model is kept close to the source:
    - [audio_conf] is a dictionary from strings to Python values, read with
      [dict.get] (absent keys read as [None]);
    - the scalar attributes that [__init__] assigns on [self] live in an
      instance dictionary keyed by attribute name, so reading an attribute that
      no statement assigned raises [AttributeError];
    - the transform chains are lists of stage objects, built by successive
      [append]s and run by [Compose] from first to last;
    - exceptions are values of the error monad; randomness and file access are
      threaded through an abstract [World].

    The stage classes themselves ([UidToWaveform], [Wav2Fbank], ...) and the
    name [transforms] come from the star import of
    [utilities/dataloader_utils.py]; building a stage object is recorded as
    data, the [__call__] methods are parameters of the pipeline section, and
    they are modelled from the specification only in the modules [SpecModel]
    and [SignalModel], where the feature shape and the state across calls are
    studied. [transforms.Compose] runs its transforms from first to last;
    [albumentations.Compose] takes its data as keyword arguments only. *)

From Stdlib Require Import ZArith List Floats Lia Bool.
From stdpp Require Import base strings gmap list.

Local Open Scope Z_scope.

(** ** Python values, exceptions and the error monad *)

Module Py.

(** The values an [audio_conf] entry can hold. Floats are IEEE binary64, as
    Python's. *)
Inductive pyval : Type :=
  | PNone
  | PBool (b : bool)
  | PInt (z : Z)
  | PFloat (f : float)
  | PStr (s : string).

(** Built-in exception classes that the statements of this file can raise, and
    [RaisedBy cls] for a class defined elsewhere (raised by a stage). *)
Inductive exn : Type :=
  | TypeError
  | ValueError
  | AttributeError
  | IndexError
  | KeyError
  | OverflowError
  | RaisedBy (cls : string).

Definition result (A : Type) : Type := exn + A.

Definition ok {A} (a : A) : result A := inr a.
Definition raise {A} (e : exn) : result A := inl e.

Definition rbind {A B} (r : result A) (k : A -> result B) : result B :=
  match r with
  | inl e => inl e
  | inr a => k a
  end.

(** [bool(v)] *)
Definition truthy (v : pyval) : bool :=
  match v with
  | PNone => false
  | PBool b => b
  | PInt z => negb (z =? 0)
  | PFloat f => negb (PrimFloat.eqb f 0%float)
  | PStr s => negb (String.eqb s "")
  end.

(** [v != 0] *)
Definition ne_zero (v : pyval) : bool :=
  match v with
  | PNone => true
  | PBool b => b
  | PInt z => negb (z =? 0)
  | PFloat f => negb (PrimFloat.eqb f 0%float)
  | PStr _ => true
  end.

(** The default of [sys.get_int_max_str_digits()]: an [int] of more decimal
    digits is not converted to text (Python 3.11, and the security releases of
    3.7 to 3.10). *)
Definition int_max_str_digits : Z := 4300.

(** [z] has at most [int_max_str_digits] decimal digits. *)
Definition fits_str_digits (z : Z) : bool := Z.abs z <? 10 ^ int_max_str_digits.

(** [float(z)] raises OverflowError: [z] rounds, to nearest and ties to even,
    beyond the largest binary64 number [2^1024 - 2^971], which is so from
    [2^1024 - 2^970] on in absolute value. *)
Definition float_overflows (z : Z) : bool := 2 ^ 1024 - 2 ^ 970 <=? Z.abs z.

(** [str.format] with one replacement field. Only whether formatting raises is
    modelled, not the text produced: [None] has no format codes (TypeError), a
    wrong code for the value's type is a ValueError; code [d] converts an
    [int] to decimal text, which fails with ValueError beyond the digit limit;
    code [.3f] converts an [int] to [float] first, which fails with
    OverflowError beyond the float range. *)
Definition format_s (v : pyval) : result unit :=
  match v with
  | PStr _ => ok tt
  | PNone => raise TypeError
  | _ => raise ValueError
  end.

Definition format_d (v : pyval) : result unit :=
  match v with
  | PInt z => if fits_str_digits z then ok tt else raise ValueError
  | PBool _ => ok tt
  | PNone => raise TypeError
  | _ => raise ValueError
  end.

Definition format_3f (v : pyval) : result unit :=
  match v with
  | PInt z => if float_overflows z then raise OverflowError else ok tt
  | PBool _ | PFloat _ => ok tt
  | PNone => raise TypeError
  | PStr _ => raise ValueError
  end.

(** ['now process ' + v] *)
Definition str_concat (v : pyval) : result unit :=
  match v with
  | PStr _ => ok tt
  | _ => raise TypeError
  end.

(** [d.get(key)] *)
Definition dict_get (d : gmap string pyval) (key : string) : pyval :=
  match d !! key with
  | Some v => v
  | None => PNone
  end.

(** Names of the [torch] module that this file refers to. [CoarseDropout] and
    [Affine] are classes of albumentations; the [torch] module has no attribute
    of either name. *)
Definition torch_namespace : list string :=
  ["is_tensor"; "sum"; "nn"; "utils"; "Tensor"]%string.

Definition torch_getattr (name : string) : result unit :=
  if existsb (String.eqb name) torch_namespace then ok tt else raise AttributeError.

End Py.
Import Py.

Arguments fits_str_digits : simpl never.
Arguments float_overflows : simpl never.

Declare Scope result_scope.
Delimit Scope result_scope with R.
Notation "x <- e ;; k" := (rbind e (fun x => k))
  (at level 100, e at next level, right associativity) : result_scope.

(** ** The annotation table (a pandas DataFrame) *)

Module Frame.

(** A frame keyed by uid: the row labels, the column labels and the cell at a
    row and column position. *)
Record DataFrame : Type := {
  index : list string;
  columns : list string;
  cell : nat -> nat -> float
}.

(** [len(df)] *)
Definition df_len (df : DataFrame) : Z := Z.of_nat (length (index df)).

(** A scalar or a list result of an indexing operation. *)
Inductive selection (A : Type) : Type :=
  | One (a : A)
  | Many (l : list A).
Arguments One {A} a.
Arguments Many {A} l.

(** What [__getitem__] indexes with once a tensor has been converted. *)
Inductive index_key : Type :=
  | KInt (i : Z)
  | KList (l : list Z).

(** Positions, from [k] on, of the columns labelled [l]. *)
Fixpoint find_all (l : string) (cols : list string) (k : nat) : list nat :=
  match cols with
  | [] => []
  | c :: cs => if String.eqb c l then k :: find_all l cs (S k) else find_all l cs (S k)
  end.

Fixpoint select_positions (cols labels : list string) : result (list nat) :=
  match labels with
  | [] => ok []
  | l :: ls =>
      match find_all l cols 0 with
      | [] => raise KeyError
      | ps => (rest <- select_positions cols ls ;; ok (ps ++ rest))%R
      end
  end.

(** [df[labels]]: a new frame holding the selected columns. *)
Definition df_getitem (df : DataFrame) (labels : list string) : result DataFrame :=
  (ps <- select_positions (columns df) labels ;;
   ok {| index := index df;
         columns := map (fun p => nth p (columns df) ""%string) ps;
         cell := fun i j => cell df i (nth j ps 0%nat) |})%R.

(** Positional indexing into [n] items: negative positions count from the end,
    anything else out of range raises IndexError. *)
Definition norm_pos (n : nat) (i : Z) : result nat :=
  if (0 <=? i) && (i <? Z.of_nat n) then ok (Z.to_nat i)
  else if (- Z.of_nat n <=? i) && (i <? 0) then ok (Z.to_nat (Z.of_nat n + i))
  else raise IndexError.

Fixpoint norm_all (n : nat) (l : list Z) : result (list nat) :=
  match l with
  | [] => ok []
  | i :: rest => (r <- norm_pos n i ;; rs <- norm_all n rest ;; ok (r :: rs))%R
  end.

Definition row_values (df : DataFrame) (r : nat) : list float :=
  map (cell df r) (seq 0 (length (columns df))).

(** [df.iloc[k].values] *)
Definition iloc_values (df : DataFrame) (k : index_key) : result (selection (list float)) :=
  match k with
  | KInt i => (r <- norm_pos (length (index df)) i ;; ok (One (row_values df r)))%R
  | KList l => (rs <- norm_all (length (index df)) l ;; ok (Many (map (row_values df) rs)))%R
  end.

(** [df.index[k]] *)
Definition index_getitem (df : DataFrame) (k : index_key) : result (selection string) :=
  match k with
  | KInt i => (r <- norm_pos (length (index df)) i ;; ok (One (nth r (index df) ""%string)))%R
  | KList l =>
      (rs <- norm_all (length (index df)) l ;;
       ok (Many (map (fun r => nth r (index df) ""%string) rs)))%R
  end.

End Frame.
Import Frame.

(** ** Stage objects and the dataset object *)

Module Dataset.

(** A 2-D tensor, row by row: a waveform is (channels, samples), a filterbank
    is (frames, bins). *)
Definition tensor2 : Type := list (list float).

(** The [torch] module as the lambda of line 139 finds it when a stage calls
    it: [torch_sum] is the reduction that [torch.sum] applies to the values it
    adds up, in the tensor's element type and in torch's order of additions. *)
Record torch_lib : Type := {
  torch_sum : list float -> float
}.

(** The values of all channels at sample position [j]. *)
Definition column (j : nat) (w : tensor2) : list float :=
  map (fun channel => nth j channel 0%float) w.

(** Number of sample positions of a (channels, samples) tensor with at least
    one channel. The list of rows does not record the sample count of a tensor
    without channels; a waveform has at least one channel. *)
Definition samples (w : tensor2) : nat := length (hd [] w).

(** [torch.sum(w, axis = 0)]: at each sample position, the sum over the
    channels. *)
Definition sum_axis0 (torch : torch_lib) (w : tensor2) : list float :=
  map (fun j => torch_sum torch (column j w)) (seq 0 (samples w)).

(** [lambda w: torch.sum(w, axis = 0).unsqueeze(0)] (line 139): the sum over
    the channels, wrapped as the only row. The name [torch] is looked up when
    the lambda is called. *)
Definition channel_sum (torch : torch_lib) (w : tensor2) : tensor2 := [sum_axis0 torch w].

(** Stages of the signal transform chain, with their constructor arguments. *)
Inductive audio_stage : Type :=
  | UidToWaveform (prefix : string) (bucket : option string) (lib : bool)
  | ToMonophonic (reduce_fn : torch_lib -> tensor2 -> tensor2)
  | Resample (rate : pyval)
  | Truncate (length : pyval)
  | ToTensor
  | WaveMean.

(** Stages of the augmentation chain. *)
Inductive aug_stage : Type :=
  | TimeShifting (p : pyval)
  | SpeedTuning (p : pyval)
  | AddGaussianNoise (p : pyval)
  | PitchShift (p n_steps : pyval)
  | Gain (p : pyval)
  | StretchAudio (p : pyval).

(** The masking transforms of lines 113 and 118. *)
Inductive mask_tf : Type :=
  | CoarseDropout (always_apply : bool) (max_holes min_holes : Z)
  | Affine (translate_x translate_y : Z * Z).

(** Stages of the spectrogram transform chain. *)
Inductive spec_stage : Type :=
  | Wav2Fbank (target_length melbins : pyval) (tf_co tf_shift : option mask_tf)
      (override_wave : bool)
  | FreqMask (width : pyval)
  | TimeMask (width : pyval)
  | Normalize (mean std : pyval)
  | Noise.

(** [al_transform] is either the plain Python list it starts as, or that list
    wrapped in [albumentations.Compose]. *)
Inductive al_chain : Type :=
  | AlList (l : list aug_stage)
  | AlCompose (l : list aug_stage).

(** [al_transform != []] *)
Definition al_ne_empty (c : al_chain) : bool :=
  match c with
  | AlList [] => false
  | AlList (_ :: _) => true
  | AlCompose _ => true
  end.

(** The arguments of [AudioDataset(...)]. *)
Record InitArgs : Type := {
  a_annotations_df : DataFrame;
  a_target_labels : list string;
  a_audio_conf : gmap string pyval;
  a_prefix : string;
  a_bucket : option string;
  a_librosa : bool;
  a_cdo : bool;
  a_shift : bool
}.

(** [self] once lines 60-120 have run: the structured attributes as fields, the
    scalar attributes read from [audio_conf] in [attrs], by attribute name. *)
Record SelfAttrs : Type := {
  annotations_df : DataFrame;
  target_labels : list string;
  prefix : string;
  bucket : option string;
  lib : bool;
  audio_conf : gmap string pyval;
  attrs : gmap string pyval;
  label_num : Z;
  tf_co : option mask_tf;
  tf_shift : option mask_tf
}.

(** The constructed dataset. *)
Record AudioDataset : Type := {
  base : SelfAttrs;
  audio_transform : list audio_stage;
  al_transform : al_chain;
  spec_transform : list spec_stage
}.

(** [self.name], for a scalar attribute. *)
Definition getattr (d : gmap string pyval) (name : string) : result pyval :=
  match d !! name with
  | Some v => ok v
  | None => raise AttributeError
  end.

(** [self.attr = self.audio_conf.get(key)] *)
Definition assign_conf (attr key : string) (conf d : gmap string pyval) : gmap string pyval :=
  <[attr := dict_get conf key]> d.

Local Open Scope result_scope.

(** Lines 126-193. *)
Definition _getaudiotransform (self : SelfAttrs)
  : result (list audio_stage * al_chain) :=
  let waveform_loader := UidToWaveform (prefix self) (bucket self) (lib self) in
  let transform_list := [waveform_loader] in
  reduce <- getattr (attrs self) "reduce" ;;
  let transform_list :=
    if truthy reduce then transform_list ++ [ToMonophonic channel_sum] else transform_list in
  resample_rate <- getattr (attrs self) "resample_rate" ;;
  let transform_list :=
    if ne_zero resample_rate then transform_list ++ [Resample resample_rate]
    else transform_list in
  clip_length <- getattr (attrs self) "clip_length" ;;
  let transform_list :=
    if ne_zero clip_length then transform_list ++ [Truncate clip_length] else transform_list in
  let transform_list := transform_list ++ [ToTensor] in
  let transform_list := transform_list ++ [WaveMean] in
  let transform := transform_list in
  let al_transform := [] in
  tshift <- getattr (attrs self) "tshift" ;;
  let al_transform :=
    if ne_zero tshift then al_transform ++ [TimeShifting tshift] else al_transform in
  speed <- getattr (attrs self) "speed" ;;
  let al_transform :=
    if ne_zero speed then al_transform ++ [SpeedTuning speed] else al_transform in
  gauss <- getattr (attrs self) "gauss" ;;
  let al_transform :=
    if ne_zero gauss then al_transform ++ [AddGaussianNoise gauss] else al_transform in
  pshift <- getattr (attrs self) "pshift" ;;
  al_transform <-
    (if ne_zero pshift then
       n_steps <- getattr (attrs self) "pshiftn" ;;
       ok (al_transform ++ [PitchShift pshift n_steps])
     else ok al_transform) ;;
  gain <- getattr (attrs self) "gain" ;;
  let al_transform :=
    if ne_zero gain then al_transform ++ [Gain gain] else al_transform in
  stretch <- getattr (attrs self) "stretch" ;;
  let al_transform :=
    if ne_zero stretch then al_transform ++ [StretchAudio stretch] else al_transform in
  let al_transform :=
    match al_transform with
    | [] => AlList al_transform
    | _ :: _ => AlCompose al_transform
    end in
  ok (transform, al_transform).

(** Lines 195-219. *)
Definition _getspectransform (self : SelfAttrs) : result (list spec_stage) :=
  target_length <- getattr (attrs self) "target_length" ;;
  melbins <- getattr (attrs self) "melbins" ;;
  let wav2bank := Wav2Fbank target_length melbins (tf_co self) (tf_shift self) false in
  let transform_list := [wav2bank] in
  freqm <- getattr (attrs self) "freqm" ;;
  let transform_list :=
    if ne_zero freqm then transform_list ++ [FreqMask freqm] else transform_list in
  timem <- getattr (attrs self) "timem" ;;
  let transform_list :=
    if ne_zero timem then transform_list ++ [TimeMask timem] else transform_list in
  skip_norm <- getattr (attrs self) "skip_norm" ;;
  transform_list <-
    (if negb (truthy skip_norm) then
       norm_mean <- getattr (attrs self) "norm_mean" ;;
       norm_std <- getattr (attrs self) "norm_std" ;;
       ok (transform_list ++ [Normalize norm_mean norm_std])
     else ok transform_list) ;;
  noise <- getattr (attrs self) "noise" ;;
  let transform_list :=
    if truthy noise then transform_list ++ [Noise] else transform_list in
  ok transform_list.

(** Lines 36-123. The text printed is not modelled, only the exceptions that
    building it can raise. *)
Definition __init__ (args : InitArgs) : result AudioDataset :=
  let conf := a_audio_conf args in
  let d : gmap string pyval := ∅ in
  _ <- format_s (dict_get conf "mode") ;;
  let d := assign_conf "dataset" "dataset" conf d in
  dataset <- getattr d "dataset" ;;
  _ <- str_concat dataset ;;
  let d := assign_conf "resample_rate" "resample_rate" conf d in
  let d := assign_conf "reduce" "reduce" conf d in
  let d := assign_conf "clip_length" "clip_length" conf d in
  let d := assign_conf "tshift" "tshift" conf d in
  let d := assign_conf "speed" "speed" conf d in
  let d := assign_conf "gauss" "gauss_noise" conf d in
  let d := assign_conf "pshift" "pshift" conf d in
  let d := assign_conf "pshift_n" "pshiftn" conf d in
  let d := assign_conf "gain" "gain" conf d in
  let d := assign_conf "stretch" "stretch" conf d in
  let d := assign_conf "melbins" "num_mel_bins" conf d in
  let d := assign_conf "freqm" "freqm" conf d in
  let d := assign_conf "timem" "timem" conf d in
  _ <- format_d (dict_get conf "freqm") ;;
  _ <- format_d (dict_get conf "timem") ;;
  let d := assign_conf "norm_mean" "mean" conf d in
  let d := assign_conf "norm_std" "std" conf d in
  let d :=
    <["skip_norm" :=
        if truthy (dict_get conf "skip_norm") then dict_get conf "skip_norm"
        else PBool false]> d in
  skip_norm <- getattr d "skip_norm" ;;
  _ <- (if truthy skip_norm then ok tt
        else
          norm_mean <- getattr d "norm_mean" ;;
          norm_std <- getattr d "norm_std" ;;
          _ <- format_3f norm_mean ;;
          format_3f norm_std) ;;
  let d := assign_conf "noise" "noise" conf d in
  let d := assign_conf "target_length" "target_length" conf d in
  (* line 110 formats [len(self.target_labels)], an [int] of at most
     [sys.maxsize]: within the digit limit, it cannot raise *)
  let label_num := Z.of_nat (length (a_target_labels args)) in
  tf_co <-
    (if a_cdo args then
       _ <- torch_getattr "CoarseDropout" ;; ok (Some (CoarseDropout true 16 8))
     else ok None) ;;
  tf_shift <-
    (if a_shift args then
       _ <- torch_getattr "Affine" ;; ok (Some (Affine (0, 0) (0, 100)))
     else ok None) ;;
  let self :=
    {| annotations_df := a_annotations_df args;
       target_labels := a_target_labels args;
       prefix := a_prefix args;
       bucket := a_bucket args;
       lib := a_librosa args;
       audio_conf := conf;
       attrs := d;
       label_num := label_num;
       tf_co := tf_co;
       tf_shift := tf_shift |} in
  chains <- _getaudiotransform self ;;
  spec <- _getspectransform self ;;
  ok {| base := self;
        audio_transform := fst chains;
        al_transform := snd chains;
        spec_transform := spec |}.

End Dataset.
Import Dataset.

(** ** Running the pipeline: [__getitem__] and [__len__] *)

Module Pipeline.

(** The sample dictionary. [uid] and [targets] are set by [__getitem__]; the
    other keys are absent ([None]) until a stage stores them. *)
Record sample : Type := {
  uid : selection string;
  targets : selection (list float);
  waveform : option tensor2;
  sample_rate : option Z;
  fbank : option tensor2
}.

(** Integer tensors of rank 0 and 1, and the indices [__getitem__] is called
    with. *)
Inductive tensor : Type :=
  | Tensor0 (z : Z)
  | Tensor1 (l : list Z).

Inductive pyidx : Type :=
  | IdxInt (i : Z)
  | IdxList (l : list Z)
  | IdxTensor (t : tensor).

(** [t.tolist()]: a Python scalar for rank 0, a list for rank 1. *)
Definition tolist (t : tensor) : index_key :=
  match t with
  | Tensor0 z => KInt z
  | Tensor1 l => KList l
  end.

(** Lines 241-242, [if torch.is_tensor(idx): idx = idx.tolist()]: the value
    that indexes the table. *)
Definition index_value (idx : pyidx) : index_key :=
  match idx with
  | IdxTensor t => tolist t
  | IdxInt i => KInt i
  | IdxList l => KList l
  end.

Section Run.

(** Everything outside the program that a stage reads or draws from: the audio
    files and the random generators. *)
Context {World : Type}.

(** A computation that may read the world and may raise. *)
Definition W (A : Type) : Type := World -> World * result A.

Definition wret {A} (a : A) : W A := fun w => (w, ok a).

Definition wbind {A B} (c : W A) (k : A -> W B) : W B :=
  fun w =>
    match c w with
    | (w', inl e) => (w', inl e)
    | (w', inr a) => k a w'
    end.

(** The [__call__] methods of the stage classes of the signal and of the
    spectrogram chain. *)
Variable call_audio : audio_stage -> sample -> W sample.
Variable call_spec : spec_stage -> sample -> W sample.

(** [transforms.Compose.__call__]: [for t in self.transforms: img = t(img)]. *)
Fixpoint compose_call {S : Type} (call : S -> sample -> W sample)
    (transforms : list S) (img : sample) : W sample :=
  match transforms with
  | [] => wret img
  | t :: ts => wbind (call t img) (compose_call call ts)
  end.

(** [self.al_transform(sample)] (line 254). A plain list is not callable.
    [albumentations.Compose.__call__(self, *args, force_apply=False, **data)]
    takes the data as keyword arguments: given a positional argument it raises
    KeyError before any of its transforms runs. *)
Definition call_al (c : al_chain) (s : sample) : W sample :=
  match c with
  | AlList _ => fun w => (w, raise TypeError)
  | AlCompose _ => fun w => (w, raise KeyError)
  end.

(** A method runs on the dataset object and the world. *)
Record State : Type := {
  self : AudioDataset;
  world : World
}.

Definition M (A : Type) : Type := State -> State * result A.

Definition mret {A} (a : A) : M A := fun st => (st, ok a).

Definition mbind {A B} (c : M A) (k : A -> M B) : M B :=
  fun st =>
    match c st with
    | (st', inl e) => (st', inl e)
    | (st', inr a) => k a st'
    end.

Definition get_self : M AudioDataset := fun st => (st, ok (self st)).

Definition lift_result {A} (r : result A) : M A := fun st => (st, r).

Definition lift_world {A} (c : W A) : M A :=
  fun st =>
    let (w', r) := c (world st) in
    ({| self := self st; world := w' |}, r).

Declare Scope method_scope.
Delimit Scope method_scope with M.
Notation "x <- e ;; k" := (mbind e (fun x => k))
  (at level 100, e at next level, right associativity) : method_scope.

Local Open Scope method_scope.

(** Lines 244-250: the uid and the targets of the row, as the sample the first
    stage receives. *)
Definition resolve (ds : AudioDataset) (key : index_key) : result sample :=
  (uid <- index_getitem (annotations_df (base ds)) key ;;
   selected <- df_getitem (annotations_df (base ds)) (target_labels (base ds)) ;;
   targets <- iloc_values selected key ;;
   ok {| uid := uid; targets := targets;
         waveform := None; sample_rate := None; fbank := None |})%R.

(** Lines 222-258. *)
Definition __getitem__ (idx : pyidx) : M sample :=
  let idx := index_value idx in
  ds <- get_self ;;
  sample <- lift_result (resolve ds idx) ;;
  ds <- get_self ;;
  sample <- lift_world (compose_call call_audio (audio_transform ds) sample) ;;
  ds <- get_self ;;
  sample <-
    (if al_ne_empty (al_transform ds) then lift_world (call_al (al_transform ds) sample)
     else mret sample) ;;
  ds <- get_self ;;
  sample <- lift_world (compose_call call_spec (spec_transform ds) sample) ;;
  mret sample.

(** Lines 261-262. *)
Definition __len__ : M Z :=
  ds <- get_self ;;
  mret (df_len (annotations_df (base ds))).

(** The three chains of [ds] run on a resolved sample, as one world
    computation. *)
Definition run_chains (ds : AudioDataset) (s : sample) : W sample :=
  wbind (compose_call call_audio (audio_transform ds) s) (fun s1 =>
  wbind (if al_ne_empty (al_transform ds) then call_al (al_transform ds) s1 else wret s1)
    (fun s2 => compose_call call_spec (spec_transform ds) s2)).

(** Some stage of the chain raises [e], leaving the world [w']: every stage
    before it returned. *)
Inductive stage_raises {S : Type} (call : S -> sample -> W sample)
  : list S -> sample -> World -> exn -> World -> Prop :=
  | raises_here t ts s w e w' :
      call t s w = (w', inl e) ->
      stage_raises call (t :: ts) s w e w'
  | raises_later t ts s w s1 w1 e w' :
      call t s w = (w1, inr s1) ->
      stage_raises call ts s1 w1 e w' ->
      stage_raises call (t :: ts) s w e w'.

End Run.

End Pipeline.
Import Pipeline.

(** ** The spectrogram stages, modelled from the specification

    The classes [Wav2Fbank], [FreqMask], [TimeMask], [Normalize] and [Noise]
    are defined in [utilities/dataloader_utils.py]. They are given here the
    behaviour that the specification (section 4.4) describes. *)

Module SpecModel.

(** The error classes that the specification names for the stages (section 7);
    the classes that raise them are not among the sources. *)
Definition NotFoundError : exn := RaisedBy "NotFoundError".
Definition EmptyAudioError : exn := RaisedBy "EmptyAudioError".
Definition ShapeInvariantError : exn := RaisedBy "ShapeInvariantError".

(** [x] has [r] rows of [c] entries each. *)
Definition has_shape (x : tensor2) (r c : nat) : Prop :=
  length x = r /\ Forall (fun row => length row = c) x.

(** Modelled from the spec: how the absent stage classes read an integer
    argument ("freq_mask_width: int", "target_length_frames: int"); [bool] is a
    subclass of [int], anything else is no integer. *)
Definition as_int (v : pyval) : result Z :=
  match v with
  | PInt z => ok z
  | PBool b => ok (if b then 1 else 0)
  | _ => raise TypeError
  end.

(** Modelled from the spec: a dimension of the feature array handed to the
    absent [Wav2Fbank], a non-negative integer. *)
Definition as_dim (v : pyval) : result nat :=
  (z <- as_int v ;; if 0 <=? z then ok (Z.to_nat z) else raise ValueError)%R.

(** [float(z)], rounded to nearest. *)
Definition float_of_Z (z : Z) : float :=
  SF2Prim (binary_normalize prec emax z 0 false).

(** Modelled from the spec: how the absent [Normalize] reads its arguments
    ("normalize_mean: float, normalize_std: float"), as numbers usable in
    tensor arithmetic. *)
Definition as_float (v : pyval) : result float :=
  match v with
  | PFloat f => ok f
  | PInt z => ok (float_of_Z z)
  | PBool b => ok (if b then 1%float else 0%float)
  | _ => raise TypeError
  end.

(** Modelled from the spec: the frame-count fix of the conversion stage of
    [Wav2Fbank], "forced to exactly target_length_frames by truncation (if
    longer) or zero-padding at the end (if shorter)". *)
Definition fix_frames (target bins : nat) (fb : tensor2) : tensor2 :=
  if (length fb <? target)%nat
  then fb ++ repeat (repeat 0%float bins) (target - length fb)
  else firstn target fb.

(** Position [k] lies in the band of [width] positions from [start]. *)
Definition in_band (start width k : nat) : bool :=
  (start <=? k)%nat && (k <? start + width)%nat.

(** Modelled from the spec: frequency masking of the absent [FreqMask],
    "zeroes out a contiguous random-width band ... of frequency bins". *)
Definition zero_bins (start width : nat) (fb : tensor2) : tensor2 :=
  map (imap (fun j x => if in_band start width j then 0%float else x)) fb.

(** Modelled from the spec: time masking of the absent [TimeMask], "zeroes
    out a contiguous random-width band ... of time frames". *)
Definition zero_frames (start width : nat) (fb : tensor2) : tensor2 :=
  imap (fun i row => if in_band start width i then map (fun _ => 0%float) row else row) fb.

(** Modelled from the spec: the absent [Normalize] "subtracts configured dataset mean
    and divides by configured dataset std". *)
Definition normalize (mean std : float) (fb : tensor2) : tensor2 :=
  map (map (fun x => PrimFloat.div (PrimFloat.sub x mean) std)) fb.

(** Modelled from the spec: the absent [Noise] "adds low-amplitude random noise
    directly to the normalized features"; [noise i j] is the noise drawn for
    frame [i], bin [j]. *)
Definition add_noise (noise : nat -> nat -> float) (fb : tensor2) : tensor2 :=
  imap (fun i row => imap (fun j x => PrimFloat.add x (noise i j)) row) fb.

Section Stages.

Context {World : Type}.

(** The mel-filterbank computation (a library routine): waveform, sample rate
    and number of bins to frames of bins. *)
Variable mel_fbank : tensor2 -> Z -> nat -> tensor2.

(** Coarse dropout and affine translation on a feature map (library
    routines). *)
Variable apply_mask_tf : mask_tf -> tensor2 -> World -> World * tensor2.

(** The random band of a masking stage: maximal width and axis length to start
    and width. *)
Variable draw_band : Z -> nat -> World -> World * (nat * nat).

(** The random noise of the noise stage. *)
Variable draw_noise : World -> World * (nat -> nat -> float).

(** Modelled from the spec: an optional masking transform "injected into the
    conversion stage" of the absent [Wav2Fbank]; none leaves the feature map
    and the world as they are. *)
Definition apply_opt_mask (tf : option mask_tf) (fb : tensor2) (w : World)
  : World * tensor2 :=
  match tf with
  | None => (w, fb)
  | Some t => apply_mask_tf t fb w
  end.

(** The sample with its features stored under ['fbank']. *)
Definition set_fbank (s : sample) (fb : tensor2) : sample :=
  {| uid := uid s; targets := targets s; waveform := waveform s;
     sample_rate := sample_rate s; fbank := Some fb |}.

(** Every frame of [fb] has [m] bins. *)
Definition has_bins (m : nat) (fb : tensor2) : bool :=
  forallb (fun frame => (length frame =? m)%nat) fb.

(** Modelled from the spec: the conversion stage of the absent [Wav2Fbank].
    The two optional masking transforms are "applied to the feature map
    before the frame-count fix". A conversion that "fails to produce the
    configured bin count" is a ShapeInvariantError (section 7). A sample
    without waveform or sample rate is a missing dictionary key. *)
Definition wav2fbank (target_length melbins : pyval) (tf_co tf_shift : option mask_tf)
    (s : sample) : @W World sample :=
  fun w =>
    match waveform s, sample_rate s with
    | Some wv, Some sr =>
        match as_dim target_length, as_dim melbins with
        | inr t, inr m =>
            let fb := mel_fbank wv sr m in
            let (w1, fb1) := apply_opt_mask tf_co fb w in
            let (w2, fb2) := apply_opt_mask tf_shift fb1 w1 in
            if has_bins m fb2 then (w2, ok (set_fbank s (fix_frames t m fb2)))
            else (w2, raise ShapeInvariantError)
        | inl e, _ => (w, raise e)
        | _, inl e => (w, raise e)
        end
    | _, _ => (w, raise KeyError)
    end.

(** Modelled from the spec: a post-processing stage of the absent classes
    rewrites the feature map of the sample; without one the key is missing. *)
Definition on_fbank (f : tensor2 -> World -> World * result tensor2) (s : sample)
  : @W World sample :=
  fun w =>
    match fbank s with
    | None => (w, raise KeyError)
    | Some fb =>
        match f fb w with
        | (w', inr fb') => (w', ok (set_fbank s fb'))
        | (w', inl e) => (w', raise e)
        end
    end.

(** Number of bins of the first frame. *)
Definition bins_of (fb : tensor2) : nat :=
  match fb with
  | [] => 0%nat
  | row :: _ => length row
  end.

(** Modelled from the spec: the [__call__] of the five spectrogram stage
    classes, absent from the sources. *)
Definition call_spec (t : spec_stage) (s : sample) : @W World sample :=
  match t with
  | Wav2Fbank target_length melbins tf_co tf_shift _ =>
      wav2fbank target_length melbins tf_co tf_shift s
  | FreqMask width =>
      on_fbank (fun fb w =>
        match as_int width with
        | inl e => (w, raise e)
        | inr mx =>
            let (w', band) := draw_band mx (bins_of fb) w in
            (w', ok (zero_bins (fst band) (snd band) fb))
        end) s
  | TimeMask width =>
      on_fbank (fun fb w =>
        match as_int width with
        | inl e => (w, raise e)
        | inr mx =>
            let (w', band) := draw_band mx (length fb) w in
            (w', ok (zero_frames (fst band) (snd band) fb))
        end) s
  | Normalize mean std =>
      on_fbank (fun fb w =>
        match as_float mean, as_float std with
        | inr m, inr sd => (w, ok (normalize m sd fb))
        | inl e, _ => (w, raise e)
        | _, inl e => (w, raise e)
        end) s
  | Noise =>
      on_fbank (fun fb w =>
        let (w', noise) := draw_noise w in
        (w', ok (add_noise noise fb))) s
  end.

End Stages.

End SpecModel.
Import SpecModel.

(** ** The signal stages, modelled from the specification

    The classes [UidToWaveform], [ToMonophonic], [Resample], [Truncate],
    [ToTensor] and [WaveMean] are defined in [utilities/dataloader_utils.py].
    They are given here the behaviour that the specification (sections 4.1
    and 4.2) describes. *)

Module SignalModel.

(** The integer part of a finite float. *)
Definition trunc_float (f : float) : option Z :=
  match Prim2SF f with
  | S754_zero _ => Some 0
  | S754_finite sign m e =>
      let v := if 0 <=? e then Z.pos m * 2 ^ e else Z.pos m / 2 ^ (- e) in
      Some (if sign then - v else v)
  | _ => None
  end.

(** Modelled from the spec: the number of samples that the absent [Truncate]
    keeps, "the first clip_length x sample_rate samples", for a clip length in
    seconds that is an integer or a float; a product that is no finite number
    is no count. *)
Definition clip_samples (clip_length : pyval) (sr : Z) : result nat :=
  match clip_length with
  | PInt c => ok (Z.to_nat (c * sr))
  | PBool b => ok (Z.to_nat ((if b then 1 else 0) * sr))
  | PFloat f =>
      match trunc_float (f * float_of_Z sr)%float with
      | Some n => ok (Z.to_nat n)
      | None => raise ValueError
      end
  | _ => raise TypeError
  end.

(** The sample with its waveform and sample rate stored. *)
Definition set_waveform (s : sample) (wv : tensor2) (sr : Z) : sample :=
  {| uid := uid s; targets := targets s; waveform := Some wv;
     sample_rate := Some sr; fbank := fbank s |}.

Section Stages.

Context {World : Type}.

(** The [torch] module that a reduction function finds when it is called. *)
Variable torch : torch_lib.

(** The acquisition backend: the recording that the world holds for a uid,
    under a prefix, in a bucket, read by one of the two decoding libraries;
    waveform and sample rate. *)
Variable load :
  World -> string -> option string -> bool -> selection string -> option (tensor2 * Z).

(** The resampling routine (a library routine): waveform, current rate and
    target rate. *)
Variable resample : tensor2 -> Z -> Z -> tensor2.

(** The mean amplitude of a waveform (a library reduction). *)
Variable wave_mean : tensor2 -> float.

(** Modelled from the spec: a stage of the absent classes that works on the
    waveform replaces waveform and sample rate of the sample; "any stage that
    receives a zero-length waveform fails with EmptyAudioError"; without a
    waveform the key is missing. The world is only read: "no side effects
    beyond the read". *)
Definition on_waveform (f : tensor2 -> Z -> result (tensor2 * Z)) (s : sample)
  : @W World sample :=
  fun w =>
    match waveform s, sample_rate s with
    | Some wv, Some sr =>
        if (samples wv =? 0)%nat then (w, raise EmptyAudioError)
        else
          match f wv sr with
          | inr (wv', sr') => (w, ok (set_waveform s wv' sr'))
          | inl e => (w, raise e)
          end
    | _, _ => (w, raise KeyError)
    end.

(** Modelled from the spec: the [__call__] of the six signal stage classes,
    absent from the sources. The loader "fails with NotFoundError if no audio
    resource matches the identifier"; channel reduction applies the reduction
    function it was built with; resampling runs when the "target rate" differs
    from 0 and from the current rate, and "updates the recorded sample rate";
    truncation "takes the first clip_length x sample_rate samples; if the
    waveform is shorter, it is left unchanged"; tensor conversion changes
    neither samples nor rate; mean centering "subtracts the per-sample mean
    amplitude". *)
Definition call_audio (t : audio_stage) (s : sample) : @W World sample :=
  match t with
  | UidToWaveform prefix bucket lib =>
      fun w =>
        match load w prefix bucket lib (uid s) with
        | Some (wv, sr) => (w, ok (set_waveform s wv sr))
        | None => (w, raise NotFoundError)
        end
  | ToMonophonic reduce_fn => on_waveform (fun wv sr => ok (reduce_fn torch wv, sr)) s
  | Resample rate =>
      on_waveform (fun wv sr =>
        (target <- as_int rate ;;
         if (target =? 0) || (target =? sr) then ok (wv, sr)
         else ok (resample wv sr target, target))%R) s
  | Truncate clip_length =>
      on_waveform (fun wv sr =>
        (n <- clip_samples clip_length sr ;; ok (map (firstn n) wv, sr))%R) s
  | ToTensor => on_waveform (fun wv sr => ok (wv, sr)) s
  | WaveMean =>
      on_waveform (fun wv sr =>
        ok (map (map (fun x => PrimFloat.sub x (wave_mean wv))) wv, sr)) s
  end.

End Stages.

End SignalModel.

(** ** Declarative readings of the construction and of the pipeline, used to
       state the properties *)

(** The instance dictionary after line 107. *)
Definition init_attrs (conf : gmap string pyval) : gmap string pyval :=
  let d : gmap string pyval := ∅ in
  let d := assign_conf "dataset" "dataset" conf d in
  let d := assign_conf "resample_rate" "resample_rate" conf d in
  let d := assign_conf "reduce" "reduce" conf d in
  let d := assign_conf "clip_length" "clip_length" conf d in
  let d := assign_conf "tshift" "tshift" conf d in
  let d := assign_conf "speed" "speed" conf d in
  let d := assign_conf "gauss" "gauss_noise" conf d in
  let d := assign_conf "pshift" "pshift" conf d in
  let d := assign_conf "pshift_n" "pshiftn" conf d in
  let d := assign_conf "gain" "gain" conf d in
  let d := assign_conf "stretch" "stretch" conf d in
  let d := assign_conf "melbins" "num_mel_bins" conf d in
  let d := assign_conf "freqm" "freqm" conf d in
  let d := assign_conf "timem" "timem" conf d in
  let d := assign_conf "norm_mean" "mean" conf d in
  let d := assign_conf "norm_std" "std" conf d in
  let d :=
    <["skip_norm" :=
        if truthy (dict_get conf "skip_norm") then dict_get conf "skip_norm"
        else PBool false]> d in
  let d := assign_conf "noise" "noise" conf d in
  assign_conf "target_length" "target_length" conf d.

(** [self] when line 122 is reached: no masking transform was built. *)
Definition mk_self (args : InitArgs) : SelfAttrs :=
  {| annotations_df := a_annotations_df args;
     target_labels := a_target_labels args;
     prefix := a_prefix args;
     bucket := a_bucket args;
     lib := a_librosa args;
     audio_conf := a_audio_conf args;
     attrs := init_attrs (a_audio_conf args);
     label_num := Z.of_nat (length (a_target_labels args));
     tf_co := None;
     tf_shift := None |}.

(** The statements of lines 60-120 that can raise, in program order. *)
Definition init_checks (args : InitArgs) : result unit :=
  (let conf := a_audio_conf args in
   _ <- format_s (dict_get conf "mode") ;;
   _ <- str_concat (dict_get conf "dataset") ;;
   _ <- format_d (dict_get conf "freqm") ;;
   _ <- format_d (dict_get conf "timem") ;;
   _ <- (if truthy (dict_get conf "skip_norm") then ok tt
         else _ <- format_3f (dict_get conf "mean") ;; format_3f (dict_get conf "std")) ;;
   _ <- (if a_cdo args then raise AttributeError else ok tt) ;;
   if a_shift args then raise AttributeError else ok tt)%R.

(** The signal chain as a function of the configuration. *)
Definition audio_stages (args : InitArgs) : list audio_stage :=
  let conf := a_audio_conf args in
  [UidToWaveform (a_prefix args) (a_bucket args) (a_librosa args)]
  ++ (if truthy (dict_get conf "reduce") then [ToMonophonic channel_sum] else [])
  ++ (if ne_zero (dict_get conf "resample_rate")
      then [Resample (dict_get conf "resample_rate")] else [])
  ++ (if ne_zero (dict_get conf "clip_length")
      then [Truncate (dict_get conf "clip_length")] else [])
  ++ [ToTensor; WaveMean].

(** The augmentation stages other than pitch shift, in chain order around the
    place of pitch shift. *)
Definition aug_before_pitch (conf : gmap string pyval) : list aug_stage :=
  (if ne_zero (dict_get conf "tshift") then [TimeShifting (dict_get conf "tshift")] else [])
  ++ (if ne_zero (dict_get conf "speed") then [SpeedTuning (dict_get conf "speed")] else [])
  ++ (if ne_zero (dict_get conf "gauss_noise")
      then [AddGaussianNoise (dict_get conf "gauss_noise")] else []).

Definition aug_after_pitch (conf : gmap string pyval) : list aug_stage :=
  (if ne_zero (dict_get conf "gain") then [Gain (dict_get conf "gain")] else [])
  ++ (if ne_zero (dict_get conf "stretch") then [StretchAudio (dict_get conf "stretch")] else []).

Definition wrap_al (l : list aug_stage) : al_chain :=
  match l with
  | [] => AlList l
  | _ :: _ => AlCompose l
  end.

(** The spectrogram chain as a function of the configuration. *)
Definition spec_stages (conf : gmap string pyval) : list spec_stage :=
  [Wav2Fbank (dict_get conf "target_length") (dict_get conf "num_mel_bins") None None false]
  ++ (if ne_zero (dict_get conf "freqm") then [FreqMask (dict_get conf "freqm")] else [])
  ++ (if ne_zero (dict_get conf "timem") then [TimeMask (dict_get conf "timem")] else [])
  ++ (if truthy (dict_get conf "skip_norm") then []
      else [Normalize (dict_get conf "mean") (dict_get conf "std")])
  ++ (if truthy (dict_get conf "noise") then [Noise] else []).

(** The dataset that a successful construction returns. *)
Definition built (args : InitArgs) : AudioDataset :=
  {| base := mk_self args;
     audio_transform := audio_stages args;
     al_transform :=
       wrap_al (aug_before_pitch (a_audio_conf args) ++ aug_after_pitch (a_audio_conf args));
     spec_transform := spec_stages (a_audio_conf args) |}.

(** The error class that the specification names for a contradictory
    configuration; no statement of the source raises it. *)
Definition ConfigurationError : exn := RaisedBy "ConfigurationError".

Definition is_none (v : pyval) : bool :=
  match v with
  | PNone => true
  | _ => false
  end.

(** [a > b] on integer entries. *)
Definition int_gt (a b : pyval) : bool :=
  match a, b with
  | PInt x, PInt y => y <? x
  | _, _ => false
  end.

(** The contradictions that the claim lists: normalization requested without
    mean or std, or a masking width larger than the dimension it masks. *)
Definition contradictory (conf : gmap string pyval) : bool :=
  (negb (truthy (dict_get conf "skip_norm"))
   && (is_none (dict_get conf "mean") || is_none (dict_get conf "std")))
  || int_gt (dict_get conf "freqm") (dict_get conf "num_mel_bins")
  || int_gt (dict_get conf "timem") (dict_get conf "target_length").

(** [args] with the two masking widths replaced. *)
Definition with_masks (args : InitArgs) (fm tm : Z) : InitArgs :=
  {| a_annotations_df := a_annotations_df args;
     a_target_labels := a_target_labels args;
     a_audio_conf := <["freqm" := PInt fm]> (<["timem" := PInt tm]> (a_audio_conf args));
     a_prefix := a_prefix args;
     a_bucket := a_bucket args;
     a_librosa := a_librosa args;
     a_cdo := a_cdo args;
     a_shift := a_shift args |}.

(** A stage that runs when [enabled] and is stepped over otherwise. *)
Definition opt_stage {World S : Type} (call : S -> sample -> @W World sample)
    (enabled : bool) (t : S) (s : sample) : @W World sample :=
  if enabled then call t s else wret s.

(** Position of the first column labelled [l]. *)
Fixpoint col_pos (l : string) (cols : list string) : nat :=
  match cols with
  | [] => 0%nat
  | c :: cs => if String.eqb c l then 0%nat else S (col_pos l cs)
  end.

(** The sample that a row yields: its uid and, for each target label in turn,
    the cell of that row in the column of that label. *)
Definition row_sample (df : DataFrame) (labels : list string) (r : nat) : sample :=
  {| uid := One (nth r (index df) ""%string);
     targets := One (map (fun l => cell df r (col_pos l (columns df))) labels);
     waveform := None; sample_rate := None; fbank := None |}.

(** The outcome of a world computation, as the outcome of a method of [ds]. *)
Definition on_dataset {World A : Type} (ds : AudioDataset) (out : World * result A)
  : @State World * result A :=
  ({| self := ds; world := fst out |}, snd out).

(** The sample holds features of [t] frames by [m] bins. *)
Definition shaped (t m : nat) (s : sample) : Prop :=
  exists fb, fbank s = Some fb /\ has_shape fb t m.

(** A stage after the conversion whose arguments are numbers. *)
Definition numeric_stage (st : spec_stage) : Prop :=
  match st with
  | Wav2Fbank _ _ _ _ _ => False
  | FreqMask v | TimeMask v => exists z, as_int v = ok z
  | Normalize mean std => (exists a, as_float mean = ok a) /\ (exists b, as_float std = ok b)
  | Noise => True
  end.

(** A spectrogram stage that was given no masking transform. *)
Definition without_mask_tf (st : spec_stage) : bool :=
  match st with
  | Wav2Fbank _ _ None None _ => true
  | Wav2Fbank _ _ _ _ _ => false
  | _ => true
  end.

(** A spectrogram stage without random part: the conversion without masking
    transform, and normalization. *)
Definition draws_nothing (st : spec_stage) : bool :=
  match st with
  | Wav2Fbank _ _ None None _ => true
  | Normalize _ _ => true
  | _ => false
  end.

(** [w'] is the world [w] after some draws of the masking and noise stages,
    and nothing else. *)
Inductive drawn {World : Type} (draw_band : Z -> nat -> World -> World * (nat * nat))
    (draw_noise : World -> World * (nat -> nat -> float)) : World -> World -> Prop :=
  | drawn_none w : drawn draw_band draw_noise w w
  | drawn_band mx n w w' :
      drawn draw_band draw_noise (fst (draw_band mx n w)) w' ->
      drawn draw_band draw_noise w w'
  | drawn_noise w w' :
      drawn draw_band draw_noise (fst (draw_noise w)) w' ->
      drawn draw_band draw_noise w w'.

(** ** Concrete inputs *)

Module Demo.

(** Three recordings with two label columns; the second label of [u002] is
    missing. *)
Definition table : DataFrame :=
  {| index := ["u001"; "u002"; "u003"]%string;
     columns := ["breathy"; "strain"]%string;
     cell := fun i j =>
       match i, j with
       | 0%nat, 0%nat => 1%float
       | 1%nat, 0%nat => 0.5%float
       | 1%nat, 1%nat => nan
       | 2%nat, 1%nat => 1%float
       | _, _ => 0%float
       end |}.

(** An evaluation configuration: augmentation and masking off. *)
Definition eval_conf : gmap string pyval :=
  list_to_map
    [("mode", PStr "evaluation"); ("dataset", PStr "mayo");
     ("resample_rate", PInt 16000); ("reduce", PBool true);
     ("clip_length", PFloat 10%float);
     ("tshift", PInt 0); ("speed", PInt 0); ("gauss_noise", PInt 0);
     ("pshift", PInt 0); ("pshiftn", PInt 0); ("gain", PInt 0); ("stretch", PInt 0);
     ("num_mel_bins", PInt 4); ("target_length", PInt 3);
     ("freqm", PInt 0); ("timem", PInt 0); ("noise", PBool false);
     ("mean", PFloat (-4.5)%float); ("std", PFloat 4.5%float)]%string.

(** A training configuration: some augmentations, masking and noise on. *)
Definition train_conf : gmap string pyval :=
  <["tshift" := PFloat 0.5%float]> (<["gauss_noise" := PFloat 0.75%float]>
  (<["gain" := PFloat 0.5%float]> (<["freqm" := PInt 2]> (<["timem" := PInt 1]>
  (<["noise" := PBool true]> eval_conf))))).

(** A configuration with masking and noise on, and augmentation off. *)
Definition mask_conf : gmap string pyval :=
  <["freqm" := PInt 2]> (<["timem" := PInt 1]> (<["noise" := PBool true]> eval_conf)).

Definition args_of (conf : gmap string pyval) (cdo shift : bool) : InitArgs :=
  {| a_annotations_df := table;
     a_target_labels := ["breathy"; "strain"]%string;
     a_audio_conf := conf;
     a_prefix := "wavs";
     a_bucket := None;
     a_librosa := false;
     a_cdo := cdo;
     a_shift := shift |}.

End Demo.

(** ** Stand-ins for the library routines and the backend, for concrete runs

    The world is a draw counter. The backend holds two recordings at 8 kHz and
    none for any other uid. The stand-in for [torch.sum] adds in binary64 from
    the first channel on: on the small dyadic values of the recordings every
    order of additions and both float precisions give the same sums. The
    resampler repeats or drops samples (nearest neighbour); the filterbank
    stand-in makes one frame per sample of the first channel. *)

Module DemoRun.

Definition torch : torch_lib :=
  {| torch_sum := fun col => fold_left PrimFloat.add (tl col) (hd 0%float col) |}.

Definition load (w : nat) (prefix : string) (bucket : option string) (lib : bool)
    (u : selection string) : option (tensor2 * Z) :=
  match u with
  | One "u001" => Some ([[1; 2; 3; 4; 5]; [1; 0; 1; 0; 1]]%float, 8000)
  | One "u002" => Some ([[4.5; 0]]%float, 8000)
  | _ => None
  end.

Definition resample (wv : tensor2) (sr target : Z) : tensor2 :=
  map (fun channel =>
         map (fun j => nth (Z.to_nat (Z.of_nat j * sr / target)) channel 0%float)
           (seq 0 (Z.to_nat (Z.of_nat (length channel) * target / sr)))) wv.

Definition wave_mean (wv : tensor2) : float :=
  (fold_left PrimFloat.add (concat wv) 0 / float_of_Z (Z.of_nat (length (concat wv))))%float.

Definition call_audio : audio_stage -> sample -> @W nat sample :=
  SignalModel.call_audio torch load resample wave_mean.

Definition mel_fbank (wv : tensor2) (sr : Z) (m : nat) : tensor2 :=
  map (fun x => repeat x m) (hd [] wv).

Definition apply_mask_tf (t : mask_tf) (fb : tensor2) (w : nat) : nat * tensor2 := (w, fb).

Definition draw_band (mx : Z) (n : nat) (w : nat) : nat * (nat * nat) :=
  (S w, (w mod S n, Z.to_nat mx))%nat.

Definition draw_noise (w : nat) : nat * (nat -> nat -> float) :=
  (S w, fun _ _ => 0.125%float).

Definition call_spec : spec_stage -> sample -> @W nat sample :=
  SpecModel.call_spec mel_fbank apply_mask_tf draw_band draw_noise.

Definition eval_args : InitArgs := Demo.args_of Demo.eval_conf false false.
Definition train_args : InitArgs := Demo.args_of Demo.train_conf false false.
Definition mask_args : InitArgs := Demo.args_of Demo.mask_conf false false.

End DemoRun.

(** ** Readings used by the further properties of the dataset *)

Definition is_str (v : pyval) : bool :=
  match v with
  | PStr _ => true
  | _ => false
  end.

(** A [bool], or an [int] within the digit limit: what the format code [d]
    accepts. *)
Definition is_intlike (v : pyval) : bool :=
  match v with
  | PInt z => fits_str_digits z
  | PBool _ => true
  | _ => false
  end.

(** A [bool], a [float], or an [int] within the float range: what the format
    code [.3f] accepts. *)
Definition is_number (v : pyval) : bool :=
  match v with
  | PInt z => negb (float_overflows z)
  | PBool _ | PFloat _ => true
  | _ => false
  end.

(** The arguments with which every statement of [__init__] returns. *)
Definition constructible (args : InitArgs) : bool :=
  let conf := a_audio_conf args in
  is_str (dict_get conf "mode")
  && is_str (dict_get conf "dataset")
  && is_intlike (dict_get conf "freqm")
  && is_intlike (dict_get conf "timem")
  && (truthy (dict_get conf "skip_norm")
      || (is_number (dict_get conf "mean") && is_number (dict_get conf "std")))
  && negb (a_cdo args)
  && negb (a_shift args)
  && negb (ne_zero (dict_get conf "pshift")).

(** [args] with another table and other target labels. *)
Definition with_table (args : InitArgs) (df : DataFrame) (labels : list string) : InitArgs :=
  {| a_annotations_df := df;
     a_target_labels := labels;
     a_audio_conf := a_audio_conf args;
     a_prefix := a_prefix args;
     a_bucket := a_bucket args;
     a_librosa := a_librosa args;
     a_cdo := a_cdo args;
     a_shift := a_shift args |}.

(** The samples that a list of row positions yields: the uids and, row by row,
    the cells of the target columns. *)
Definition rows_sample (df : DataFrame) (labels : list string) (rs : list nat) : sample :=
  {| uid := Many (map (fun r => nth r (index df) ""%string) rs);
     targets :=
       Many (map (fun r => map (fun l => cell df r (col_pos l (columns df))) labels) rs);
     waveform := None; sample_rate := None; fbank := None |}.

(** ** The loops of [src/loops.py]

    The network, its optimizer and its scheduler are one value of an abstract
    type [T], changed by the calls that the source makes on them; a data
    loader gives, for the pass made in epoch [e], the batches it yields, and
    its [len]. What a loop writes to disk or uploads is recorded as a list of
    events, in program order, next to the calls of [optimizer.step()] and
    [scheduler.step()]. File operations are taken to succeed; the text printed
    is not modelled. *)

Module Loops.

(** Built-in exception classes outside the constructors of [exn], by name. *)
Definition RuntimeError : exn := RaisedBy "RuntimeError".
Definition UnboundLocalError : exn := RaisedBy "UnboundLocalError".

(** A 2-D tensor or array with its second dimension. *)
Record array2 : Type := {
  width : nat;
  rows : list (list float)
}.

(** [torch.cat(tensors)] along dimension 0: the tensors must agree on the
    other dimension (RuntimeError), and the list must not be empty; the class
    of the exception raised for an empty list, [empty_error], is that of the
    installed torch release. *)
Fixpoint cat_rest (w : nat) (l : list array2) : result (list (list float)) :=
  match l with
  | [] => ok []
  | a :: rest =>
      if (width a =? w)%nat then (r <- cat_rest w rest ;; ok (rows a ++ r))%R
      else raise RuntimeError
  end.

Definition torch_cat (empty_error : exn) (l : list array2) : result array2 :=
  match l with
  | [] => raise empty_error
  | a :: rest => (r <- cat_rest (width a) rest ;; ok {| width := width a; rows := rows a ++ r |})%R
  end.

(** A numpy array as [embedding_extraction] holds it: the 1-D empty array
    [np.array([])] it starts from, or a 2-D array. *)
Inductive ndarray : Type :=
  | Empty1D
  | Array2 (a : array2).

(** [x.size] *)
Definition nd_size (x : ndarray) : nat :=
  match x with
  | Empty1D => 0%nat
  | Array2 a => (length (rows a) * width a)%nat
  end.

(** [np.append(x, e, axis=0)]: the arrays must have the same number of
    dimensions and agree on the second one. *)
Definition np_append_axis0 (x : ndarray) (e : array2) : result ndarray :=
  match x with
  | Empty1D => raise ValueError
  | Array2 a =>
      if (width a =? width e)%nat
      then ok (Array2 {| width := width a; rows := rows a ++ rows e |})
      else raise ValueError
  end.

(** A file name: a literal, or a literal with the epoch number formatted into
    it, [pre + str(e) + post]. *)
Inductive filename : Type :=
  | Plain (name : string)
  | Numbered (pre : string) (e : nat) (post : string).

(** The learning rate a log holds: [scheduler.get_last_lr()] or the float
    [learning_rate]. *)
Inductive lr_value : Type :=
  | LrList (l : list float)
  | LrFloat (f : float).

(** The entries of the [logs] dictionary that are arguments or lists; the sums
    and means are numpy reductions of these lists. The keys of the fine-tuning
    logs, then those that only pre-training has. *)
Record logs : Type := {
  log_epoch : nat;
  log_optim : string;
  log_loss_fn : option string;
  log_lr : lr_value;
  log_scheduler : option (option string);
  training_loss_list : list float;
  training_acc_list : option (list float);
  val_loss_list : option (list float);
  val_acc_list : option (list float)
}.

Inductive criterion : Type :=
  | MSELoss
  | BCEWithLogitsLoss.

Inductive optimizer_kind : Type :=
  | Adam
  | AdamW.

(** Lines 235-240 and 242-247 (also 55-60): the names a loop accepts. *)
Definition criterion_of (loss_fn : string) : option criterion :=
  if String.eqb loss_fn "MSE" then Some MSELoss
  else if String.eqb loss_fn "BCE" then Some BCEWithLogitsLoss
  else None.

Definition optimizer_of (optim : string) : option optimizer_kind :=
  if String.eqb optim "adam" then Some Adam
  else if String.eqb optim "adamw" then Some AdamW
  else None.

(** [sched == 'onecycle'] *)
Definition is_onecycle (sched : option string) : bool :=
  match sched with
  | Some s => String.eqb s "onecycle"
  | None => false
  end.

(** [scheduler is not None], for a scheduler given by the number of steps it
    was built for. *)
Definition has_scheduler (scheduler : option nat) : bool :=
  match scheduler with
  | Some _ => true
  | None => false
  end.

(** What [roc_auc_score(y_true, y_score, average=None)] returns: one score
    per target column, or one float when the targets have a single column. *)
Inductive auc_scores : Type :=
  | AucScalar (auc : float)
  | AucArray (aucs : list float).

(** [e % 10 == 0] *)
Definition logs_epoch (e : nat) : bool := (e mod 10 =? 0)%nat.

(** Rows of [targets] without NaN: [targets.isnan().sum(1) == 0]. *)
Definition nan_count (row : list float) : nat := length (List.filter PrimFloat.is_nan row).

Definition nan_free_mask (targets : tensor2) : list bool :=
  map (fun row => (nan_count row =? 0)%nat) targets.

(** [x[mask]] for a boolean mask over the rows: the mask must have one entry
    per row. *)
Fixpoint select_rows (x : tensor2) (mask : list bool) : list (list float) :=
  match x, mask with
  | row :: xs, b :: bs => if b then row :: select_rows xs bs else select_rows xs bs
  | _, _ => []
  end.

Definition mask_index (x : tensor2) (mask : list bool) : result tensor2 :=
  if (length x =? length mask)%nat then ok (select_rows x mask) else raise IndexError.

Section Loops.

Context {T Batch Loss : Type}.

(** A data loader: [len(loader)] and the batches of the pass made in epoch
    [e]. *)
Record dataloader : Type := {
  loader_len : nat;
  iterate : nat -> list Batch
}.

(** What [torch.save], [json.dump] or [to_csv] writes. *)
Inductive saved_data : Type :=
  | LogsData (l : logs)
  | StateDict (model : T)
  | OptimizerState (model : T)
  | TensorData (a : array2)
  | CsvData (table : list (string * float)).

(** The calls a loop makes on the optimizer, the scheduler and the storage. *)
Inductive event : Type :=
  | OptimizerStep
  | SchedulerStep
  | Saved (dir : string) (file : filename) (data : saved_data)
  | Uploaded (cloud_dir dir : string) (file : filename) (bucket : option string).

(** [model.to(device)], [model.train()], [model.eval()]. *)
Variable to_device : T -> T.
Variable set_train : T -> T.
Variable set_eval : T -> T.

(** [torch.optim.Adam] or [AdamW] over the trainable parameters, and
    [OneCycleLR(optimizer, max_lr, steps_per_epoch, epochs)], which may
    raise. *)
Variable make_optimizer : optimizer_kind -> float -> T -> T.
Variable make_onecycle : float -> nat -> Z -> T -> result T.

(** Lines 260-267 and 270: [zero_grad], forward, loss, [backward],
    [optimizer.step()], and the loss as a float. *)
Variable fit_batch : criterion -> T -> Batch -> T * float.

(** [scheduler.step()] and [scheduler.get_last_lr()]. *)
Variable scheduler_step : T -> T.
Variable last_lr : T -> list float.

(** Lines 338-343: forward and loss of a batch without gradient. *)
Variable eval_loss : criterion -> T -> Batch -> float.

(** Lines 367-371: the model's output for a batch, and the targets of the
    batch. *)
Variable forward : T -> Batch -> array2.
Variable batch_targets : Batch -> array2.

(** The exception that [torch.cat] raises for an empty list. *)
Variable cat_empty_error : exn.

(** [model.extract_embedding(x, embedding_type, layer, task)] as a numpy
    array. *)
Variable extract_embedding : T -> Batch -> string -> Z -> string -> array2.

(** The pre-training forward passes, [model(x, 'pretrain_mpc', ...)] giving
    accuracy and loss and [model(x, 'pretrain_mpg', ...)] giving the loss; the
    operations on their results: [.mean()], [loss1 + 10 * loss2],
    [.detach().cpu().item()]; and [optimizer.zero_grad()], then
    [loss.backward()] with [optimizer.step()]. *)
Variable forward_mpc : T -> Batch -> Z -> bool -> Loss * Loss.
Variable forward_mpg : T -> Batch -> Z -> bool -> Loss.
Variable loss_mean : Loss -> Loss.
Variable loss_joint : Loss -> Loss -> Loss.
Variable loss_item : Loss -> float.
Variable zero_grad : T -> T.
Variable backward_step : T -> Loss -> T.

(** [torch.sigmoid] on one entry and [sklearn.metrics.roc_auc_score(y_true,
    y_score, average=None)]. *)
Variable sigmoid : float -> float.
Variable roc_auc_score : tensor2 -> tensor2 -> result auc_scores.

(** The three files of a checkpoint, and their uploads. *)
Definition checkpoint (exp_dir : string) (e : nat) (logs_pre mdl_pre optim_pre : string)
    (l : logs) (model : T) : list event :=
  [Saved exp_dir (Numbered logs_pre e ".json") (LogsData l);
   Saved exp_dir (Numbered mdl_pre e ".pt") (StateDict model);
   Saved exp_dir (Numbered optim_pre e ".pt") (OptimizerState model)].

Definition checkpoint_uploads (cloud_dir exp_dir : string) (e : nat)
    (logs_pre mdl_pre optim_pre : string) (bucket : option string) : list event :=
  [Uploaded cloud_dir exp_dir (Numbered logs_pre e ".json") bucket;
   Uploaded cloud_dir exp_dir (Numbered mdl_pre e ".pt") bucket;
   Uploaded cloud_dir exp_dir (Numbered optim_pre e ".pt") bucket].

(** Lines 324-345. The model is the caller's: it comes back on the device and
    in evaluation mode. *)
Definition validation (model : T) (c : criterion) (dataloader_val : list Batch)
  : T * list float :=
  let validation_loss := [] in
  let model := to_device model in
  let model := set_eval model in
  (model,
   fold_left (fun validation_loss batch => validation_loss ++ [eval_loss c model batch])
     dataloader_val validation_loss).

(** [len(dataloader_train) * epochs]: the number of steps that [OneCycleLR] is
    built for at lines 63 and 250. *)
Definition total_steps (dataloader_train : dataloader) (epochs : Z) : nat :=
  Z.to_nat (epochs * Z.of_nat (loader_len dataloader_train)).

(** Lines 268-269 (and 100-101): [scheduler.step()] when there is a scheduler.
    [OneCycleLR], built for [total] steps and stepped [k] times so far, raises
    ValueError when it is stepped once more than [total] times. *)
Definition step_scheduler (scheduler : option nat) (k : nat) (model : T)
  : result (T * nat) :=
  match scheduler with
  | None => ok (model, k)
  | Some total =>
      if (k <? total)%nat then ok (scheduler_step model, S k) else raise ValueError
  end.

(** Lines 259-271: the batches of one epoch of fine-tuning; [k] counts the
    calls of [scheduler.step()] made so far. *)
Fixpoint finetune_batches (c : criterion) (scheduler : option nat) (batches : list Batch)
    (model : T) (k : nat) (training_loss : list float)
  : list event * result (T * nat * list float) :=
  match batches with
  | [] => ([], ok (model, k, training_loss))
  | batch :: rest =>
      let (model, loss_item) := fit_batch c model batch in
      match step_scheduler scheduler k model with
      | inl e => ([OptimizerStep], inl e)
      | inr (model, k) =>
          let (evs, r) :=
            finetune_batches c scheduler rest model k (training_loss ++ [loss_item]) in
          (OptimizerStep :: (if has_scheduler scheduler then [SchedulerStep] else []) ++ evs,
           r)
      end
  end.

(** Lines 255-318: the epochs of fine-tuning. *)
Fixpoint finetune_epochs (c : criterion) (scheduler : option nat)
    (dataloader_train : dataloader) (dataloader_val : option dataloader) (optim : string)
    (learning_rate : float) (loss_fn : string) (sched : option string) (exp_dir : string)
    (cloud : bool) (cloud_dir : string) (bucket : option string) (es : list nat) (model : T)
    (k : nat) : list event * result T :=
  match es with
  | [] => ([], ok model)
  | e :: rest =>
      let model := set_train model in
      match finetune_batches c scheduler (iterate dataloader_train e) model k [] with
      | (evs, inl err) => (evs, inl err)
      | (evs, inr (model, k, training_loss)) =>
          let (evs_logs, model) :=
            if logs_epoch e then
              let lr :=
                if has_scheduler scheduler then LrList (last_lr model)
                else LrFloat learning_rate in
              let (model, val) :=
                match dataloader_val with
                | Some v =>
                    let (model, validation_loss) := validation model c (iterate v e) in
                    (model, Some validation_loss)
                | None => (model, None)
                end in
              let l :=
                {| log_epoch := e; log_optim := optim; log_loss_fn := Some loss_fn;
                   log_lr := lr; log_scheduler := Some sched;
                   training_loss_list := training_loss; training_acc_list := None;
                   val_loss_list := val; val_acc_list := None |} in
              (checkpoint exp_dir e "logs_ft_epoch" "ast_ft_mdl_epoch" "ast_ft_optim_epoch"
                 l model
               ++ (if cloud
                   then checkpoint_uploads cloud_dir exp_dir e "logs_ft_epoch"
                          "ast_ft_mdl_epoch" "ast_ft_optim_epoch" bucket
                   else []),
               model)
            else ([], model) in
          let (evs_rest, r) :=
            finetune_epochs c scheduler dataloader_train dataloader_val optim learning_rate
              loss_fn sched exp_dir cloud cloud_dir bucket rest model k in
          (evs ++ evs_logs ++ evs_rest, r)
      end
  end.

(** Lines 209-321. *)
Definition finetune (model : T) (dataloader_train : dataloader)
    (dataloader_val : option dataloader) (optim : string) (learning_rate : float)
    (loss_fn : string) (sched : option string) (max_lr : float) (epochs : Z)
    (exp_dir : string) (cloud : bool) (cloud_dir : string) (bucket : option string)
  : list event * result T :=
  let model := to_device model in
  match criterion_of loss_fn with
  | None => ([], raise ValueError)
  | Some c =>
      match optimizer_of optim with
      | None => ([], raise ValueError)
      | Some kind =>
          let model := make_optimizer kind learning_rate model in
          let scheduler :=
            if is_onecycle sched
            then (m <- make_onecycle max_lr (loader_len dataloader_train) epochs model ;;
                  ok (m, Some (total_steps dataloader_train epochs)))%R
            else ok (model, None) in
          match scheduler with
          | inl e => ([], inl e)
          | inr (model, scheduler) =>
              finetune_epochs c scheduler dataloader_train dataloader_val optim
                learning_rate loss_fn sched exp_dir cloud cloud_dir bucket
                (seq 0 (Z.to_nat epochs)) model 0
          end
      end
  end.

(** Lines 347-388. *)
Definition evaluation (model : T) (dataloader_eval : list Batch) (exp_dir : string)
    (cloud : bool) (cloud_dir : string) (bucket : option string)
  : list event * result (array2 * array2) :=
  let model := to_device model in
  let model := set_eval model in
  let '(outputs, t) :=
    fold_left (fun acc batch =>
                 (fst acc ++ [forward model batch], snd acc ++ [batch_targets batch]))
      dataloader_eval ([], []) in
  match torch_cat cat_empty_error outputs with
  | inl e => ([], inl e)
  | inr outputs =>
      match torch_cat cat_empty_error t with
      | inl e => ([], inl e)
      | inr t =>
          ([Saved exp_dir (Plain "ast_eval_predictions.pt") (TensorData outputs);
            Saved exp_dir (Plain "ast_eval_targets.pt") (TensorData t)]
           ++ (if cloud
               then [Uploaded cloud_dir exp_dir (Plain "ast_eval_predictions.pt") bucket;
                     Uploaded cloud_dir exp_dir (Plain "ast_eval_targets.pt") bucket]
               else []),
           ok (outputs, t))
      end
  end.

(** Lines 409-416: the batches of [embedding_extraction]. *)
Fixpoint extraction_batches (model : T) (embedding_type : string) (layer : Z) (task : string)
    (batches : list Batch) (embeddings : ndarray) : result ndarray :=
  match batches with
  | [] => ok embeddings
  | batch :: rest =>
      let e := extract_embedding model batch embedding_type layer task in
      if (nd_size embeddings =? 0)%nat
      then extraction_batches model embedding_type layer task rest (Array2 e)
      else (embeddings <- np_append_axis0 embeddings e ;;
            extraction_batches model embedding_type layer task rest embeddings)%R
  end.

(** Lines 390-418. *)
Definition embedding_extraction (model : T) (dataloader : list Batch)
    (embedding_type : string) (layer : Z) (task : string) : result ndarray :=
  let embeddings := Empty1D in
  let model := to_device model in
  let model := set_eval model in
  extraction_batches model embedding_type layer task dataloader embeddings.

(** Lines 429-432: the two matrices handed to [roc_auc_score]. Line 430
    indexes [targets] and drops the result. *)
Definition auc_inputs (preds targets : tensor2) : result (tensor2 * tensor2) :=
  (preds <- mask_index preds (nan_free_mask targets) ;;
   _ <- mask_index targets (nan_free_mask targets) ;;
   let pred_mat := map (map sigmoid) preds in
   let target_mat := targets in
   ok (target_mat, pred_mat))%R.

(** [pd.DataFrame({'Label': labels, 'AUC': aucs})]: an array of scores must
    have the length of the label list; a single score is repeated for every
    label. *)
Definition label_auc_frame (labels : list string) (aucs : auc_scores)
  : result (list (string * float)) :=
  match aucs with
  | AucScalar auc => ok (map (fun label => (label, auc)) labels)
  | AucArray aucs =>
      if (length labels =? length aucs)%nat then ok (combine labels aucs)
      else raise ValueError
  end.

(** Lines 420-440. *)
Definition calc_auc (preds targets : tensor2) (target_labels : list string)
    (exp_dir : string) (cloud : bool) (cloud_dir : string) (bucket : option string)
  : list event * result (list (string * float)) :=
  match (inputs <- auc_inputs preds targets ;;
         aucs <- roc_auc_score (fst inputs) (snd inputs) ;;
         label_auc_frame target_labels aucs)%R with
  | inl e => ([], inl e)
  | inr data =>
      ([Saved exp_dir (Plain "aucs.csv") (CsvData data)]
       ++ (if cloud then [Uploaded cloud_dir exp_dir (Plain "aucs.csv") bucket] else []),
       ok data)
  end.

(** Lines 186-205: the batches of [validation_mask]. *)
Fixpoint validation_mask_batches (model : T) (task : string) (cluster : bool)
    (mask_patch : Z) (batches : list Batch) (validation_loss validation_acc : list float)
  : list float * list float :=
  match batches with
  | [] => (validation_loss, validation_acc)
  | batch :: rest =>
      let (validation_loss, validation_acc) :=
        if String.eqb task "pretrain_mpc" then
          let (acc, nce) := forward_mpc model batch mask_patch cluster in
          (validation_loss ++ [loss_item nce], validation_acc ++ [loss_item acc])
        else if String.eqb task "pretrain_mpg" then
          let mse := forward_mpg model batch mask_patch cluster in
          (validation_loss ++ [loss_item mse], validation_acc ++ [loss_item mse])
        else if String.eqb task "pretrain_joint" then
          let (acc, _) := forward_mpc model batch mask_patch cluster in
          let mse := forward_mpg model batch mask_patch cluster in
          (validation_loss ++ [loss_item mse], validation_acc ++ [loss_item acc])
        else (validation_loss, validation_acc) in
      validation_mask_batches model task cluster mask_patch rest validation_loss validation_acc
  end.

(** Lines 169-207. *)
Definition validation_mask (model : T) (dataloader_val : list Batch) (task : string)
    (cluster : bool) (mask_patch : Z) : T * (list float * list float) :=
  let model := to_device model in
  let model := set_eval model in
  (model, validation_mask_batches model task cluster mask_patch dataloader_val [] []).

(** Lines 79-96: accuracy and loss of one batch of pre-training; with another
    task neither name is bound when line 98 reads [loss]. *)
Definition pretrain_losses (model : T) (task : string) (cluster : bool) (mask_patch : Z)
    (batch : Batch) : option (Loss * Loss) :=
  if String.eqb task "pretrain_mpc" then
    let (acc, loss) := forward_mpc model batch mask_patch cluster in
    Some (loss_mean acc, loss_mean loss)
  else if String.eqb task "pretrain_mpg" then
    let loss := forward_mpg model batch mask_patch cluster in
    let loss := loss_mean loss in
    Some (loss, loss)
  else if String.eqb task "pretrain_joint" then
    let (acc, loss1) := forward_mpc model batch mask_patch cluster in
    let loss2 := forward_mpg model batch mask_patch cluster in
    Some (loss_mean acc, loss_joint (loss_mean loss1) (loss_mean loss2))
  else None.

(** Lines 73-104: the batches of one epoch of pre-training; [k] counts the
    calls of [scheduler.step()] made so far. *)
Fixpoint pretrain_batches (scheduler : option nat) (task : string) (cluster : bool)
    (mask_patch : Z) (batches : list Batch) (model : T) (k : nat)
    (training_loss training_acc : list float)
  : list event * result (T * nat * list float * list float) :=
  match batches with
  | [] => ([], ok (model, k, training_loss, training_acc))
  | batch :: rest =>
      let model := zero_grad model in
      match pretrain_losses model task cluster mask_patch batch with
      | None => ([], raise UnboundLocalError)
      | Some (acc, loss) =>
          let model := backward_step model loss in
          match step_scheduler scheduler k model with
          | inl e => ([OptimizerStep], inl e)
          | inr (model, k) =>
              let (evs, r) :=
                pretrain_batches scheduler task cluster mask_patch rest model k
                  (training_loss ++ [loss_item loss]) (training_acc ++ [loss_item acc]) in
              (OptimizerStep :: (if has_scheduler scheduler then [SchedulerStep] else [])
                 ++ evs, r)
          end
      end
  end.

(** Lines 68-164: the epochs of pre-training. *)
Fixpoint pretrain_epochs (scheduler : option nat) (dataloader_train : dataloader)
    (dataloader_val : option dataloader) (optim : string) (learning_rate : float)
    (cluster : bool) (task : string) (mask_patch : Z) (exp_dir : string) (cloud : bool)
    (cloud_dir : string) (bucket : option string) (es : list nat) (model : T) (k : nat)
  : list event * result T :=
  match es with
  | [] => ([], ok model)
  | e :: rest =>
      let model := set_train model in
      match pretrain_batches scheduler task cluster mask_patch (iterate dataloader_train e)
              model k [] [] with
      | (evs, inl err) => (evs, inl err)
      | (evs, inr (model, k, training_loss, training_acc)) =>
          let (evs_logs, model) :=
            if logs_epoch e then
              let lr :=
                if has_scheduler scheduler then LrList (last_lr model)
                else LrFloat learning_rate in
              let '(model, val_loss, val_acc) :=
                match dataloader_val with
                | Some v =>
                    let '(model, (validation_loss, validation_acc)) :=
                      validation_mask model (iterate v e) task cluster mask_patch in
                    (model, Some validation_loss, Some validation_acc)
                | None => (model, None, None)
                end in
              let l :=
                {| log_epoch := e; log_optim := optim; log_loss_fn := None;
                   log_lr := lr; log_scheduler := None;
                   training_loss_list := training_loss;
                   training_acc_list := Some training_acc;
                   val_loss_list := val_loss; val_acc_list := val_acc |} in
              (checkpoint exp_dir e "logs_pt_epoch" "ast_mdl_pt_epoch" "ast_optim_pt_epoch"
                 l model
               ++ (if cloud
                   then checkpoint_uploads cloud_dir exp_dir e "logs_pt_epoch"
                          "ast_mdl_pt_epoch" "ast_optim_pt_epoch" bucket
                   else []),
               model)
            else ([], model) in
          let (evs_rest, r) :=
            pretrain_epochs scheduler dataloader_train dataloader_val optim learning_rate
              cluster task mask_patch exp_dir cloud cloud_dir bucket rest model k in
          (evs ++ evs_logs ++ evs_rest, r)
      end
  end.

(** Lines 24-166. *)
Definition pretrain (model : T) (dataloader_train : dataloader)
    (dataloader_val : option dataloader) (optim : string) (learning_rate : float)
    (scheduler : option string) (max_lr : float) (epochs : Z) (cluster : bool)
    (task : string) (mask_patch : Z) (exp_dir : string) (cloud : bool)
    (cloud_dir : string) (bucket : option string)
  : list event * result T :=
  let model := to_device model in
  match optimizer_of optim with
  | None => ([], raise ValueError)
  | Some kind =>
      let model := make_optimizer kind learning_rate model in
      let sched :=
        if is_onecycle scheduler
        then (m <- make_onecycle max_lr (loader_len dataloader_train) epochs model ;;
              ok (m, Some (total_steps dataloader_train epochs)))%R
        else ok (model, None) in
      match sched with
      | inl e => ([], inl e)
      | inr (model, sched) =>
          pretrain_epochs sched dataloader_train dataloader_val optim learning_rate
            cluster task mask_patch exp_dir cloud cloud_dir bucket
            (seq 0 (Z.to_nat epochs)) model 0
      end
  end.

(** The calls of one kind in a trace. *)
Definition optimizer_steps (evs : list event) : nat :=
  length (List.filter (fun ev => match ev with OptimizerStep => true | _ => false end) evs).

Definition scheduler_steps (evs : list event) : nat :=
  length (List.filter (fun ev => match ev with SchedulerStep => true | _ => false end) evs).

(** The files written, and the files uploaded, in order. *)
Definition saved_files (evs : list event) : list filename :=
  flat_map (fun ev => match ev with Saved _ f _ => [f] | _ => [] end) evs.

Definition uploaded_files (evs : list event) : list filename :=
  flat_map (fun ev => match ev with Uploaded _ _ f _ => [f] | _ => [] end) evs.

(** The epochs below [epochs] at which logs and checkpoints are written. *)
Definition logged_epochs (epochs : Z) : list nat :=
  List.filter logs_epoch (seq 0 (Z.to_nat epochs)).

End Loops.

End Loops.

(** ** Readings used by the properties of the loops *)

(** The logs written, in order. *)
Definition saved_logs {T : Type} (evs : list (@Loops.event T)) : list Loops.logs :=
  flat_map (fun ev =>
              match ev with
              | Loops.Saved _ _ (Loops.LogsData l) => [l]
              | _ => []
              end) evs.

(** The names of the three files of the checkpoint of epoch [e]. *)
Definition checkpoint_files (logs_pre mdl_pre optim_pre : string) (e : nat)
  : list Loops.filename :=
  [Loops.Numbered logs_pre e ".json"; Loops.Numbered mdl_pre e ".pt";
   Loops.Numbered optim_pre e ".pt"].

(** The loader yields [len(loader)] batches in every pass. *)
Definition loader_ok {Batch : Type} (l : @Loops.dataloader Batch) : Prop :=
  forall e, length (Loops.iterate l e) = Loops.loader_len l.

(** What a list of events shows of steps and files. *)
Record trace_summary : Type := {
  n_optimizer : nat;
  n_scheduler : nat;
  files_saved : list Loops.filename;
  files_uploaded : list Loops.filename
}.

Definition summary {T : Type} (evs : list (@Loops.event T)) : trace_summary :=
  {| n_optimizer := Loops.optimizer_steps evs; n_scheduler := Loops.scheduler_steps evs;
     files_saved := Loops.saved_files evs; files_uploaded := Loops.uploaded_files evs |}.

Definition summary_app (a b : trace_summary) : trace_summary :=
  {| n_optimizer := n_optimizer a + n_optimizer b;
     n_scheduler := n_scheduler a + n_scheduler b;
     files_saved := files_saved a ++ files_saved b;
     files_uploaded := files_uploaded a ++ files_uploaded b |}.

(** The number of batches that a loader yields over the passes of the epochs
    [es]. *)
Definition batches_over {Batch : Type} (l : @Loops.dataloader Batch) (es : list nat) : nat :=
  list_sum (map (fun e => length (Loops.iterate l e)) es).

(** The lists of a log have one entry per batch of the pass of its epoch. *)
Definition log_per_batch {Batch : Type} (train : @Loops.dataloader Batch)
    (val : option (@Loops.dataloader Batch)) (l : Loops.logs) : Prop :=
  length (Loops.training_loss_list l) = length (Loops.iterate train (Loops.log_epoch l))
  /\ option_map (@length float) (Loops.val_loss_list l)
     = option_map (fun v => length (Loops.iterate v (Loops.log_epoch l))) val.

(** The task names that the loops know. *)
Definition known_task (task : string) : Prop :=
  task = "pretrain_mpc"%string \/ task = "pretrain_mpg"%string
  \/ task = "pretrain_joint"%string.

(** ** Stand-ins for the calls of the loops, for concrete runs

    The model is the number of optimizer steps it has taken and a batch is a
    number; a loss is a float. A loader yields the same batches in every
    pass. *)

Module LoopsDemo.

Import Loops.

Definition to_device (m : nat) : nat := m.
Definition set_train (m : nat) : nat := m.
Definition set_eval (m : nat) : nat := m.
Definition make_optimizer (k : optimizer_kind) (lr : float) (m : nat) : nat := m.

Definition make_onecycle (max_lr : float) (steps : nat) (epochs : Z) (m : nat) : result nat :=
  if (0 <? epochs) && (0 <? steps)%nat then ok m else raise ValueError.

Definition fit_batch (c : criterion) (m b : nat) : nat * float := (S m, 0.5%float).
Definition scheduler_step (m : nat) : nat := m.
Definition last_lr (m : nat) : list float := [0.125%float].
Definition eval_loss (c : criterion) (m b : nat) : float := 0.25%float.

Definition row_of (b : nat) : list float :=
  if Nat.even b then [0.5; 1.5]%float else [2.5; 3.5]%float.

Definition forward (m b : nat) : array2 := {| width := 2; rows := [row_of b] |}.
Definition batch_targets (b : nat) : array2 := {| width := 1; rows := [[1%float]] |}.

Definition extract_embedding (m b : nat) (embedding_type : string) (layer : Z) (task : string)
  : array2 :=
  {| width := 2; rows := [row_of b; row_of (S b)] |}.

Definition forward_mpc (m b : nat) (mask_patch : Z) (cluster : bool) : float * float :=
  (0.75%float, 0.5%float).
Definition forward_mpg (m b : nat) (mask_patch : Z) (cluster : bool) : float := 0.25%float.
Definition loss_mean (l : float) : float := l.
Definition loss_joint (loss1 loss2 : float) : float := (loss1 + 10 * loss2)%float.
Definition loss_item (l : float) : float := l.
Definition zero_grad (m : nat) : nat := m.
Definition backward_step (m : nat) (l : float) : nat := S m.

Definition sigmoid (x : float) : float := (x / (1 + abs x))%float.

Definition roc_auc_score (y_true y_score : tensor2) : result auc_scores :=
  if (length y_true =? length y_score)%nat then ok (AucArray [0.5%float])
  else raise ValueError.

Definition cat_empty_error : exn := RuntimeError.

Definition train : @dataloader nat := {| loader_len := 2; iterate := fun _ => [0; 1]%nat |}.
Definition val : @dataloader nat := {| loader_len := 1; iterate := fun _ => [2]%nat |}.

(** A loader that yields three batches in a pass and reports a length of 2. *)
Definition long_train : @dataloader nat :=
  {| loader_len := 2; iterate := fun _ => [0; 1; 2]%nat |}.

(** Twelve epochs of fine-tuning and of pre-training with the one-cycle
    scheduler, validation and uploads. *)
Definition finetune_run : list (@event nat) * result nat :=
  finetune to_device set_train set_eval make_optimizer make_onecycle fit_batch scheduler_step
    last_lr eval_loss 0%nat train (Some val) "adamw" 0.0625%float "BCE" (Some "onecycle"%string)
    0.125%float 12 "exp" true "runs" None.

Definition pretrain_run (task : string) : list (@event nat) * result nat :=
  pretrain to_device set_train set_eval make_optimizer make_onecycle scheduler_step last_lr
    forward_mpc forward_mpg loss_mean loss_joint loss_item zero_grad backward_step
    0%nat train (Some val) "adamw" 0.0625%float (Some "onecycle"%string) 0.125%float 12 false
    task 400 "exp" true "runs" None.

End LoopsDemo.

(** * Properties *)

(** ** What [__init__] leaves on [self] *)

Section Construction.

Variable conf : gmap string pyval.

Local Abbreviation attr_is name key :=
  (getattr (init_attrs conf) name = ok (dict_get conf key)).

Lemma attr_reduce : attr_is "reduce" "reduce". Proof. reflexivity. Qed.
Lemma attr_resample_rate : attr_is "resample_rate" "resample_rate". Proof. reflexivity. Qed.
Lemma attr_clip_length : attr_is "clip_length" "clip_length". Proof. reflexivity. Qed.
Lemma attr_tshift : attr_is "tshift" "tshift". Proof. reflexivity. Qed.
Lemma attr_speed : attr_is "speed" "speed". Proof. reflexivity. Qed.
Lemma attr_gauss : attr_is "gauss" "gauss_noise". Proof. reflexivity. Qed.
Lemma attr_pshift : attr_is "pshift" "pshift". Proof. reflexivity. Qed.
Lemma attr_pshift_n : attr_is "pshift_n" "pshiftn". Proof. reflexivity. Qed.
Lemma attr_gain : attr_is "gain" "gain". Proof. reflexivity. Qed.
Lemma attr_stretch : attr_is "stretch" "stretch". Proof. reflexivity. Qed.
Lemma attr_melbins : attr_is "melbins" "num_mel_bins". Proof. reflexivity. Qed.
Lemma attr_freqm : attr_is "freqm" "freqm". Proof. reflexivity. Qed.
Lemma attr_timem : attr_is "timem" "timem". Proof. reflexivity. Qed.
Lemma attr_norm_mean : attr_is "norm_mean" "mean". Proof. reflexivity. Qed.
Lemma attr_norm_std : attr_is "norm_std" "std". Proof. reflexivity. Qed.
Lemma attr_noise : attr_is "noise" "noise". Proof. reflexivity. Qed.
Lemma attr_target_length : attr_is "target_length" "target_length". Proof. reflexivity. Qed.

Lemma attr_skip_norm :
  getattr (init_attrs conf) "skip_norm"
  = ok (if truthy (dict_get conf "skip_norm") then dict_get conf "skip_norm" else PBool false).
Proof. reflexivity. Qed.

(** Line 80 assigns [self.pshift_n]; nothing assigns [self.pshiftn]. *)
Lemma attr_pshiftn_unset : getattr (init_attrs conf) "pshiftn" = raise AttributeError.
Proof. reflexivity. Qed.

Lemma truthy_skip_norm_attr :
  truthy (if truthy (dict_get conf "skip_norm") then dict_get conf "skip_norm" else PBool false)
  = truthy (dict_get conf "skip_norm").
Proof. destruct (truthy (dict_get conf "skip_norm")) eqn:E; [exact E | reflexivity]. Qed.

End Construction.

Create Rewrite HintDb attr.
#[local] Hint Rewrite attr_reduce attr_resample_rate attr_clip_length attr_tshift
  attr_speed attr_gauss attr_pshift attr_pshift_n attr_gain attr_stretch attr_melbins
  attr_freqm attr_timem attr_norm_mean attr_norm_std attr_noise attr_target_length
  attr_skip_norm attr_pshiftn_unset truthy_skip_norm_attr : attr.

Ltac read_attrs := cbn [attrs mk_self]; autorewrite with attr; cbn [rbind ok raise].

Lemma getaudiotransform_mk_self (args : InitArgs) :
  _getaudiotransform (mk_self args)
  = if ne_zero (dict_get (a_audio_conf args) "pshift") then raise AttributeError
    else ok (audio_stages args,
             wrap_al (aug_before_pitch (a_audio_conf args)
                      ++ aug_after_pitch (a_audio_conf args))).
Proof.
  unfold _getaudiotransform. read_attrs.
  destruct (ne_zero (dict_get (a_audio_conf args) "pshift")); [reflexivity |].
  cbn [rbind ok]. read_attrs.
  unfold audio_stages, aug_before_pitch, aug_after_pitch, ok.
  cbn [prefix bucket lib mk_self].
  f_equal. f_equal.
  - destruct (truthy _), (ne_zero (dict_get _ "resample_rate")),
      (ne_zero (dict_get _ "clip_length")); reflexivity.
  - destruct (ne_zero (dict_get _ "tshift")), (ne_zero (dict_get _ "speed")),
      (ne_zero (dict_get _ "gauss_noise")), (ne_zero (dict_get _ "gain")),
      (ne_zero (dict_get _ "stretch")); reflexivity.
Qed.

Lemma getspectransform_mk_self (args : InitArgs) :
  _getspectransform (mk_self args) = ok (spec_stages (a_audio_conf args)).
Proof.
  unfold _getspectransform. read_attrs.
  destruct (truthy (dict_get (a_audio_conf args) "skip_norm")) eqn:Hs;
    cbn [negb rbind ok]; read_attrs; unfold spec_stages, ok; rewrite ?Hs;
    cbn [tf_co tf_shift mk_self]; f_equal;
    destruct (ne_zero (dict_get _ "freqm")), (ne_zero (dict_get _ "timem")),
      (truthy (dict_get _ "noise")); reflexivity.
Qed.

Lemma init_unfold (args : InitArgs) :
  __init__ args =
  (_ <- init_checks args ;;
   chains <- _getaudiotransform (mk_self args) ;;
   spec <- _getspectransform (mk_self args) ;;
   ok {| base := mk_self args; audio_transform := fst chains;
         al_transform := snd chains; spec_transform := spec |})%R.
Proof.
  unfold __init__, init_checks.
  destruct (format_s _); [reflexivity |]. cbn [rbind].
  match goal with |- context [getattr ?d "dataset"] =>
    change (getattr d "dataset") with (ok (dict_get (a_audio_conf args) "dataset")) end.
  cbn [rbind ok].
  destruct (str_concat _); [reflexivity |]. cbn [rbind].
  destruct (format_d _); [reflexivity |]. cbn [rbind].
  destruct (format_d _); [reflexivity |]. cbn [rbind].
  match goal with |- context [rbind (getattr ?d "skip_norm") ?k] =>
    change (rbind (getattr d "skip_norm") k)
      with (k (if truthy (dict_get (a_audio_conf args) "skip_norm")
               then dict_get (a_audio_conf args) "skip_norm" else PBool false)) end.
  cbv beta. rewrite truthy_skip_norm_attr.
  match goal with |- context [rbind (getattr ?d "norm_mean") ?k] =>
    change (rbind (getattr d "norm_mean") k)
      with (k (dict_get (a_audio_conf args) "mean")) end.
  cbv beta.
  match goal with |- context [rbind (getattr ?d "norm_std") ?k] =>
    change (rbind (getattr d "norm_std") k)
      with (k (dict_get (a_audio_conf args) "std")) end.
  cbv beta.
  match goal with |- context [assign_conf "target_length" "target_length" ?c ?d] =>
    change (assign_conf "target_length" "target_length" c d)
      with (init_attrs (a_audio_conf args)) end.
  destruct (truthy (dict_get (a_audio_conf args) "skip_norm")).
  - cbn [rbind ok]. destruct (a_cdo args); [reflexivity |].
    destruct (a_shift args); reflexivity.
  - destruct (format_3f (dict_get _ "mean")); [reflexivity |]. cbn [rbind].
    destruct (format_3f (dict_get _ "std")); [reflexivity |]. cbn [rbind ok].
    destruct (a_cdo args); [reflexivity |].
    destruct (a_shift args); reflexivity.
Qed.

Lemma init_success_iff (args : InitArgs) (ds : AudioDataset) :
  __init__ args = inr ds
  <-> init_checks args = ok tt
      /\ ne_zero (dict_get (a_audio_conf args) "pshift") = false
      /\ ds = built args.
Proof.
  rewrite init_unfold, getaudiotransform_mk_self, getspectransform_mk_self.
  destruct (init_checks args) as [e | []]; cbn [rbind].
  - split; [discriminate | intros [H _]; discriminate].
  - destruct (ne_zero (dict_get (a_audio_conf args) "pshift")); cbn [rbind raise ok fst snd].
    + split; [discriminate | intros (_ & H & _); discriminate].
    + unfold built. split.
      * intros H. injection H as <-. auto.
      * intros (_ & _ & ->). reflexivity.
Qed.

(** What each formatting statement can raise. *)
Lemma format_s_error (v : pyval) (e : exn) :
  format_s v = inl e -> e = TypeError \/ e = ValueError.
Proof. destruct v; cbn; intros [= <-]; auto. Qed.

Lemma str_concat_error (v : pyval) (e : exn) : str_concat v = inl e -> e = TypeError.
Proof. destruct v; cbn; intros [= <-]; auto. Qed.

Lemma format_d_error (v : pyval) (e : exn) :
  format_d v = inl e -> e = TypeError \/ e = ValueError.
Proof.
  destruct v as [| b | z | f | s]; cbn; try (intros [= <-]; auto).
  destruct (fits_str_digits z); intros [= <-]; auto.
Qed.

Lemma format_3f_error (v : pyval) (e : exn) :
  format_3f v = inl e -> e = TypeError \/ e = ValueError \/ e = OverflowError.
Proof.
  destruct v as [| b | z | f | s]; cbn; try (intros [= <-]; auto).
  destruct (float_overflows z); intros [= <-]; auto.
Qed.

(** The errors that Python itself raises in the statements of [__init__]. *)
Definition builtin_error (e : exn) : Prop :=
  e = TypeError \/ e = ValueError \/ e = OverflowError \/ e = AttributeError.

(** Construction raises nothing but the built-in errors of its own statements:
    formatting a log line (TypeError, ValueError, OverflowError) or reading a
    missing attribute (AttributeError). *)
Lemma init_checks_error (args : InitArgs) (e : exn) :
  init_checks args = inl e -> builtin_error e.
Proof.
  unfold init_checks, builtin_error.
  destruct (format_s _) as [e1 | []] eqn:H1; cbn [rbind];
    [intros [= <-]; apply format_s_error in H1; tauto |].
  destruct (str_concat _) as [e1 | []] eqn:H2; cbn [rbind];
    [intros [= <-]; apply str_concat_error in H2; tauto |].
  destruct (format_d (dict_get _ "freqm")) as [e1 | []] eqn:H3; cbn [rbind];
    [intros [= <-]; apply format_d_error in H3; tauto |].
  destruct (format_d (dict_get _ "timem")) as [e1 | []] eqn:H4; cbn [rbind];
    [intros [= <-]; apply format_d_error in H4; tauto |].
  destruct (truthy (dict_get _ "skip_norm")); cbn [rbind ok].
  - destruct (a_cdo args); cbn [rbind raise ok]; [intros [= <-]; tauto |].
    destruct (a_shift args); [intros [= <-]; tauto | discriminate].
  - destruct (format_3f (dict_get _ "mean")) as [e1 | []] eqn:H5; cbn [rbind];
      [intros [= <-]; apply format_3f_error in H5; tauto |].
    destruct (format_3f (dict_get _ "std")) as [e1 | []] eqn:H6; cbn [rbind];
      [intros [= <-]; apply format_3f_error in H6; tauto |].
    destruct (a_cdo args); cbn [rbind raise ok]; [intros [= <-]; tauto |].
    destruct (a_shift args); [intros [= <-]; tauto | discriminate].
Qed.

Lemma init_error (args : InitArgs) (e : exn) :
  __init__ args = inl e -> builtin_error e.
Proof.
  rewrite init_unfold, getaudiotransform_mk_self, getspectransform_mk_self.
  destruct (init_checks args) as [e' | []] eqn:Hc; cbn [rbind].
  - intros [= <-]. exact (init_checks_error _ _ Hc).
  - destruct (ne_zero _); cbn; [intros [= <-]; unfold builtin_error; tauto | discriminate].
Qed.

(** ** The augmentation chain (C4) *)

(** Apart from pitch shift, the chain holds a stage exactly when its
    probability is nonzero, in the fixed order, and it stays the empty list
    (which [__getitem__] skips) when every probability is zero. *)
Lemma al_transform_without_pitch (args : InitArgs) (ds : AudioDataset) :
  __init__ args = inr ds ->
  al_transform ds
  = wrap_al (aug_before_pitch (a_audio_conf args) ++ aug_after_pitch (a_audio_conf args))
  /\ ne_zero (dict_get (a_audio_conf args) "pshift") = false.
Proof.
  intros H. apply init_success_iff in H as (_ & Hp & ->). split; [reflexivity | exact Hp].
Qed.

(** With every probability zero the chain stays the empty list. *)
Lemma al_transform_all_zero (args : InitArgs) (ds : AudioDataset) :
  __init__ args = inr ds ->
  ne_zero (dict_get (a_audio_conf args) "tshift") = false ->
  ne_zero (dict_get (a_audio_conf args) "speed") = false ->
  ne_zero (dict_get (a_audio_conf args) "gauss_noise") = false ->
  ne_zero (dict_get (a_audio_conf args) "gain") = false ->
  ne_zero (dict_get (a_audio_conf args) "stretch") = false ->
  al_transform ds = AlList [].
Proof.
  intros H Ht Hs Hg Hn Hr. apply al_transform_without_pitch in H as [-> _].
  unfold aug_before_pitch, aug_after_pitch. rewrite Ht, Hs, Hg, Hn, Hr. reflexivity.
Qed.

(** A nonzero pitch-shift probability makes line 171 read [self.pshiftn], which
    was never assigned: construction cannot succeed. *)
Lemma pitch_shift_never_constructs (args : InitArgs) :
  ne_zero (dict_get (a_audio_conf args) "pshift") = true ->
  forall ds, __init__ args <> inr ds.
Proof.
  intros Hp ds H. apply init_success_iff in H as (_ & Hp' & _). congruence.
Qed.

(** C4 (code defect): with the pitch-shift probability set to 0.5 and the other
    entries those of a well-formed training configuration, construction raises
    AttributeError instead of building a chain that includes pitch shift;
    without pitch shift the same configuration builds the chain of its three
    enabled stages in order, and the evaluation configuration the empty list. *)
Lemma pitch_shift_construction_raises :
  ne_zero (dict_get (<["pshift" := PFloat 0.5%float]> Demo.train_conf) "pshift") = true
  /\ __init__ (Demo.args_of (<["pshift" := PFloat 0.5%float]> Demo.train_conf) false false)
     = inl AttributeError
  /\ (exists ds,
        __init__ (Demo.args_of Demo.train_conf false false) = inr ds
        /\ al_transform ds
           = AlCompose [TimeShifting (PFloat 0.5%float);
                        AddGaussianNoise (PFloat 0.75%float); Gain (PFloat 0.5%float)])
  /\ (exists ds,
        __init__ (Demo.args_of Demo.eval_conf false false) = inr ds
        /\ al_transform ds = AlList []).
Proof.
  split; [vm_compute; reflexivity | split; [vm_compute; reflexivity | split]].
  - exists (built (Demo.args_of Demo.train_conf false false)).
    split; vm_compute; reflexivity.
  - exists (built (Demo.args_of Demo.eval_conf false false)).
    split; vm_compute; reflexivity.
Qed.

(** ** Coarse dropout and affine translation (C8) *)

Lemma masking_request_never_constructs (args : InitArgs) :
  a_cdo args = true \/ a_shift args = true ->
  forall ds, __init__ args <> inr ds.
Proof.
  intros Hreq ds H. apply init_success_iff in H as (Hc & _ & _).
  unfold init_checks in Hc.
  destruct (format_s _); [discriminate |]; cbn [rbind] in Hc.
  destruct (str_concat _); [discriminate |]; cbn [rbind] in Hc.
  destruct (format_d _); [discriminate |]; cbn [rbind] in Hc.
  destruct (format_d _); [discriminate |]; cbn [rbind] in Hc.
  destruct (if truthy _ then _ else _); [discriminate |]; cbn [rbind] in Hc.
  destruct Hreq as [Hr | Hr]; rewrite Hr in Hc; [discriminate |].
  destruct (a_cdo args); discriminate.
Qed.

(** A constructed dataset holds no masking transform, and its conversion stage
    was given none. *)
Lemma constructed_without_masking (args : InitArgs) (ds : AudioDataset) :
  __init__ args = inr ds ->
  tf_co (base ds) = None /\ tf_shift (base ds) = None
  /\ a_cdo args = false /\ a_shift args = false.
Proof.
  intros H. pose proof (masking_request_never_constructs args) as Hn.
  apply init_success_iff in H as Hb. destruct Hb as (_ & _ & ->).
  repeat split; try reflexivity.
  - destruct (a_cdo args); [exfalso; eapply Hn; eauto | reflexivity].
  - destruct (a_shift args); [exfalso; eapply Hn; eauto | reflexivity].
Qed.

(** C8 (code defect): requesting coarse dropout, or affine translation, on an
    otherwise well-formed configuration makes construction raise
    AttributeError ([torch] has neither class); the same configuration without
    the request constructs. *)
Lemma masking_request_construction_raises :
  __init__ (Demo.args_of Demo.eval_conf true false) = inl AttributeError
  /\ __init__ (Demo.args_of Demo.eval_conf false true) = inl AttributeError
  /\ __init__ (Demo.args_of Demo.eval_conf false false)
     = inr (built (Demo.args_of Demo.eval_conf false false)).
Proof. repeat split; vm_compute; reflexivity. Qed.

(** ** Contradictory configurations (C7) *)

Lemma dict_get_insert_eq (d : gmap string pyval) (k : string) (v : pyval) :
  dict_get (<[k := v]> d) k = v.
Proof. unfold dict_get. by rewrite lookup_insert_eq. Qed.

Lemma dict_get_insert_ne (d : gmap string pyval) (k k' : string) (v : pyval) :
  k <> k' -> dict_get (<[k := v]> d) k' = dict_get d k'.
Proof. intros Hne. unfold dict_get. by rewrite lookup_insert_ne. Qed.

Lemma init_checks_with_masks (args : InitArgs) (fm tm : Z) :
  fits_str_digits fm = true -> fits_str_digits tm = true ->
  init_checks args = ok tt -> init_checks (with_masks args fm tm) = ok tt.
Proof.
  intros Hfm Htm. unfold init_checks. cbn [a_audio_conf a_cdo a_shift with_masks].
  rewrite !dict_get_insert_eq.
  rewrite (dict_get_insert_ne _ "freqm" "timem") by discriminate.
  rewrite !dict_get_insert_eq.
  rewrite !(dict_get_insert_ne _ "freqm") by discriminate.
  rewrite !(dict_get_insert_ne _ "timem") by discriminate.
  destruct (format_s _); [discriminate |]; cbn [rbind].
  destruct (str_concat _); [discriminate |]; cbn [rbind].
  destruct (format_d _); [discriminate |]; cbn [rbind].
  destruct (format_d _); [discriminate |]; cbn [rbind format_d ok].
  rewrite Hfm, Htm. cbn [rbind]. auto.
Qed.

(** C7 (as stated, refuted): a configuration whose frequency mask is wider than
    the number of mel bins is accepted by the constructor, and one that
    requests normalization without mean and std is rejected with a TypeError,
    not with a ConfigurationError. *)
Lemma contradictory_conf_counterexample :
  contradictory (<["freqm" := PInt 200]> Demo.eval_conf) = true
  /\ __init__ (Demo.args_of (<["freqm" := PInt 200]> Demo.eval_conf) false false)
     = inr (built (Demo.args_of (<["freqm" := PInt 200]> Demo.eval_conf) false false))
  /\ contradictory (delete "mean" (delete "std" Demo.eval_conf)) = true
  /\ __init__ (Demo.args_of (delete "mean" (delete "std" Demo.eval_conf)) false false)
     = inl TypeError
  /\ TypeError <> ConfigurationError.
Proof. repeat split; try (vm_compute; reflexivity). discriminate. Qed.

(** C7 (amended): the constructor validates no combination of entries and never
    raises a ConfigurationError. When normalization is requested and mean or
    std is absent, construction still fails, with the built-in error of a log
    line that cannot be formatted: the TypeError of formatting [None] under
    [.3f] once the earlier log lines are formatted and mean is absent or is a
    number. The masking widths are not compared with anything: replacing them
    by any integers that can be printed keeps a successful construction
    successful. *)
Theorem init_has_no_validation (args : InitArgs) (fm tm : Z) :
  let conf := a_audio_conf args in
  (forall e, __init__ args = inl e -> e <> ConfigurationError)
  /\ (truthy (dict_get conf "skip_norm") = false ->
      dict_get conf "mean" = PNone \/ dict_get conf "std" = PNone ->
      exists e,
        __init__ args = inl e /\ (e = TypeError \/ e = ValueError \/ e = OverflowError))
  /\ (truthy (dict_get conf "skip_norm") = false ->
      format_s (dict_get conf "mode") = ok tt ->
      str_concat (dict_get conf "dataset") = ok tt ->
      format_d (dict_get conf "freqm") = ok tt ->
      format_d (dict_get conf "timem") = ok tt ->
      dict_get conf "mean" = PNone
      \/ (format_3f (dict_get conf "mean") = ok tt /\ dict_get conf "std" = PNone) ->
      __init__ args = inl TypeError)
  /\ (fits_str_digits fm = true -> fits_str_digits tm = true ->
      forall ds, __init__ args = inr ds ->
      __init__ (with_masks args fm tm) = inr (built (with_masks args fm tm))).
Proof.
  intros conf. split; [| split; [| split]].
  - intros e H. apply init_error in H as [-> | [-> | [-> | ->]]]; discriminate.
  - intros Hs Habs. rewrite init_unfold. unfold init_checks. fold conf. rewrite Hs.
    destruct (format_s _) as [e1 | []] eqn:H1; cbn [rbind];
      [apply format_s_error in H1; exists e1; split; [reflexivity | tauto] |].
    destruct (str_concat _) as [e1 | []] eqn:H2; cbn [rbind];
      [apply str_concat_error in H2; exists e1; split; [reflexivity | tauto] |].
    destruct (format_d (dict_get _ "freqm")) as [e1 | []] eqn:H3; cbn [rbind];
      [apply format_d_error in H3; exists e1; split; [reflexivity | tauto] |].
    destruct (format_d (dict_get _ "timem")) as [e1 | []] eqn:H4; cbn [rbind];
      [apply format_d_error in H4; exists e1; split; [reflexivity | tauto] |].
    destruct (format_3f (dict_get _ "mean")) as [e1 | []] eqn:H5; cbn [rbind];
      [apply format_3f_error in H5; exists e1; split; [reflexivity | tauto] |].
    destruct Habs as [Hm | Hstd].
    + rewrite Hm in H5. discriminate.
    + rewrite Hstd. cbn. exists TypeError. split; [reflexivity | tauto].
  - intros Hs H1 H2 H3 H4 Habs. rewrite init_unfold. unfold init_checks. fold conf.
    rewrite Hs, H1, H2, H3, H4. cbn [rbind].
    destruct Habs as [-> | [-> ->]]; reflexivity.
  - intros Hfm Htm ds H. apply init_success_iff in H as (Hc & Hp & _).
    apply init_success_iff. repeat split.
    + apply init_checks_with_masks; assumption.
    + cbn [a_audio_conf with_masks].
      rewrite !dict_get_insert_ne by discriminate. exact Hp.
Qed.

(** A configuration without std, one without mean, and masking widths far
    above the 4 bins and 3 frames of the evaluation configuration. *)
Lemma init_has_no_validation_witness :
  (exists e,
     __init__ (Demo.args_of (delete "std" Demo.eval_conf) false false) = inl e
     /\ (e = TypeError \/ e = ValueError \/ e = OverflowError))
  /\ __init__ (Demo.args_of (delete "mean" Demo.eval_conf) false false) = inl TypeError
  /\ __init__ (with_masks (Demo.args_of Demo.eval_conf false false) 200 5000)
     = inr (built (with_masks (Demo.args_of Demo.eval_conf false false) 200 5000)).
Proof.
  split; [| split].
  - apply (proj1 (proj2 (init_has_no_validation
             (Demo.args_of (delete "std" Demo.eval_conf) false false) 0 0)));
      [vm_compute; reflexivity | right; vm_compute; reflexivity].
  - apply (proj1 (proj2 (proj2 (init_has_no_validation
             (Demo.args_of (delete "mean" Demo.eval_conf) false false) 0 0))));
      try (vm_compute; reflexivity).
    left. vm_compute. reflexivity.
  - apply (proj2 (proj2 (proj2 (init_has_no_validation
             (Demo.args_of Demo.eval_conf false false) 200 5000)))
             eq_refl eq_refl (built (Demo.args_of Demo.eval_conf false false))).
    vm_compute; reflexivity.
Defined.

(** ** Order of the stages in the signal and spectrogram chains (C2, C3) *)

Section Chains.

Context {World : Type}.
Variable call_audio : audio_stage -> sample -> @W World sample.
Variable call_spec : spec_stage -> sample -> @W World sample.

Lemma compose_call_app {S : Type} (call : S -> sample -> @W World sample)
    (l1 l2 : list S) (s : sample) (w : World) :
  compose_call call (l1 ++ l2) s w
  = wbind (compose_call call l1 s) (compose_call call l2) w.
Proof.
  revert s w. induction l1 as [| t l1 IH]; intros s w; cbn [compose_call app].
  - reflexivity.
  - unfold wbind in *. destruct (call t s w) as [w1 [e | s1]].
    + reflexivity.
    + apply IH.
Qed.

Lemma sum_axis0_length (torch : torch_lib) (w : tensor2) :
  length (sum_axis0 torch w) = samples w.
Proof. unfold sum_axis0. rewrite length_map, length_seq. reflexivity. Qed.

Lemma sum_axis0_nth (torch : torch_lib) (w : tensor2) (j : nat) :
  (j < samples w)%nat ->
  nth j (sum_axis0 torch w) 0%float = torch_sum torch (column j w).
Proof.
  intros Hj. unfold sum_axis0.
  rewrite (nth_indep _ 0%float (torch_sum torch (column 0 w)))
    by (rewrite length_map, length_seq; exact Hj).
  rewrite (map_nth (fun j => torch_sum torch (column j w)) (seq 0 (samples w)) 0%nat j).
  rewrite seq_nth by exact Hj. reflexivity.
Qed.

Ltac step_calls call :=
  repeat match goal with
    | |- context [call ?t ?s ?w] =>
        destruct (call t s w) as [? [? | ?]]; try reflexivity
    end.

(** C3: in a constructed dataset the signal chain is the loader, then channel
    reduction iff [reduce] is set, then resampling iff [resample_rate != 0],
    then truncation iff [clip_length != 0], then tensor conversion, then mean
    centering; running the chain runs these stages in this order; and the
    reduction function of the channel reduction stage turns a (channels,
    samples) waveform into shape (1, samples), whose entry at each sample
    position is [torch.sum] of the values of all channels at that position. *)
Theorem signal_chain_order (args : InitArgs) (ds : AudioDataset) :
  __init__ args = inr ds ->
  let conf := a_audio_conf args in
  audio_transform ds
  = [UidToWaveform (a_prefix args) (a_bucket args) (a_librosa args)]
    ++ (if truthy (dict_get conf "reduce") then [ToMonophonic channel_sum] else [])
    ++ (if ne_zero (dict_get conf "resample_rate")
        then [Resample (dict_get conf "resample_rate")] else [])
    ++ (if ne_zero (dict_get conf "clip_length")
        then [Truncate (dict_get conf "clip_length")] else [])
    ++ [ToTensor; WaveMean]
  /\ (forall s w,
        compose_call call_audio (audio_transform ds) s w
        = wbind (call_audio (UidToWaveform (a_prefix args) (a_bucket args) (a_librosa args)) s)
            (fun s =>
             wbind (opt_stage call_audio (truthy (dict_get conf "reduce"))
                      (ToMonophonic channel_sum) s)
               (fun s =>
                wbind (opt_stage call_audio (ne_zero (dict_get conf "resample_rate"))
                         (Resample (dict_get conf "resample_rate")) s)
                  (fun s =>
                   wbind (opt_stage call_audio (ne_zero (dict_get conf "clip_length"))
                            (Truncate (dict_get conf "clip_length")) s)
                     (fun s => wbind (call_audio ToTensor s) (call_audio WaveMean))))) w)
  /\ (forall (torch : torch_lib) (wv : tensor2) (n : nat),
        wv <> [] -> Forall (fun channel => length channel = n) wv ->
        has_shape (channel_sum torch wv) 1 n
        /\ forall j, (j < n)%nat ->
             nth j (hd [] (channel_sum torch wv)) 0%float
             = torch_sum torch (map (fun channel => nth j channel 0%float) wv)).
Proof.
  intros H conf. apply init_success_iff in H as (_ & _ & ->).
  cbn [audio_transform built]. split; [reflexivity | split].
  - intros s w. unfold audio_stages. fold conf.
    destruct (truthy (dict_get conf "reduce")),
      (ne_zero (dict_get conf "resample_rate")),
      (ne_zero (dict_get conf "clip_length"));
      cbn [app compose_call opt_stage]; unfold wbind, wret, ok;
      step_calls call_audio.
  - intros torch wv n Hne Hall.
    assert (Hn : samples wv = n).
    { destruct wv as [| c cs]; [congruence |]. apply Forall_cons in Hall as [Hc _]. exact Hc. }
    unfold has_shape, channel_sum. cbn [length hd]. repeat split.
    + constructor; [| constructor]. rewrite sum_axis0_length. exact Hn.
    + intros j Hj. apply sum_axis0_nth. rewrite Hn. exact Hj.
Qed.

(** C2: in a constructed dataset the spectrogram chain is the filterbank
    conversion, then frequency masking iff [freqm != 0], then time masking iff
    [timem != 0], then normalization by the configured mean and std iff
    [skip_norm] is not set, then noise iff [noise] is set; running the chain
    runs these stages in this order. *)
Theorem spec_chain_order (args : InitArgs) (ds : AudioDataset) :
  __init__ args = inr ds ->
  let conf := a_audio_conf args in
  let convert :=
    Wav2Fbank (dict_get conf "target_length") (dict_get conf "num_mel_bins") None None false in
  spec_transform ds
  = [convert]
    ++ (if ne_zero (dict_get conf "freqm") then [FreqMask (dict_get conf "freqm")] else [])
    ++ (if ne_zero (dict_get conf "timem") then [TimeMask (dict_get conf "timem")] else [])
    ++ (if negb (truthy (dict_get conf "skip_norm"))
        then [Normalize (dict_get conf "mean") (dict_get conf "std")] else [])
    ++ (if truthy (dict_get conf "noise") then [Noise] else [])
  /\ (forall s w,
        compose_call call_spec (spec_transform ds) s w
        = wbind (call_spec convert s)
            (fun s =>
             wbind (opt_stage call_spec (ne_zero (dict_get conf "freqm"))
                      (FreqMask (dict_get conf "freqm")) s)
               (fun s =>
                wbind (opt_stage call_spec (ne_zero (dict_get conf "timem"))
                         (TimeMask (dict_get conf "timem")) s)
                  (fun s =>
                   wbind (opt_stage call_spec (negb (truthy (dict_get conf "skip_norm")))
                            (Normalize (dict_get conf "mean") (dict_get conf "std")) s)
                     (fun s =>
                      opt_stage call_spec (truthy (dict_get conf "noise")) Noise s)))) w).
Proof.
  intros H conf convert. apply init_success_iff in H as (_ & _ & ->).
  cbn [spec_transform built]. unfold spec_stages. fold conf. fold convert.
  split.
  - destruct (truthy (dict_get conf "skip_norm")); reflexivity.
  - intros s w.
    destruct (ne_zero (dict_get conf "freqm")), (ne_zero (dict_get conf "timem")),
      (truthy (dict_get conf "skip_norm")), (truthy (dict_get conf "noise"));
      cbn [app compose_call opt_stage negb]; unfold wbind, wret, ok;
      step_calls call_spec.
Qed.

End Chains.

(** ** Resolving a row of the annotation table *)

Lemma find_all_absent (l : string) (cols : list string) (k : nat) :
  l ∉ cols -> find_all l cols k = [].
Proof.
  revert k. induction cols as [| c cs IH]; intros k Hnot; cbn [find_all].
  - reflexivity.
  - apply not_elem_of_cons in Hnot as [Hne Hnot].
    destruct (String.eqb_spec c l) as [-> | _]; [congruence | auto].
Qed.

Lemma find_all_unique (l : string) (cols : list string) (k : nat) :
  NoDup cols -> l ∈ cols -> find_all l cols k = [(k + col_pos l cols)%nat].
Proof.
  revert k. induction cols as [| c cs IH]; intros k Hnd Hin.
  - inversion Hin.
  - apply NoDup_cons in Hnd as [Hc Hnd]. cbn [find_all col_pos].
    destruct (String.eqb_spec c l) as [-> | Hne].
    + rewrite find_all_absent by exact Hc. f_equal. lia.
    + apply elem_of_cons in Hin as [-> | Hin]; [congruence |].
      rewrite IH by assumption. f_equal. lia.
Qed.

Lemma select_positions_unique (cols labels : list string) :
  NoDup cols -> Forall (fun l => l ∈ cols) labels ->
  select_positions cols labels = ok (map (fun l => col_pos l cols) labels).
Proof.
  intros Hnd. induction 1 as [| l ls Hl _ IH]; cbn [select_positions map].
  - reflexivity.
  - rewrite (find_all_unique l cols 0 Hnd Hl), IH. reflexivity.
Qed.

Lemma map_nth_positions {A : Type} (f : nat -> A) (ps : list nat) :
  map (fun j => f (nth j ps 0%nat)) (seq 0 (length ps)) = map f ps.
Proof.
  induction ps as [| p ps IH]; [reflexivity |].
  cbn [length seq map nth]. f_equal.
  rewrite <- seq_shift, map_map. exact IH.
Qed.

Lemma norm_pos_in_range (n : nat) (i : Z) :
  0 <= i < Z.of_nat n -> norm_pos n i = ok (Z.to_nat i).
Proof.
  intros [Hlo Hhi]. unfold norm_pos.
  apply Z.leb_le in Hlo. apply Z.ltb_lt in Hhi. rewrite Hlo, Hhi. reflexivity.
Qed.

Lemma resolve_row (ds : AudioDataset) (i : Z) :
  0 <= i < df_len (annotations_df (base ds)) ->
  NoDup (columns (annotations_df (base ds))) ->
  Forall (fun l => l ∈ columns (annotations_df (base ds))) (target_labels (base ds)) ->
  resolve ds (KInt i)
  = ok (row_sample (annotations_df (base ds)) (target_labels (base ds)) (Z.to_nat i)).
Proof.
  intros Hi Hnd Hin. unfold resolve, df_len in *.
  unfold index_getitem, df_getitem, iloc_values.
  rewrite (norm_pos_in_range _ _ Hi). cbn [rbind ok].
  rewrite (select_positions_unique _ _ Hnd Hin). cbn [rbind ok index].
  rewrite (norm_pos_in_range _ _ Hi). cbn [rbind ok].
  unfold row_sample, row_values. cbn [columns cell].
  rewrite length_map.
  rewrite (map_nth_positions (cell (annotations_df (base ds)) (Z.to_nat i))).
  rewrite map_map. reflexivity.
Qed.

(** ** [__getitem__] and [__len__] (C5, C6, C10) *)

Section GetItem.

Context {World : Type}.
Variable call_audio : audio_stage -> sample -> @W World sample.
Variable call_spec : spec_stage -> sample -> @W World sample.

Local Abbreviation getitem := (__getitem__ call_audio call_spec).
Local Abbreviation chains := (run_chains call_audio call_spec).

(** [__getitem__] resolves the index, then runs the three chains. *)
Lemma getitem_unfold (idx : pyidx) (ds : AudioDataset) (w : World) :
  getitem idx {| self := ds; world := w |}
  = match resolve ds (index_value idx) with
    | inl e => ({| self := ds; world := w |}, inl e)
    | inr s0 => on_dataset ds (chains ds s0 w)
    end.
Proof.
  unfold __getitem__, mbind, get_self, lift_result, lift_world, mret, on_dataset,
    run_chains, wbind, wret, ok.
  cbn [self world].
  destruct (resolve ds _) as [e | s0]; [reflexivity |].
  destruct (compose_call call_audio (audio_transform ds) s0 w) as [w1 [e | s1]];
    cbn [self world fst snd]; [reflexivity |].
  destruct (al_ne_empty (al_transform ds)); cbn [self world].
  - destruct (call_al (al_transform ds) s1 w1) as [w2 [e | s2]];
      cbn [self world fst snd]; [reflexivity |].
    destruct (compose_call call_spec (spec_transform ds) s2 w2) as [w3 [e | s3]];
      reflexivity.
  - destruct (compose_call call_spec (spec_transform ds) s1 w1) as [w3 [e | s3]];
      reflexivity.
Qed.

(** With the empty list as augmentation chain the sample goes from the signal
    chain to the spectrogram chain as it is. *)
Lemma run_chains_without_augmentation (ds : AudioDataset) (s0 : sample) (w : World) :
  al_transform ds = AlList [] ->
  chains ds s0 w
  = wbind (compose_call call_audio (audio_transform ds) s0)
      (compose_call call_spec (spec_transform ds)) w.
Proof.
  intros Hal. unfold run_chains. rewrite Hal. cbn [al_ne_empty]. unfold wbind, wret, ok.
  destruct (compose_call call_audio (audio_transform ds) s0 w) as [w1 [e | s1]];
    reflexivity.
Qed.

(** With a composed augmentation chain the call of line 254 raises KeyError
    once the signal chain has returned; the spectrogram chain is not reached. *)
Lemma run_chains_augmentation_raises (ds : AudioDataset) (l : list aug_stage) (s0 : sample)
    (w : World) :
  al_transform ds = AlCompose l ->
  chains ds s0 w
  = wbind (compose_call call_audio (audio_transform ds) s0)
      (fun _ w1 => (w1, raise KeyError)) w.
Proof.
  intros Hal. unfold run_chains. rewrite Hal. cbn [al_ne_empty call_al]. unfold wbind.
  destruct (compose_call call_audio (audio_transform ds) s0 w) as [w1 [e | s1]];
    reflexivity.
Qed.

(** An empty augmentation list is not called: the sample goes from the signal
    chain to the spectrogram chain as it is. *)
Lemma getitem_skips_empty_augmentation (idx : pyidx) (ds : AudioDataset) (s0 : sample)
    (w : World) :
  al_transform ds = AlList [] ->
  resolve ds (index_value idx) = ok s0 ->
  getitem idx {| self := ds; world := w |}
  = on_dataset ds
      (wbind (compose_call call_audio (audio_transform ds) s0)
         (compose_call call_spec (spec_transform ds)) w).
Proof.
  intros Hal Hres. rewrite getitem_unfold. unfold ok in Hres. rewrite Hres.
  rewrite (run_chains_without_augmentation ds s0 w Hal). reflexivity.
Qed.

(** With a composed augmentation chain [__getitem__] returns no sample,
    whatever the index, the stages and the world are. *)
Lemma getitem_augmentation_never_returns (idx : pyidx) (ds : AudioDataset)
    (l : list aug_stage) (w : World) :
  al_transform ds = AlCompose l ->
  exists e, snd (getitem idx {| self := ds; world := w |}) = inl e.
Proof.
  intros Hal. rewrite getitem_unfold.
  destruct (resolve ds _) as [e | s0]; [exists e; reflexivity |].
  rewrite (run_chains_augmentation_raises ds l s0 w Hal). unfold on_dataset, wbind.
  destruct (compose_call call_audio (audio_transform ds) s0 w) as [w1 [e | s1]];
    eexists; reflexivity.
Qed.

Lemma stage_raises_compose {S : Type} (call : S -> sample -> @W World sample)
    (l : list S) (s : sample) (w : World) (e : exn) (w' : World) :
  stage_raises call l s w e w' <-> compose_call call l s w = (w', inl e).
Proof.
  split.
  - induction 1 as [t ts s w e w' Hc | t ts s w s1 w1 e w' Hc _ IH];
      cbn [compose_call]; unfold wbind; rewrite Hc; [reflexivity | exact IH].
  - revert s w. induction l as [| t ts IH]; intros s w; cbn [compose_call].
    + unfold wret. discriminate.
    + unfold wbind. destruct (call t s w) as [w1 [e1 | s1]] eqn:Hc.
      * intros [= <- <-]. apply raises_here. exact Hc.
      * intros H. eapply raises_later; [exact Hc | apply IH, H].
Qed.

(** For a row position in range and target labels that each name one column,
    [__getitem__] builds the sample of that row (its uid, and the cells of
    the target columns as they are, NaN included) and runs the signal chain on
    it; with the empty augmentation list the spectrogram chain follows and
    what its last stage returns is returned; with a composed augmentation
    chain the call of line 254 raises KeyError in its place. [__len__] returns
    the number of rows. *)
Lemma getitem_row_outcome (ds : AudioDataset) (i : Z) (w : World) :
  0 <= i < df_len (annotations_df (base ds)) ->
  NoDup (columns (annotations_df (base ds))) ->
  Forall (fun l => l ∈ columns (annotations_df (base ds))) (target_labels (base ds)) ->
  let df := annotations_df (base ds) in
  let s0 :=
    {| uid := One (nth (Z.to_nat i) (index df) ""%string);
       targets :=
         One (map (fun l => cell df (Z.to_nat i) (col_pos l (columns df)))
                (target_labels (base ds)));
       waveform := None; sample_rate := None; fbank := None |} in
  (al_transform ds = AlList [] ->
   getitem (IdxInt i) {| self := ds; world := w |}
   = on_dataset ds
       (wbind (compose_call call_audio (audio_transform ds) s0)
          (compose_call call_spec (spec_transform ds)) w))
  /\ (forall l, al_transform ds = AlCompose l ->
      getitem (IdxInt i) {| self := ds; world := w |}
      = on_dataset ds
          (wbind (compose_call call_audio (audio_transform ds) s0)
             (fun _ w1 => (w1, raise KeyError)) w))
  /\ __len__ {| self := ds; world := w |}
     = ({| self := ds; world := w |}, ok (Z.of_nat (length (index df)))).
Proof.
  intros Hi Hnd Hin df s0.
  pose proof (resolve_row ds i Hi Hnd Hin) as Hrow. unfold ok in Hrow.
  split; [| split].
  - intros Hal. rewrite getitem_unfold. cbn [index_value]. rewrite Hrow.
    rewrite (run_chains_without_augmentation ds _ w Hal). reflexivity.
  - intros l Hal. rewrite getitem_unfold. cbn [index_value]. rewrite Hrow.
    rewrite (run_chains_augmentation_raises ds l _ w Hal). reflexivity.
  - reflexivity.
Qed.

(** C6: once the row is resolved, an exception raised by a stage of the signal
    chain or by a stage of the spectrogram chain is the outcome of
    [__getitem__], in the world that the raising stage left; so is the
    KeyError that the call of a composed augmentation chain raises once the
    signal chain has returned; no sample is returned in its place. *)
Theorem stage_error_propagates (ds : AudioDataset) (idx : pyidx) (s0 : sample)
    (w w' : World) (e : exn) :
  resolve ds (index_value idx) = ok s0 ->
  stage_raises call_audio (audio_transform ds) s0 w e w'
  \/ (exists s1 l,
        compose_call call_audio (audio_transform ds) s0 w = (w', inr s1)
        /\ al_transform ds = AlCompose l
        /\ e = KeyError)
  \/ (exists s1 w1,
        compose_call call_audio (audio_transform ds) s0 w = (w1, inr s1)
        /\ al_transform ds = AlList []
        /\ stage_raises call_spec (spec_transform ds) s1 w1 e w') ->
  getitem idx {| self := ds; world := w |} = ({| self := ds; world := w' |}, inl e).
Proof.
  intros Hres Hraise. rewrite getitem_unfold. unfold ok in Hres. rewrite Hres.
  destruct Hraise as [Ha | [(s1 & l & Ha & Hal & ->) | (s1 & w1 & Ha & Hal & Hs)]].
  - apply stage_raises_compose in Ha.
    unfold on_dataset, run_chains, wbind. rewrite Ha. reflexivity.
  - rewrite (run_chains_augmentation_raises ds l s0 w Hal).
    unfold on_dataset, wbind. rewrite Ha. reflexivity.
  - apply stage_raises_compose in Hs.
    rewrite (run_chains_without_augmentation ds s0 w Hal).
    unfold on_dataset, wbind. rewrite Ha, Hs. reflexivity.
Qed.

(** C10: a tensor index is replaced by its [tolist()] before the table is
    indexed, so a rank-0 tensor holding [i] gives what the integer [i] gives
    (and a rank-1 tensor what the list gives); for [i] in range that is the
    uid and the targets of row [i], handed to the three chains. *)
Theorem getitem_tensor_index (i : Z) (l : list Z) (st : @State World) :
  getitem (IdxTensor (Tensor0 i)) st = getitem (IdxInt i) st
  /\ getitem (IdxTensor (Tensor1 l)) st = getitem (IdxList l) st
  /\ (0 <= i < df_len (annotations_df (base (self st))) ->
      NoDup (columns (annotations_df (base (self st)))) ->
      Forall (fun l => l ∈ columns (annotations_df (base (self st))))
        (target_labels (base (self st))) ->
      resolve (self st) (index_value (IdxTensor (Tensor0 i)))
      = ok (row_sample (annotations_df (base (self st))) (target_labels (base (self st)))
              (Z.to_nat i))
      /\ getitem (IdxTensor (Tensor0 i)) st
         = on_dataset (self st)
             (chains (self st)
                (row_sample (annotations_df (base (self st)))
                   (target_labels (base (self st))) (Z.to_nat i))
                (world st))).
Proof.
  split; [reflexivity | split; [reflexivity |]].
  intros Hi Hnd Hin. cbn [index_value tolist].
  pose proof (resolve_row (self st) i Hi Hnd Hin) as Hrow.
  split; [exact Hrow |].
  destruct st as [ds w]. cbn [self world] in *.
  rewrite getitem_unfold. cbn [index_value tolist].
  unfold ok in Hrow. rewrite Hrow. reflexivity.
Qed.

End GetItem.

(** ** The shape of the features (C1), on the stages modelled from the
       specification *)

Section FeatureShape.

Context {World : Type}.
Variable call_audio : audio_stage -> sample -> @W World sample.
Variable mel_fbank : tensor2 -> Z -> nat -> tensor2.
Variable apply_mask_tf : mask_tf -> tensor2 -> World -> World * tensor2.
Variable draw_band : Z -> nat -> World -> World * (nat * nat).
Variable draw_noise : World -> World * (nat -> nat -> float).

Local Abbreviation spec_call :=
  (SpecModel.call_spec mel_fbank apply_mask_tf draw_band draw_noise).

Lemma has_bins_spec (m : nat) (fb : tensor2) :
  has_bins m fb = true <-> Forall (fun frame => length frame = m) fb.
Proof.
  unfold has_bins. induction fb as [| frame fb IH]; cbn [forallb].
  - split; [constructor | reflexivity].
  - rewrite andb_true_iff, Nat.eqb_eq, IH, Forall_cons. reflexivity.
Qed.

Lemma fix_frames_shape (t m : nat) (fb : tensor2) :
  Forall (fun frame => length frame = m) fb -> has_shape (fix_frames t m fb) t m.
Proof.
  intros Hfb. unfold fix_frames, has_shape.
  destruct (Nat.ltb_spec (length fb) t) as [Hlt | Hge].
  - split.
    + rewrite length_app, repeat_length. lia.
    + apply Forall_app. split; [exact Hfb |].
      apply Forall_forall. intros frame Hin.
      apply list_elem_of_In, repeat_spec in Hin. subst. apply repeat_length.
  - split.
    + rewrite length_take. lia.
    + apply Forall_take. exact Hfb.
Qed.

Lemma Forall_imap {A B : Type} (P : A -> Prop) (Q : B -> Prop) (f : nat -> A -> B)
    (l : list A) :
  (forall i x, P x -> Q (f i x)) -> Forall P l -> Forall Q (imap f l).
Proof.
  intros Hf Hl. revert f Hf. induction Hl as [| x l Hx _ IH]; intros f Hf; cbn [imap].
  - constructor.
  - constructor; [apply Hf, Hx | apply IH; intros i y; apply Hf].
Qed.

Lemma zero_bins_shape (a b t m : nat) (fb : tensor2) :
  has_shape fb t m -> has_shape (zero_bins a b fb) t m.
Proof.
  intros [Hlen Hrows]. unfold zero_bins. split.
  - rewrite length_map. exact Hlen.
  - apply Forall_map. eapply Forall_impl; [exact Hrows |].
    intros row Hrow. cbn. rewrite length_imap. exact Hrow.
Qed.

Lemma zero_frames_shape (a b t m : nat) (fb : tensor2) :
  has_shape fb t m -> has_shape (zero_frames a b fb) t m.
Proof.
  intros [Hlen Hrows]. unfold zero_frames. split.
  - rewrite length_imap. exact Hlen.
  - eapply Forall_imap; [| exact Hrows].
    intros i row Hrow. cbn beta. destruct (in_band a b i); [| exact Hrow].
    rewrite length_map. exact Hrow.
Qed.

Lemma normalize_shape (mean std : float) (t m : nat) (fb : tensor2) :
  has_shape fb t m -> has_shape (normalize mean std fb) t m.
Proof.
  intros [Hlen Hrows]. unfold normalize. split.
  - rewrite length_map. exact Hlen.
  - apply Forall_map. eapply Forall_impl; [exact Hrows |].
    intros row Hrow. cbn. rewrite length_map. exact Hrow.
Qed.

Lemma add_noise_shape (noise : nat -> nat -> float) (t m : nat) (fb : tensor2) :
  has_shape fb t m -> has_shape (add_noise noise fb) t m.
Proof.
  intros [Hlen Hrows]. unfold add_noise. split.
  - rewrite length_imap. exact Hlen.
  - eapply Forall_imap; [| exact Hrows].
    intros i row Hrow. cbn beta. rewrite length_imap. exact Hrow.
Qed.

(** Without masking transforms the modelled conversion draws nothing: it
    leaves the world as it was and its outcome is the same in every world. *)
Lemma wav2fbank_deterministic (target_length melbins : pyval) (override_wave : bool)
    (s : sample) (w w' : World) :
  fst (spec_call (Wav2Fbank target_length melbins None None override_wave) s w) = w
  /\ snd (spec_call (Wav2Fbank target_length melbins None None override_wave) s w)
     = snd (spec_call (Wav2Fbank target_length melbins None None override_wave) s w').
Proof.
  cbn [SpecModel.call_spec]. unfold wav2fbank.
  destruct (waveform s), (sample_rate s); try (split; reflexivity).
  destruct (as_dim target_length), (as_dim melbins); try (split; reflexivity).
  cbn [apply_opt_mask]. destruct (has_bins _ _); split; reflexivity.
Qed.

Lemma as_dim_of_nat (n : nat) : as_dim (PInt (Z.of_nat n)) = ok n.
Proof.
  unfold as_dim. cbn [as_int rbind ok].
  assert (H : (0 <=? Z.of_nat n) = true) by (apply Z.leb_le; lia).
  rewrite H, Nat2Z.id. reflexivity.
Qed.

(** The conversion of a sample that holds a waveform: features of the
    configured shape when the filterbank has the configured bin count,
    whatever the length of the waveform, and ShapeInvariantError otherwise. *)
Lemma wav2fbank_outcome (t m : nat) (s : sample) (w : World) (wv : tensor2) (sr : Z)
    (override_wave : bool) :
  waveform s = Some wv -> sample_rate s = Some sr ->
  spec_call (Wav2Fbank (PInt (Z.of_nat t)) (PInt (Z.of_nat m)) None None override_wave) s w
  = if has_bins m (mel_fbank wv sr m)
    then (w, inr (set_fbank s (fix_frames t m (mel_fbank wv sr m))))
    else (w, inl ShapeInvariantError).
Proof.
  intros Hwv Hsr. cbn [SpecModel.call_spec]. unfold wav2fbank. rewrite Hwv, Hsr.
  rewrite !as_dim_of_nat. unfold ok. cbn [apply_opt_mask].
  destruct (has_bins _ _); reflexivity.
Qed.

(** Whenever the conversion returns, its features have the configured
    shape. *)
Lemma wav2fbank_returns_shaped (t m : nat) (s s' : sample) (w w' : World)
    (override_wave : bool) :
  spec_call (Wav2Fbank (PInt (Z.of_nat t)) (PInt (Z.of_nat m)) None None override_wave) s w
  = (w', inr s') ->
  shaped t m s'.
Proof.
  cbn [SpecModel.call_spec]. unfold wav2fbank.
  destruct (waveform s) as [wv |]; [| discriminate].
  destruct (sample_rate s) as [sr |]; [| discriminate].
  rewrite !as_dim_of_nat. unfold ok. cbn [apply_opt_mask].
  destruct (has_bins _ _) eqn:Hb; [| discriminate].
  intros [= _ <-]. eexists. split; [reflexivity |].
  apply fix_frames_shape, has_bins_spec, Hb.
Qed.

(** A stage with numeric arguments returns, and keeps the shape. *)
Lemma numeric_stage_shape (t m : nat) (st : spec_stage) (s : sample) (w : World) :
  numeric_stage st -> shaped t m s ->
  exists s' w', spec_call st s w = (w', inr s') /\ shaped t m s'.
Proof.
  intros Hst (fb & Hfb & Hshape).
  destruct st as [? ? ? ? ? | v | v | mean std |]; cbn [numeric_stage] in Hst;
    [contradiction | ..];
    cbn [SpecModel.call_spec]; unfold on_fbank; rewrite Hfb.
  - destruct Hst as [z ->]. unfold ok.
    destruct (draw_band z (bins_of fb) w) as [w' band].
    eexists _, _. split; [reflexivity |].
    eexists. split; [reflexivity |]. apply zero_bins_shape, Hshape.
  - destruct Hst as [z ->]. unfold ok.
    destruct (draw_band z (length fb) w) as [w' band].
    eexists _, _. split; [reflexivity |].
    eexists. split; [reflexivity |]. apply zero_frames_shape, Hshape.
  - destruct Hst as [[a ->] [b ->]]. unfold ok.
    eexists _, _. split; [reflexivity |].
    eexists. split; [reflexivity |]. apply normalize_shape, Hshape.
  - destruct (draw_noise w) as [w' noise].
    eexists _, _. split; [reflexivity |].
    eexists. split; [reflexivity |]. apply add_noise_shape, Hshape.
Qed.

Lemma numeric_chain_shape (t m : nat) (l : list spec_stage) (s : sample) (w : World) :
  Forall numeric_stage l -> shaped t m s ->
  exists s' w', compose_call spec_call l s w = (w', inr s') /\ shaped t m s'.
Proof.
  intros Hl. revert s w. induction Hl as [| st l Hst _ IH]; intros s w Hs.
  - exists s, w. split; [reflexivity | exact Hs].
  - destruct (numeric_stage_shape t m st s w Hst Hs) as (s1 & w1 & Hcall & Hs1).
    destruct (IH s1 w1 Hs1) as (s' & w' & Hrest & Hs').
    exists s', w'. split; [| exact Hs'].
    cbn [compose_call]. unfold wbind. rewrite Hcall. exact Hrest.
Qed.

Lemma format_d_as_int (v : pyval) : format_d v = ok tt -> exists z, as_int v = ok z.
Proof. destruct v; cbn; try discriminate; eauto. Qed.

Lemma format_3f_as_float (v : pyval) : format_3f v = ok tt -> exists a, as_float v = ok a.
Proof. destruct v; cbn; try discriminate; eauto. Qed.

(** What construction checked makes every later spectrogram stage numeric. *)
Lemma constructed_stages_numeric (args : InitArgs) :
  init_checks args = ok tt ->
  exists convert rest,
    spec_stages (a_audio_conf args) = convert :: rest
    /\ convert = Wav2Fbank (dict_get (a_audio_conf args) "target_length")
                   (dict_get (a_audio_conf args) "num_mel_bins") None None false
    /\ Forall numeric_stage rest.
Proof.
  unfold init_checks. intros Hc.
  destruct (format_s _); [discriminate |]; cbn [rbind] in Hc.
  destruct (str_concat _); [discriminate |]; cbn [rbind] in Hc.
  destruct (format_d (dict_get _ "freqm")) as [| []] eqn:Hf; [discriminate |];
    cbn [rbind] in Hc.
  destruct (format_d (dict_get _ "timem")) as [| []] eqn:Ht; [discriminate |];
    cbn [rbind] in Hc.
  apply format_d_as_int in Hf, Ht.
  unfold spec_stages. eexists _, _. split; [reflexivity |]. split; [reflexivity |].
  repeat apply Forall_app_2.
  - destruct (ne_zero (dict_get _ "freqm"));
      [apply Forall_cons_2; [exact Hf |] |]; apply Forall_nil_2.
  - destruct (ne_zero (dict_get _ "timem"));
      [apply Forall_cons_2; [exact Ht |] |]; apply Forall_nil_2.
  - destruct (truthy (dict_get _ "skip_norm")); [apply Forall_nil_2 |].
    destruct (format_3f (dict_get _ "mean")) as [| []] eqn:Hm; [discriminate |];
      cbn [rbind] in Hc.
    destruct (format_3f (dict_get _ "std")) as [| []] eqn:Hs; [discriminate |].
    apply format_3f_as_float in Hm, Hs.
    apply Forall_cons_2; [split; assumption | apply Forall_nil_2].
  - destruct (truthy (dict_get _ "noise"));
      [apply Forall_cons_2; [exact I |] |]; apply Forall_nil_2.
Qed.

(** The augmentation chain of a constructed dataset is the empty list or a
    composition. *)
Lemma constructed_al_transform (args : InitArgs) :
  al_transform (built args) = AlList [] \/ exists l, al_transform (built args) = AlCompose l.
Proof.
  cbn [al_transform built]. unfold wrap_al.
  destruct (aug_before_pitch _ ++ aug_after_pitch _); [left | right; eexists]; reflexivity.
Qed.

(** C1 (on the spectrogram stages modelled from the specification): in a
    dataset constructed with [target_length] [t] and [num_mel_bins] [m], every
    sample that [__getitem__] returns, for whatever index, world and signal
    stages, holds features of exactly [t] frames of [m] bins. It returns one
    whenever the row resolves, the signal chain hands over a waveform, of any
    number of samples, no augmentation is configured and the filterbank of
    that waveform has [m] bins; with another bin count it raises
    ShapeInvariantError. *)
Theorem feature_shape (args : InitArgs) (ds : AudioDataset) (t m : nat) :
  __init__ args = inr ds ->
  dict_get (a_audio_conf args) "target_length" = PInt (Z.of_nat t) ->
  dict_get (a_audio_conf args) "num_mel_bins" = PInt (Z.of_nat m) ->
  (forall idx w st' s',
     __getitem__ call_audio spec_call idx {| self := ds; world := w |} = (st', inr s') ->
     exists fb, fbank s' = Some fb /\ has_shape fb t m)
  /\ (forall idx w s0 w1 s1 wv sr,
        resolve ds (index_value idx) = ok s0 ->
        compose_call call_audio (audio_transform ds) s0 w = (w1, inr s1) ->
        al_transform ds = AlList [] ->
        waveform s1 = Some wv -> sample_rate s1 = Some sr ->
        (Forall (fun frame => length frame = m) (mel_fbank wv sr m) ->
         exists s' w' fb,
           __getitem__ call_audio spec_call idx {| self := ds; world := w |}
           = ({| self := ds; world := w' |}, inr s')
           /\ fbank s' = Some fb /\ has_shape fb t m)
        /\ (~ Forall (fun frame => length frame = m) (mel_fbank wv sr m) ->
            __getitem__ call_audio spec_call idx {| self := ds; world := w |}
            = ({| self := ds; world := w1 |}, inl ShapeInvariantError))).
Proof.
  intros Hinit Ht Hm.
  apply init_success_iff in Hinit as (Hc & _ & Hds).
  destruct (constructed_stages_numeric args Hc) as (convert & rest & Hstages & -> & Hrest).
  rewrite Ht, Hm in Hstages.
  assert (Hspec : spec_transform ds
                  = Wav2Fbank (PInt (Z.of_nat t)) (PInt (Z.of_nat m)) None None false :: rest)
    by (rewrite Hds; exact Hstages).
  split.
  - intros idx w st' s'. rewrite getitem_unfold.
    destruct (resolve ds _) as [e | s0]; [discriminate |].
    destruct (constructed_al_transform args) as [Hal | [l Hal]]; rewrite <- Hds in Hal.
    + rewrite (run_chains_without_augmentation _ _ ds s0 w Hal).
      unfold on_dataset, wbind.
      destruct (compose_call call_audio (audio_transform ds) s0 w) as [w1 [e | s1]];
        [discriminate |].
      rewrite Hspec. cbn [compose_call]. unfold wbind.
      destruct (spec_call _ s1 w1) as [w2 [e | s2]] eqn:Hconv; [discriminate |].
      apply wav2fbank_returns_shaped in Hconv.
      destruct (numeric_chain_shape t m rest s2 w2 Hrest Hconv) as (s3 & w3 & Hchain & Hsh).
      rewrite Hchain. cbn [fst snd]. intros [= _ <-]. exact Hsh.
    + rewrite (run_chains_augmentation_raises _ _ ds l s0 w Hal).
      unfold on_dataset, wbind.
      destruct (compose_call call_audio (audio_transform ds) s0 w) as [w1 [e | s1]];
        discriminate.
  - intros idx w s0 w1 s1 wv sr Hres Haudio Hal Hwv Hsr.
    rewrite getitem_unfold. unfold ok in Hres. rewrite Hres.
    rewrite (run_chains_without_augmentation _ _ ds s0 w Hal).
    unfold on_dataset, wbind. rewrite Haudio, Hspec. cbn [compose_call]. unfold wbind.
    rewrite (wav2fbank_outcome t m s1 w1 wv sr false Hwv Hsr).
    split.
    + intros Hbins. apply has_bins_spec in Hbins as Hb. rewrite Hb.
      assert (Hsh : shaped t m (set_fbank s1 (fix_frames t m (mel_fbank wv sr m)))).
      { eexists. split; [reflexivity |]. apply fix_frames_shape, Hbins. }
      destruct (numeric_chain_shape t m rest _ w1 Hrest Hsh)
        as (s' & w' & Hchain & fb & Hfb & Hshape).
      exists s', w', fb. rewrite Hchain. split; [reflexivity | split; assumption].
    + intros Hbins. destruct (has_bins m (mel_fbank wv sr m)) eqn:Hb.
      * apply has_bins_spec in Hb. contradiction.
      * reflexivity.
Qed.

End FeatureShape.

(** ** State across calls (C9), on the stages modelled from the
       specification *)

Section Stateless.

Context {World : Type}.
Variable torch : torch_lib.
Variable load :
  World -> string -> option string -> bool -> selection string -> option (tensor2 * Z).
Variable resample : tensor2 -> Z -> Z -> tensor2.
Variable wave_mean : tensor2 -> float.
Variable mel_fbank : tensor2 -> Z -> nat -> tensor2.
Variable apply_mask_tf : mask_tf -> tensor2 -> World -> World * tensor2.
Variable draw_band : Z -> nat -> World -> World * (nat * nat).
Variable draw_noise : World -> World * (nat -> nat -> float).

Local Abbreviation audio_call := (SignalModel.call_audio torch load resample wave_mean).
Local Abbreviation spec_call :=
  (SpecModel.call_spec mel_fbank apply_mask_tf draw_band draw_noise).
Local Abbreviation getitem := (__getitem__ audio_call spec_call).
Local Abbreviation after_draws := (drawn draw_band draw_noise).

(** A signal stage reads the world and leaves it as it was. *)
Lemma audio_call_world (t : audio_stage) (s : sample) (w : World) :
  fst (audio_call t s w) = w.
Proof.
  destruct t; cbn [SignalModel.call_audio]; unfold SignalModel.on_waveform;
    try (destruct (waveform s), (sample_rate s); try reflexivity;
         destruct (samples _ =? 0)%nat; try reflexivity;
         match goal with
         | |- context [match ?r with inl _ => _ | inr _ => _ end] =>
             destruct r as [? | [? ?]]; reflexivity
         end).
  destruct (load _ _ _ _ _) as [[? ?] |]; reflexivity.
Qed.

Lemma audio_chain_world (l : list audio_stage) (s : sample) (w : World) :
  fst (compose_call audio_call l s w) = w.
Proof.
  revert s. induction l as [| t l IH]; intros s; cbn [compose_call]; [reflexivity |].
  unfold wbind. pose proof (audio_call_world t s w) as Hw.
  destruct (audio_call t s w) as [w1 [e | s1]]; cbn [fst] in Hw; subst w1;
    [reflexivity | apply IH].
Qed.

Lemma drawn_trans (w1 w2 w3 : World) :
  after_draws w1 w2 -> after_draws w2 w3 -> after_draws w1 w3.
Proof.
  induction 1 as [w | mx n w w' _ IH | w w' _ IH]; intros H23.
  - exact H23.
  - eapply drawn_band, IH, H23.
  - eapply drawn_noise, IH, H23.
Qed.

(** A spectrogram stage without masking transform changes the world by its
    draws only. *)
Lemma spec_call_drawn (st : spec_stage) (s : sample) (w : World) :
  without_mask_tf st = true -> after_draws w (fst (spec_call st s w)).
Proof.
  destruct st as [tl mb [c |] [a |] ow | v | v | mean std |]; cbn [without_mask_tf];
    try discriminate; intros _; cbn [SpecModel.call_spec].
  - unfold wav2fbank. destruct (waveform s), (sample_rate s); try apply drawn_none.
    destruct (as_dim tl), (as_dim mb); try apply drawn_none.
    cbn [apply_opt_mask]. destruct (has_bins _ _); apply drawn_none.
  - unfold on_fbank. destruct (fbank s) as [fb |]; [| apply drawn_none].
    destruct (as_int v) as [e | mx]; [apply drawn_none |].
    pose proof (drawn_band draw_band draw_noise mx (bins_of fb) w _
                  (drawn_none _ _ _)) as Hd.
    destruct (draw_band mx (bins_of fb) w) as [w' band]. exact Hd.
  - unfold on_fbank. destruct (fbank s) as [fb |]; [| apply drawn_none].
    destruct (as_int v) as [e | mx]; [apply drawn_none |].
    pose proof (drawn_band draw_band draw_noise mx (length fb) w _
                  (drawn_none _ _ _)) as Hd.
    destruct (draw_band mx (length fb) w) as [w' band]. exact Hd.
  - unfold on_fbank. destruct (fbank s) as [fb |]; [| apply drawn_none].
    destruct (as_float mean), (as_float std); apply drawn_none.
  - unfold on_fbank. destruct (fbank s) as [fb |]; [| apply drawn_none].
    pose proof (drawn_noise draw_band draw_noise w _ (drawn_none _ _ _)) as Hd.
    destruct (draw_noise w) as [w' noise]. exact Hd.
Qed.

Lemma spec_chain_drawn (l : list spec_stage) (s : sample) (w : World) :
  Forall (fun st => without_mask_tf st = true) l ->
  after_draws w (fst (compose_call spec_call l s w)).
Proof.
  intros Hl. revert s w. induction Hl as [| st l Hst _ IH]; intros s w; cbn [compose_call].
  - apply drawn_none.
  - unfold wbind. pose proof (spec_call_drawn st s w Hst) as Hd.
    destruct (spec_call st s w) as [w1 [e | s1]]; cbn [fst] in Hd; [exact Hd |].
    eapply drawn_trans; [exact Hd | apply IH].
Qed.

(** A stage without random part leaves the world as it was. *)
Lemma spec_call_still (st : spec_stage) (s : sample) (w : World) :
  draws_nothing st = true -> fst (spec_call st s w) = w.
Proof.
  destruct st as [tl mb [c |] [a |] ow | v | v | mean std |]; cbn [draws_nothing];
    try discriminate; intros _; cbn [SpecModel.call_spec].
  - unfold wav2fbank. destruct (waveform s), (sample_rate s); try reflexivity.
    destruct (as_dim tl), (as_dim mb); try reflexivity.
    cbn [apply_opt_mask]. destruct (has_bins _ _); reflexivity.
  - unfold on_fbank. destruct (fbank s) as [fb |]; [| reflexivity].
    destruct (as_float mean), (as_float std); reflexivity.
Qed.

Lemma spec_chain_still (l : list spec_stage) (s : sample) (w : World) :
  Forall (fun st => draws_nothing st = true) l ->
  fst (compose_call spec_call l s w) = w.
Proof.
  intros Hl. revert s. induction Hl as [| st l Hst _ IH]; intros s; cbn [compose_call].
  - reflexivity.
  - unfold wbind. pose proof (spec_call_still st s w Hst) as Hw.
    destruct (spec_call st s w) as [w1 [e | s1]]; cbn [fst] in Hw; subst w1;
      [reflexivity | apply IH].
Qed.

Lemma spec_stages_without_mask_tf (conf : gmap string pyval) :
  Forall (fun st => without_mask_tf st = true) (spec_stages conf).
Proof.
  unfold spec_stages. repeat apply Forall_app_2.
  - apply Forall_cons_2; [reflexivity | apply Forall_nil_2].
  - destruct (ne_zero _); [apply Forall_cons_2; [reflexivity |] |]; apply Forall_nil_2.
  - destruct (ne_zero _); [apply Forall_cons_2; [reflexivity |] |]; apply Forall_nil_2.
  - destruct (truthy _); [| apply Forall_cons_2; [reflexivity |]]; apply Forall_nil_2.
  - destruct (truthy _); [apply Forall_cons_2; [reflexivity |] |]; apply Forall_nil_2.
Qed.

Lemma spec_stages_draw_nothing (conf : gmap string pyval) :
  ne_zero (dict_get conf "freqm") = false ->
  ne_zero (dict_get conf "timem") = false ->
  truthy (dict_get conf "noise") = false ->
  Forall (fun st => draws_nothing st = true) (spec_stages conf).
Proof.
  intros Hf Ht Hn. unfold spec_stages. rewrite Hf, Ht, Hn. repeat apply Forall_app_2;
    try apply Forall_nil_2.
  - apply Forall_cons_2; [reflexivity | apply Forall_nil_2].
  - destruct (truthy (dict_get conf "skip_norm"));
      [| apply Forall_cons_2; [reflexivity |]]; apply Forall_nil_2.
Qed.

(** The world that a call of [__getitem__] leaves, for each way the call can
    go. *)
Lemma getitem_world (ds : AudioDataset) (idx : pyidx) (w : World) :
  world (fst (getitem idx {| self := ds; world := w |})) = w
  \/ (exists s1,
        al_transform ds = AlList []
        /\ world (fst (getitem idx {| self := ds; world := w |}))
           = fst (compose_call spec_call (spec_transform ds) s1 w)).
Proof.
  rewrite getitem_unfold.
  destruct (resolve ds _) as [e | s0]; [left; reflexivity |].
  unfold on_dataset, run_chains, wbind. cbn [fst world].
  pose proof (audio_chain_world (audio_transform ds) s0 w) as Hw.
  destruct (compose_call audio_call (audio_transform ds) s0 w) as [w1 [e | s1]];
    cbn [fst] in Hw; subst w1; [left; reflexivity |].
  destruct (al_transform ds) as [[| a l] | l] eqn:Hal; cbn [al_ne_empty call_al];
    [| left; reflexivity | left; reflexivity].
  right. exists s1. split; [reflexivity |]. unfold wret, ok. cbv beta iota.
  destruct (compose_call spec_call (spec_transform ds) s1 w) as [w2 [e | s2]]; reflexivity.
Qed.

Lemma getitem_self (ds : AudioDataset) (idx : pyidx) (w : World) :
  self (fst (getitem idx {| self := ds; world := w |})) = ds.
Proof. rewrite getitem_unfold. destruct (resolve ds _); reflexivity. Qed.

(** C9 (on the stages modelled from the specification): a call of
    [__getitem__] or [__len__] on a constructed dataset leaves the dataset
    object as it was: the table, the target labels, the configuration and the
    three chains. What a call of [__getitem__] changes outside the dataset is
    the random source, by the draws of the masking and noise stages, and
    nothing else; in a configuration without them the whole state is as
    before, and a call made after it gives what it would have given before:
    nothing of a sample is kept for a later call. The sample that the first
    stage receives holds the uid and the targets of the row only. *)
Theorem methods_leave_dataset (args : InitArgs) (ds : AudioDataset) (idx idx' : pyidx)
    (w : World) :
  __init__ args = inr ds ->
  let st := {| self := ds; world := w |} in
  let conf := a_audio_conf args in
  self (fst (getitem idx st)) = ds
  /\ fst (__len__ st) = st
  /\ after_draws w (world (fst (getitem idx st)))
  /\ (ne_zero (dict_get conf "freqm") = false ->
      ne_zero (dict_get conf "timem") = false ->
      truthy (dict_get conf "noise") = false ->
      fst (getitem idx st) = st
      /\ getitem idx' (fst (getitem idx st)) = getitem idx' st)
  /\ (forall s0, resolve ds (index_value idx) = ok s0 ->
      waveform s0 = None /\ sample_rate s0 = None /\ fbank s0 = None).
Proof.
  intros Hinit st conf. apply init_success_iff in Hinit as (_ & _ & Hds).
  assert (Hspec : spec_transform ds = spec_stages conf) by (rewrite Hds; reflexivity).
  split; [apply getitem_self | split; [reflexivity | split; [| split]]].
  - destruct (getitem_world ds idx w) as [Hw | (s1 & _ & Hw)]; unfold st; rewrite Hw.
    + apply drawn_none.
    + rewrite Hspec. apply spec_chain_drawn, spec_stages_without_mask_tf.
  - intros Hf Ht Hn.
    assert (Hst : fst (getitem idx st) = st).
    { pose proof (getitem_self ds idx w) as Hself.
      assert (Hw : world (fst (getitem idx st)) = w).
      { destruct (getitem_world ds idx w) as [Hw | (s1 & _ & Hw)]; unfold st; rewrite Hw.
        - reflexivity.
        - rewrite Hspec. apply spec_chain_still, spec_stages_draw_nothing; assumption. }
      unfold st in *. destruct (fst (getitem idx _)) as [ds1 w1].
      cbn [self world] in *. subst. reflexivity. }
    split; [exact Hst | rewrite Hst; reflexivity].
  - intros s0 Hr. unfold resolve in Hr.
    destruct (index_getitem _ _); [discriminate |]; cbn [rbind] in Hr.
    destruct (df_getitem _ _); [discriminate |]; cbn [rbind] in Hr.
    destruct (iloc_values _ _); [discriminate |]; cbn [rbind ok] in Hr.
    injection Hr as <-. auto.
Qed.

End Stateless.

Lemma demo_eval_constructs : __init__ DemoRun.eval_args = inr (built DemoRun.eval_args).
Proof. vm_compute. reflexivity. Qed.

Lemma demo_train_constructs : __init__ DemoRun.train_args = inr (built DemoRun.train_args).
Proof. vm_compute. reflexivity. Qed.

Lemma demo_mask_constructs : __init__ DemoRun.mask_args = inr (built DemoRun.mask_args).
Proof. vm_compute. reflexivity. Qed.

(** ** Concrete instances of the theorems *)

(** The signal chain of the evaluation configuration, and the reduction of a
    two-channel waveform of five samples. *)
Lemma signal_chain_order_witness :
  audio_transform (built DemoRun.eval_args)
  = [UidToWaveform "wavs" None false; ToMonophonic channel_sum; Resample (PInt 16000);
     Truncate (PFloat 10%float); ToTensor; WaveMean]
  /\ has_shape (channel_sum DemoRun.torch [[1; 2; 3; 4; 5]; [1; 0; 1; 0; 1]]%float) 1 5
  /\ nth 2 (hd [] (channel_sum DemoRun.torch [[1; 2; 3; 4; 5]; [1; 0; 1; 0; 1]]%float))
       0%float
     = torch_sum DemoRun.torch [3; 1]%float
  /\ channel_sum DemoRun.torch [[1; 2; 3; 4; 5]; [1; 0; 1; 0; 1]]%float
     = [[2; 2; 4; 4; 6]]%float.
Proof.
  destruct (signal_chain_order DemoRun.call_audio DemoRun.eval_args
              (built DemoRun.eval_args) demo_eval_constructs) as (Hlist & _ & Hsum).
  destruct (Hsum DemoRun.torch [[1; 2; 3; 4; 5]; [1; 0; 1; 0; 1]]%float 5%nat)
    as [Hshape Hnth]; [discriminate | repeat constructor |].
  split; [exact Hlist | split; [exact Hshape | split]].
  - apply (Hnth 2%nat). lia.
  - vm_compute. reflexivity.
Defined.

(** The spectrogram chains of the training and of the evaluation
    configuration. *)
Lemma spec_chain_order_witness :
  spec_transform (built DemoRun.train_args)
  = [Wav2Fbank (PInt 3) (PInt 4) None None false; FreqMask (PInt 2); TimeMask (PInt 1);
     Normalize (PFloat (-4.5)%float) (PFloat 4.5%float); Noise]
  /\ spec_transform (built DemoRun.eval_args)
     = [Wav2Fbank (PInt 3) (PInt 4) None None false;
        Normalize (PFloat (-4.5)%float) (PFloat 4.5%float)].
Proof.
  split.
  - exact (proj1 (spec_chain_order DemoRun.call_spec DemoRun.train_args
                    (built DemoRun.train_args) demo_train_constructs)).
  - exact (proj1 (spec_chain_order DemoRun.call_spec DemoRun.eval_args
                    (built DemoRun.eval_args) demo_eval_constructs)).
Defined.

(** C5 (code defect): the training configuration enables three augmentation
    stages, so its augmentation chain is an [albumentations.Compose]; line 254
    calls it with the sample as a positional argument, which raises KeyError:
    [__getitem__] returns no record for any index, whatever the signal and
    spectrogram stages are, and raises KeyError for row 0 under the stand-ins.
    Under the evaluation configuration, without augmentation, row 1 ([u002],
    whose second label is NaN) gives the record of that row after the signal
    and the spectrogram chain, and [__len__] gives the 3 rows of the table. *)
Lemma augmentation_call_raises :
  al_transform (built DemoRun.train_args)
  = AlCompose [TimeShifting (PFloat 0.5%float); AddGaussianNoise (PFloat 0.75%float);
               Gain (PFloat 0.5%float)]
  /\ (forall (World : Type) (call_audio : audio_stage -> sample -> @W World sample)
        (call_spec : spec_stage -> sample -> @W World sample) (idx : pyidx) (w : World),
        exists e,
          snd (__getitem__ call_audio call_spec idx
                 {| self := built DemoRun.train_args; world := w |}) = inl e)
  /\ __getitem__ DemoRun.call_audio DemoRun.call_spec (IdxInt 0)
       {| self := built DemoRun.train_args; world := 0%nat |}
     = ({| self := built DemoRun.train_args; world := 0%nat |}, inl KeyError)
  /\ __getitem__ DemoRun.call_audio DemoRun.call_spec (IdxInt 1)
       {| self := built DemoRun.eval_args; world := 0%nat |}
     = ({| self := built DemoRun.eval_args; world := 0%nat |},
        inr {| uid := One "u002"%string;
               targets := One [0.5; nan]%float;
               waveform := Some [[2.25; 2.25; -2.25; -2.25]]%float;
               sample_rate := Some 16000;
               fbank := Some [[1.5; 1.5; 1.5; 1.5]; [1.5; 1.5; 1.5; 1.5];
                              [0.5; 0.5; 0.5; 0.5]]%float |})
  /\ __len__ {| self := built DemoRun.eval_args; world := 0%nat |}
     = ({| self := built DemoRun.eval_args; world := 0%nat |}, ok 3).
Proof.
  split; [vm_compute; reflexivity | split; [| split; [| split]]].
  - intros World call_audio call_spec idx w.
    eapply getitem_augmentation_never_returns. vm_compute. reflexivity.
  - destruct (getitem_row_outcome DemoRun.call_audio DemoRun.call_spec
                (built DemoRun.train_args) 0 0%nat) as (_ & Hraise & _);
      [vm_compute; split; [discriminate | reflexivity] | compute_done | compute_done |].
    erewrite Hraise by (vm_compute; reflexivity). vm_compute. reflexivity.
  - destruct (getitem_row_outcome DemoRun.call_audio DemoRun.call_spec
                (built DemoRun.eval_args) 1 0%nat) as (Hruns & _ & _);
      [vm_compute; split; [discriminate | reflexivity] | compute_done | compute_done |].
    rewrite Hruns by (vm_compute; reflexivity). vm_compute. reflexivity.
  - reflexivity.
Qed.

(** Row 2 of the table ([u003]), for which the loader raises; row 0 under the
    training configuration, where the call of the augmentation chain raises;
    and row 1 under a configuration without [num_mel_bins], where the
    conversion stage raises. *)
Lemma stage_error_propagates_witness :
  __getitem__ DemoRun.call_audio DemoRun.call_spec (IdxInt 2)
    {| self := built DemoRun.eval_args; world := 0%nat |}
  = ({| self := built DemoRun.eval_args; world := 0%nat |}, inl NotFoundError)
  /\ __getitem__ DemoRun.call_audio DemoRun.call_spec (IdxInt 0)
       {| self := built DemoRun.train_args; world := 0%nat |}
     = ({| self := built DemoRun.train_args; world := 0%nat |}, inl KeyError)
  /\ __getitem__ DemoRun.call_audio DemoRun.call_spec (IdxInt 1)
       {| self := built (Demo.args_of (delete "num_mel_bins" Demo.eval_conf) false false);
          world := 0%nat |}
     = ({| self := built (Demo.args_of (delete "num_mel_bins" Demo.eval_conf) false false);
           world := 0%nat |}, inl TypeError).
Proof.
  split; [| split].
  - eapply stage_error_propagates.
    + vm_compute. reflexivity.
    + left. apply raises_here. vm_compute. reflexivity.
  - eapply stage_error_propagates.
    + vm_compute. reflexivity.
    + right. left. eexists _, _. split; [vm_compute; reflexivity |].
      split; [vm_compute; reflexivity | reflexivity].
  - eapply stage_error_propagates.
    + vm_compute. reflexivity.
    + right. right. eexists _, _. split; [vm_compute; reflexivity |].
      split; [vm_compute; reflexivity |]. apply raises_here. vm_compute. reflexivity.
Defined.

(** The recording [u002] gives four frames after resampling: one more than a
    target length of 3, as many as a target length of 4, one less than a target
    length of 5. *)
Lemma feature_shape_witness :
  (exists s' w' fb,
     __getitem__ DemoRun.call_audio DemoRun.call_spec (IdxInt 1)
       {| self := built DemoRun.eval_args; world := 0%nat |}
     = ({| self := built DemoRun.eval_args; world := w' |}, inr s')
     /\ fbank s' = Some fb /\ has_shape fb 3 4)
  /\ (exists s' w' fb,
     __getitem__ DemoRun.call_audio DemoRun.call_spec (IdxInt 1)
       {| self := built (Demo.args_of (<["target_length" := PInt 4]> Demo.eval_conf)
                           false false);
          world := 0%nat |}
     = ({| self := built (Demo.args_of (<["target_length" := PInt 4]> Demo.eval_conf)
                            false false);
           world := w' |}, inr s')
     /\ fbank s' = Some fb /\ has_shape fb 4 4)
  /\ (exists s' w' fb,
     __getitem__ DemoRun.call_audio DemoRun.call_spec (IdxTensor (Tensor0 1))
       {| self := built (Demo.args_of (<["target_length" := PInt 5]> Demo.eval_conf)
                           false false);
          world := 0%nat |}
     = ({| self := built (Demo.args_of (<["target_length" := PInt 5]> Demo.eval_conf)
                            false false);
           world := w' |}, inr s')
     /\ fbank s' = Some fb /\ has_shape fb 5 4).
Proof.
  split; [| split].
  - destruct (feature_shape DemoRun.call_audio DemoRun.mel_fbank
                DemoRun.apply_mask_tf DemoRun.draw_band DemoRun.draw_noise
                DemoRun.eval_args (built DemoRun.eval_args) 3 4
                demo_eval_constructs eq_refl eq_refl) as [_ Hret].
    edestruct (Hret (IdxInt 1) 0%nat) as [Hok _]; [vm_compute; reflexivity .. |].
    apply Hok. vm_compute. repeat constructor.
  - destruct (feature_shape DemoRun.call_audio DemoRun.mel_fbank
                DemoRun.apply_mask_tf DemoRun.draw_band DemoRun.draw_noise
                (Demo.args_of (<["target_length" := PInt 4]> Demo.eval_conf) false false)
                (built (Demo.args_of (<["target_length" := PInt 4]> Demo.eval_conf)
                          false false)) 4 4) as [_ Hret];
      [vm_compute; reflexivity .. |].
    edestruct (Hret (IdxInt 1) 0%nat) as [Hok _]; [vm_compute; reflexivity .. |].
    apply Hok. vm_compute. repeat constructor.
  - destruct (feature_shape DemoRun.call_audio DemoRun.mel_fbank
                DemoRun.apply_mask_tf DemoRun.draw_band DemoRun.draw_noise
                (Demo.args_of (<["target_length" := PInt 5]> Demo.eval_conf) false false)
                (built (Demo.args_of (<["target_length" := PInt 5]> Demo.eval_conf)
                          false false)) 5 4) as [_ Hret];
      [vm_compute; reflexivity .. |].
    edestruct (Hret (IdxTensor (Tensor0 1)) 0%nat) as [Hok _];
      [vm_compute; reflexivity .. |].
    apply Hok. vm_compute. repeat constructor.
Defined.

(** Under the evaluation configuration a call after another gives what it
    gives on the first call; with masking and noise on, a call leaves the
    dataset as it was and the draw counter three draws further. *)
Lemma methods_leave_dataset_witness :
  __getitem__ DemoRun.call_audio DemoRun.call_spec (IdxInt 1)
    (fst (__getitem__ DemoRun.call_audio DemoRun.call_spec (IdxInt 0)
            {| self := built DemoRun.eval_args; world := 0%nat |}))
  = __getitem__ DemoRun.call_audio DemoRun.call_spec (IdxInt 1)
      {| self := built DemoRun.eval_args; world := 0%nat |}
  /\ self (fst (__getitem__ DemoRun.call_audio DemoRun.call_spec (IdxInt 1)
                  {| self := built DemoRun.mask_args; world := 0%nat |}))
     = built DemoRun.mask_args
  /\ world (fst (__getitem__ DemoRun.call_audio DemoRun.call_spec (IdxInt 1)
                   {| self := built DemoRun.mask_args; world := 0%nat |}))
     = 3%nat.
Proof.
  split; [| split].
  - apply (proj1 (proj2 (proj2 (proj2 (methods_leave_dataset DemoRun.torch DemoRun.load
             DemoRun.resample DemoRun.wave_mean DemoRun.mel_fbank DemoRun.apply_mask_tf
             DemoRun.draw_band DemoRun.draw_noise DemoRun.eval_args
             (built DemoRun.eval_args) (IdxInt 0) (IdxInt 1) 0%nat
             demo_eval_constructs)))));
      vm_compute; reflexivity.
  - exact (proj1 (methods_leave_dataset DemoRun.torch DemoRun.load
             DemoRun.resample DemoRun.wave_mean DemoRun.mel_fbank DemoRun.apply_mask_tf
             DemoRun.draw_band DemoRun.draw_noise DemoRun.mask_args
             (built DemoRun.mask_args) (IdxInt 1) (IdxInt 1) 0%nat
             demo_mask_constructs)).
  - vm_compute. reflexivity.
Defined.

(** A rank-0 tensor holding 1 resolves row 1 of the table. *)
Lemma getitem_tensor_index_witness :
  resolve (built DemoRun.eval_args) (index_value (IdxTensor (Tensor0 1)))
  = ok {| uid := One "u002"%string; targets := One [0.5; nan]%float;
          waveform := None; sample_rate := None; fbank := None |}
  /\ __getitem__ DemoRun.call_audio DemoRun.call_spec
       (IdxTensor (Tensor0 1)) {| self := built DemoRun.eval_args; world := 0%nat |}
     = __getitem__ DemoRun.call_audio DemoRun.call_spec
         (IdxInt 1) {| self := built DemoRun.eval_args; world := 0%nat |}.
Proof.
  destruct (getitem_tensor_index DemoRun.call_audio DemoRun.call_spec
              1 [] {| self := built DemoRun.eval_args; world := 0%nat |})
    as (Heq & _ & Hrow).
  split; [| exact Heq].
  destruct Hrow as [Hres _].
  - vm_compute. split; [discriminate | reflexivity].
  - compute_done.
  - compute_done.
  - exact Hres.
Defined.

(** * Further properties of the dataset *)

(** ** Which arguments construct *)

Lemma format_s_ok (v : pyval) : format_s v = ok tt <-> is_str v = true.
Proof. destruct v; cbn; split; (reflexivity || discriminate). Qed.

Lemma str_concat_ok (v : pyval) : str_concat v = ok tt <-> is_str v = true.
Proof. destruct v; cbn; split; (reflexivity || discriminate). Qed.

Lemma format_d_ok (v : pyval) : format_d v = ok tt <-> is_intlike v = true.
Proof.
  destruct v as [| b | z | f | s]; cbn; try (split; (reflexivity || discriminate)).
  destruct (fits_str_digits z); split; (reflexivity || discriminate).
Qed.

Lemma format_3f_ok (v : pyval) : format_3f v = ok tt <-> is_number v = true.
Proof.
  destruct v as [| b | z | f | s]; cbn; try (split; (reflexivity || discriminate)).
  destruct (float_overflows z); split; (reflexivity || discriminate).
Qed.

Lemma rbind_unit_ok (r : result unit) (k : unit -> result unit) :
  rbind r k = ok tt <-> r = ok tt /\ k tt = ok tt.
Proof.
  destruct r as [e | []]; cbn [rbind].
  - split; [discriminate | intros [H _]; discriminate].
  - split; [auto | intros [_ H]; exact H].
Qed.

Lemma init_checks_constructible (args : InitArgs) :
  init_checks args = ok tt /\ ne_zero (dict_get (a_audio_conf args) "pshift") = false
  <-> constructible args = true.
Proof.
  unfold init_checks, constructible.
  rewrite !rbind_unit_ok, format_s_ok, str_concat_ok, !format_d_ok.
  rewrite !andb_true_iff, orb_true_iff, !negb_true_iff, andb_true_iff.
  rewrite <- !format_3f_ok.
  destruct (truthy (dict_get (a_audio_conf args) "skip_norm")).
  - destruct (a_cdo args), (a_shift args); cbn; intuition (auto; discriminate).
  - rewrite rbind_unit_ok.
    destruct (a_cdo args), (a_shift args); cbn; intuition (auto; discriminate).
Qed.

(** X1: [AudioDataset(...)] returns a dataset exactly when [mode] and
    [dataset] are strings, [freqm] and [timem] are booleans or integers that
    print within the limit of 4300 digits, normalization is skipped or [mean]
    and [std] are booleans, floats or integers below [2^1024 - 2^970] in
    magnitude (beyond it [.3f] raises OverflowError), neither [cdo] nor
    [shift] is requested and [pshift] equals 0; the dataset is then the one
    whose chains are read off the configuration. The constructors of the stage
    classes, which are not among the sources, are taken to store their
    arguments and return. *)
Theorem init_succeeds_iff (args : InitArgs) (ds : AudioDataset) :
  __init__ args = inr ds <-> constructible args = true /\ ds = built args.
Proof.
  rewrite init_success_iff, <- init_checks_constructible. tauto.
Qed.

(** ** Indices at and beyond the bounds, missing labels, batches of indices *)

Lemma norm_pos_out_of_range (n : nat) (i : Z) :
  i < - Z.of_nat n \/ Z.of_nat n <= i -> norm_pos n i = raise IndexError.
Proof.
  intros Hout. unfold norm_pos.
  destruct (Z.leb_spec 0 i), (Z.ltb_spec i (Z.of_nat n)), (Z.leb_spec (- Z.of_nat n) i),
    (Z.ltb_spec i 0); cbn [andb]; try reflexivity; lia.
Qed.

Lemma norm_pos_negative (n : nat) (i : Z) :
  - Z.of_nat n <= i < 0 -> norm_pos n i = norm_pos n (Z.of_nat n + i).
Proof.
  intros Hneg. unfold norm_pos.
  destruct (Z.leb_spec 0 i), (Z.ltb_spec i (Z.of_nat n)), (Z.leb_spec (- Z.of_nat n) i),
    (Z.ltb_spec i 0), (Z.leb_spec 0 (Z.of_nat n + i)),
    (Z.ltb_spec (Z.of_nat n + i) (Z.of_nat n)); cbn [andb]; try reflexivity; lia.
Qed.

Lemma norm_all_in_range (n : nat) (l : list Z) :
  Forall (fun i => 0 <= i < Z.of_nat n) l -> norm_all n l = ok (map Z.to_nat l).
Proof.
  induction 1 as [| i l Hi _ IH]; cbn [norm_all map]; [reflexivity |].
  rewrite (norm_pos_in_range n i Hi), IH. reflexivity.
Qed.

Lemma select_positions_missing (cols labels : list string) :
  Exists (fun l => l ∉ cols) labels -> select_positions cols labels = raise KeyError.
Proof.
  induction 1 as [l ls Hl | l ls _ IH]; cbn [select_positions].
  - rewrite (find_all_absent l cols 0 Hl). reflexivity.
  - destruct (find_all l cols 0); [reflexivity |]. rewrite IH. reflexivity.
Qed.

Section GetItemEdges.

Context {World : Type}.
Variable call_audio : audio_stage -> sample -> @W World sample.
Variable call_spec : spec_stage -> sample -> @W World sample.

Local Abbreviation getitem := (__getitem__ call_audio call_spec).
Local Abbreviation chains := (run_chains call_audio call_spec).

(** X2: an integer index below [-len] or from [len] on raises IndexError, as
    an integer and as a rank-0 tensor, whatever the target labels are; no
    stage is called: the world stays as it was. *)
Theorem getitem_out_of_range (ds : AudioDataset) (i : Z) (w : World) :
  i < - df_len (annotations_df (base ds)) \/ df_len (annotations_df (base ds)) <= i ->
  getitem (IdxInt i) {| self := ds; world := w |}
  = ({| self := ds; world := w |}, inl IndexError)
  /\ getitem (IdxTensor (Tensor0 i)) {| self := ds; world := w |}
     = ({| self := ds; world := w |}, inl IndexError).
Proof.
  intros Hout. unfold df_len in Hout.
  assert (Hres : resolve ds (KInt i) = inl IndexError).
  { unfold resolve, index_getitem. rewrite (norm_pos_out_of_range _ _ Hout). reflexivity. }
  split; rewrite getitem_unfold; cbn [index_value tolist]; rewrite Hres; reflexivity.
Qed.

(** X3: a negative index from [-len] on addresses the table from its end:
    index [i] gives what index [len + i] gives. *)
Theorem getitem_negative_index (i : Z) (st : @State World) :
  - df_len (annotations_df (base (self st))) <= i < 0 ->
  getitem (IdxInt i) st
  = getitem (IdxInt (df_len (annotations_df (base (self st))) + i)) st.
Proof.
  intros Hneg. destruct st as [ds w]. cbn [self] in *. unfold df_len in *.
  assert (Hres : resolve ds (KInt i)
                 = resolve ds (KInt (Z.of_nat (length (index (annotations_df (base ds)))) + i))).
  { unfold resolve, index_getitem, iloc_values.
    rewrite <- (norm_pos_negative _ _ Hneg).
    destruct (norm_pos _ i); [reflexivity |]. cbn [rbind].
    destruct (df_getitem _ _) as [e | sel] eqn:Hsel; [reflexivity |]. cbn [rbind].
    assert (Hidx : index sel = index (annotations_df (base ds))).
    { unfold df_getitem in Hsel. destruct (select_positions _ _); [discriminate |].
      cbn [rbind ok] in Hsel. injection Hsel as <-. reflexivity. }
    rewrite Hidx, <- (norm_pos_negative _ _ Hneg). reflexivity. }
  rewrite !getitem_unfold. cbn [index_value]. rewrite Hres. reflexivity.
Qed.

(** X4: when a target label names no column of the table, every index in
    range raises KeyError, and no stage is called. *)
Theorem getitem_missing_label (ds : AudioDataset) (i : Z) (w : World) :
  - df_len (annotations_df (base ds)) <= i < df_len (annotations_df (base ds)) ->
  Exists (fun l => l ∉ columns (annotations_df (base ds))) (target_labels (base ds)) ->
  getitem (IdxInt i) {| self := ds; world := w |}
  = ({| self := ds; world := w |}, inl KeyError).
Proof.
  intros Hi Hmiss. unfold df_len in Hi.
  rewrite getitem_unfold. cbn [index_value].
  unfold resolve, index_getitem, df_getitem.
  rewrite (select_positions_missing _ _ Hmiss).
  destruct (Z.neg_nonneg_cases i) as [Hneg | Hpos].
  - rewrite norm_pos_negative by lia. rewrite norm_pos_in_range by lia. reflexivity.
  - rewrite norm_pos_in_range by lia. reflexivity.
Qed.

(** X6: a list of row positions in range, given as a list or as a rank-1
    tensor, yields one uid and one row of targets per position, in the order
    of the list, and hands them to the chains as one sample. *)
Theorem getitem_index_list (ds : AudioDataset) (l : list Z) (w : World) :
  Forall (fun i => 0 <= i < df_len (annotations_df (base ds))) l ->
  NoDup (columns (annotations_df (base ds))) ->
  Forall (fun lab => lab ∈ columns (annotations_df (base ds))) (target_labels (base ds)) ->
  let s0 :=
    rows_sample (annotations_df (base ds)) (target_labels (base ds)) (map Z.to_nat l) in
  getitem (IdxList l) {| self := ds; world := w |} = on_dataset ds (chains ds s0 w)
  /\ getitem (IdxTensor (Tensor1 l)) {| self := ds; world := w |}
     = on_dataset ds (chains ds s0 w).
Proof.
  intros Hl Hnd Hin s0. unfold df_len in Hl.
  assert (Hres : resolve ds (KList l) = inr s0).
  { unfold resolve, index_getitem, df_getitem, iloc_values.
    rewrite (norm_all_in_range _ _ Hl). cbn [rbind ok].
    rewrite (select_positions_unique _ _ Hnd Hin). cbn [rbind ok index].
    rewrite (norm_all_in_range _ _ Hl). cbn [rbind ok].
    unfold s0, rows_sample. do 3 f_equal.
    apply map_ext. intros r. unfold row_values. cbn [columns cell].
    rewrite length_map.
    rewrite (map_nth_positions (cell (annotations_df (base ds)) r)).
    rewrite map_map. reflexivity. }
  split; rewrite getitem_unfold; cbn [index_value tolist]; rewrite Hres; reflexivity.
Qed.

End GetItemEdges.

(** X5: construction reads neither the table nor the target labels: a
    configuration that constructs with one table constructs with every table
    and every list of labels, so a label that names no column is not noticed
    before [__getitem__]. *)
Theorem init_ignores_table (args : InitArgs) (ds : AudioDataset) (df : DataFrame)
    (labels : list string) :
  __init__ args = inr ds ->
  __init__ (with_table args df labels) = inr (built (with_table args df labels))
  /\ audio_transform (built (with_table args df labels)) = audio_transform ds
  /\ al_transform (built (with_table args df labels)) = al_transform ds
  /\ spec_transform (built (with_table args df labels)) = spec_transform ds.
Proof.
  intros H. apply init_success_iff in H as (Hchecks & Hp & ->).
  split; [| repeat split].
  apply init_success_iff. repeat split; assumption.
Qed.

(** * Properties of the loops *)

Import Loops.

(** ** [calc_auc], [embedding_extraction], [evaluation] *)

Lemma nan_count_zero (row : list float) :
  (nan_count row =? 0)%nat = true <-> Forall (fun x => PrimFloat.is_nan x = false) row.
Proof.
  unfold nan_count. rewrite Nat.eqb_eq.
  induction row as [| x row IH]; cbn [List.filter].
  - split; [constructor | reflexivity].
  - destruct (PrimFloat.is_nan x) eqn:Hx; cbn [length].
    + split; [discriminate | intros H; inversion H; congruence].
    + rewrite IH. split; [intros H; constructor; assumption | intros H; inversion H; assumption].
Qed.

Lemma select_rows_mask (f : list float -> bool) (x targets : tensor2) :
  length x = length targets ->
  length (select_rows x (map f targets)) = length (List.filter f targets).
Proof.
  revert x. induction targets as [| row targets IH]; intros [| r x] Hlen;
    cbn [map select_rows List.filter length] in *; try reflexivity; try discriminate.
  injection Hlen as Hlen. destruct (f row); cbn [length]; rewrite (IH x Hlen); reflexivity.
Qed.

Lemma filter_length_all {A : Type} (f : A -> bool) (l : list A) :
  length (List.filter f l) = length l <-> Forall (fun a => f a = true) l.
Proof.
  induction l as [| a l IH]; cbn [List.filter length].
  - split; [constructor | reflexivity].
  - pose proof (List.filter_length_le f l) as Hle. destruct (f a) eqn:Ha; cbn [length].
    + split.
      * intros H. constructor; [exact Ha | apply IH; lia].
      * intros H. inversion H; subst. f_equal. apply IH. assumption.
    + split; [lia | intros H; inversion H; congruence].
Qed.

Section Metrics.

Context {T Batch : Type}.
Variable to_device : T -> T.
Variable set_eval : T -> T.
Variable forward : T -> Batch -> array2.
Variable batch_targets : Batch -> array2.
Variable cat_empty_error : exn.
Variable extract_embedding : T -> Batch -> string -> Z -> string -> array2.
Variable sigmoid : float -> float.
Variable roc_auc_score : tensor2 -> tensor2 -> result auc_scores.

(** X7: [calc_auc] drops the predictions of the rows whose targets hold a NaN
    but hands [roc_auc_score] the targets as they came: for predictions and
    targets with the same number of rows, the score matrix has as many rows as
    there are NaN-free target rows, and as many rows as the target matrix only
    when no target is NaN; whatever [roc_auc_score] raises then is the
    outcome, with nothing written. *)
Theorem calc_auc_filters_predictions_only (preds targets : tensor2)
    (target_labels : list string) (exp_dir : string) (cloud : bool) (cloud_dir : string)
    (bucket : option string) :
  length preds = length targets ->
  exists pred_mat,
    auc_inputs sigmoid preds targets = ok (targets, pred_mat)
    /\ length pred_mat
       = length (List.filter (fun row => (nan_count row =? 0)%nat) targets)
    /\ (length pred_mat = length targets
        <-> Forall (fun row => Forall (fun x => PrimFloat.is_nan x = false) row) targets)
    /\ (forall e, roc_auc_score targets pred_mat = inl e ->
        calc_auc (T:=T) sigmoid roc_auc_score preds targets target_labels exp_dir cloud
          cloud_dir bucket
        = ([], inl e)).
Proof.
  intros Hlen.
  assert (Hin : auc_inputs sigmoid preds targets
                = ok (targets, map (map sigmoid) (select_rows preds (nan_free_mask targets)))).
  { unfold auc_inputs, mask_index, nan_free_mask.
    rewrite length_map, Hlen, !Nat.eqb_refl. reflexivity. }
  eexists. split; [exact Hin |].
  assert (Hcount : length (map (map sigmoid) (select_rows preds (nan_free_mask targets)))
                   = length (List.filter (fun row => (nan_count row =? 0)%nat) targets)).
  { rewrite length_map. apply select_rows_mask, Hlen. }
  split; [exact Hcount | split].
  - rewrite Hcount, filter_length_all. split; intros H.
    + eapply Forall_impl; [exact H |]. intros row. apply nan_count_zero.
    + eapply Forall_impl; [exact H |]. intros row. apply nan_count_zero.
  - intros e He. unfold calc_auc. rewrite Hin. cbn [rbind ok fst snd]. rewrite He.
    reflexivity.
Qed.

Lemma extraction_batches_concat (model : T) (et : string) (layer : Z) (task : string)
    (d : nat) (batches : list Batch) (acc : list (list float)) :
  (0 < d)%nat ->
  Forall (fun b => width (extract_embedding model b et layer task) = d) batches ->
  extraction_batches extract_embedding model et layer task batches
    (Array2 {| width := d; rows := acc |})
  = ok (Array2 {| width := d;
                  rows := acc ++ concat (map (fun b => rows (extract_embedding model b et
                                                               layer task)) batches) |}).
Proof.
  intros Hd Hall. revert acc. induction Hall as [| b batches Hb _ IH]; intros acc.
  - cbn [extraction_batches map concat]. rewrite app_nil_r. reflexivity.
  - cbn [extraction_batches map concat nd_size rows width].
    destruct (extract_embedding model b et layer task) as [we re] eqn:He.
    cbn [width rows] in *. subst we.
    destruct (Nat.eqb_spec (length acc * d) 0) as [Hz | Hnz].
    + assert (acc = []) as -> by (destruct acc; [reflexivity | cbn in Hz; lia]).
      rewrite IH. reflexivity.
    + cbn [np_append_axis0 width rows]. rewrite Nat.eqb_refl. cbn [rbind ok].
      rewrite IH, <- app_assoc. reflexivity.
Qed.

(** X8: when every batch yields embeddings of one positive width,
    [embedding_extraction] returns their rows in loader order, batch after
    batch; an empty loader returns the empty 1-D array it started from. *)
Theorem embedding_extraction_concat (model : T) (dataloader : list Batch)
    (embedding_type : string) (layer : Z) (task : string) (d : nat) :
  (0 < d)%nat ->
  Forall (fun b =>
            width (extract_embedding (set_eval (to_device model)) b embedding_type layer task)
            = d) dataloader ->
  embedding_extraction to_device set_eval extract_embedding model dataloader embedding_type
    layer task
  = ok match dataloader with
       | [] => Empty1D
       | _ :: _ =>
           Array2 {| width := d;
                     rows := concat (map (fun b =>
                                            rows (extract_embedding (set_eval (to_device model))
                                                    b embedding_type layer task))
                                       dataloader) |}
       end.
Proof.
  intros Hd Hall. unfold embedding_extraction.
  destruct dataloader as [| b rest]; [reflexivity |].
  apply Forall_cons in Hall as [Hb Hrest].
  cbn [extraction_batches nd_size Nat.eqb map concat].
  destruct (extract_embedding (set_eval (to_device model)) b embedding_type layer task)
    as [we re] eqn:He.
  cbn [width] in Hb. subst we.
  rewrite (extraction_batches_concat _ _ _ _ d rest re Hd Hrest). reflexivity.
Qed.

Lemma eval_fold (model : T) (l : list Batch) (outs ts : list array2) :
  fold_left (fun acc batch =>
               (fst acc ++ [forward model batch], snd acc ++ [batch_targets batch]))
    l (outs, ts)
  = (outs ++ map (forward model) l, ts ++ map batch_targets l).
Proof.
  revert outs ts. induction l as [| b l IH]; intros outs ts; cbn [fold_left map fst snd].
  - rewrite !app_nil_r. reflexivity.
  - rewrite IH, <- !app_assoc. reflexivity.
Qed.

Lemma cat_rest_concat {A : Type} (f : A -> array2) (w : nat) (l : list A) :
  Forall (fun a => width (f a) = w) l ->
  cat_rest w (map f l) = ok (concat (map (fun a => rows (f a)) l)).
Proof.
  induction 1 as [| a l Ha _ IH]; cbn [map cat_rest concat]; [reflexivity |].
  rewrite Ha, Nat.eqb_refl, IH. reflexivity.
Qed.

Lemma torch_cat_concat {A : Type} (f : A -> array2) (w : nat) (l : list A) :
  l <> [] -> Forall (fun a => width (f a) = w) l ->
  torch_cat cat_empty_error (map f l)
  = ok {| width := w; rows := concat (map (fun a => rows (f a)) l) |}.
Proof.
  intros Hne Hall. destruct l as [| a l]; [congruence |].
  apply Forall_cons in Hall as [Ha Hl]. cbn [map torch_cat concat].
  rewrite Ha, (cat_rest_concat f _ l Hl). reflexivity.
Qed.

(** X9: on a loader with at least one batch, whose outputs have one width and
    whose targets have one width, [evaluation] returns the outputs and the
    targets concatenated in loader order, writes the two tensors, and uploads
    them when [cloud] is set; on an empty loader it raises what [torch.cat]
    raises for an empty list, and writes nothing. *)
Theorem evaluation_concatenates (model : T) (dataloader_eval : list Batch) (exp_dir : string)
    (cloud : bool) (cloud_dir : string) (bucket : option string) (c k : nat) :
  evaluation to_device set_eval forward batch_targets cat_empty_error model [] exp_dir cloud
    cloud_dir bucket
  = ([], inl cat_empty_error)
  /\ (dataloader_eval <> [] ->
      Forall (fun b => width (forward (set_eval (to_device model)) b) = c) dataloader_eval ->
      Forall (fun b => width (batch_targets b) = k) dataloader_eval ->
      let outputs :=
        {| width := c;
           rows := concat (map (fun b => rows (forward (set_eval (to_device model)) b))
                             dataloader_eval) |} in
      let t :=
        {| width := k;
           rows := concat (map (fun b => rows (batch_targets b)) dataloader_eval) |} in
      evaluation to_device set_eval forward batch_targets cat_empty_error model
        dataloader_eval exp_dir cloud cloud_dir bucket
      = ([Saved exp_dir (Plain "ast_eval_predictions.pt") (TensorData outputs);
          Saved exp_dir (Plain "ast_eval_targets.pt") (TensorData t)]
         ++ (if cloud
             then [Uploaded cloud_dir exp_dir (Plain "ast_eval_predictions.pt") bucket;
                   Uploaded cloud_dir exp_dir (Plain "ast_eval_targets.pt") bucket]
             else []),
         ok (outputs, t))).
Proof.
  split; [reflexivity |].
  intros Hne Hout Htar outputs t. unfold evaluation.
  rewrite eval_fold. cbn [app].
  rewrite (torch_cat_concat (forward (set_eval (to_device model))) c _ Hne Hout).
  rewrite (torch_cat_concat batch_targets k _ Hne Htar). reflexivity.
Qed.

End Metrics.

(** ** [finetune] *)

Section TraceFacts.

Context {T : Type}.
Implicit Types evs : list (@event T).

Lemma optimizer_steps_app evs evs' :
  optimizer_steps (evs ++ evs') = (optimizer_steps evs + optimizer_steps evs')%nat.
Proof. unfold optimizer_steps. rewrite List.filter_app, length_app. reflexivity. Qed.

Lemma scheduler_steps_app evs evs' :
  scheduler_steps (evs ++ evs') = (scheduler_steps evs + scheduler_steps evs')%nat.
Proof. unfold scheduler_steps. rewrite List.filter_app, length_app. reflexivity. Qed.

Lemma saved_files_app evs evs' :
  saved_files (evs ++ evs') = saved_files evs ++ saved_files evs'.
Proof. unfold saved_files. apply flat_map_app. Qed.

Lemma uploaded_files_app evs evs' :
  uploaded_files (evs ++ evs') = uploaded_files evs ++ uploaded_files evs'.
Proof. unfold uploaded_files. apply flat_map_app. Qed.

Lemma saved_logs_app evs evs' : saved_logs (evs ++ evs') = saved_logs evs ++ saved_logs evs'.
Proof. unfold saved_logs. apply flat_map_app. Qed.

Lemma summary_of_app evs evs' : summary (evs ++ evs') = summary_app (summary evs) (summary evs').
Proof.
  unfold summary, summary_app. cbn.
  rewrite optimizer_steps_app, scheduler_steps_app, saved_files_app, uploaded_files_app.
  reflexivity.
Qed.

End TraceFacts.

Section Scheduler.

Context {T : Type}.
Variable scheduler_step : T -> T.

Lemma step_scheduler_counts (scheduler : option nat) (k k' : nat) (model m : T) :
  step_scheduler scheduler_step scheduler k model = inr (m, k') ->
  k' = (if has_scheduler scheduler then S k else k)
  /\ (forall total, scheduler = Some total -> (k' <= total)%nat).
Proof.
  destruct scheduler as [total |]; cbn [step_scheduler has_scheduler].
  - destruct (Nat.ltb_spec k total); [| discriminate].
    intros [= _ <-]. split; [reflexivity |]. intros t [= <-]. lia.
  - intros [= _ <-]. split; [reflexivity | discriminate].
Qed.

Lemma step_scheduler_within (scheduler : option nat) (k : nat) (model : T) :
  (forall total, scheduler = Some total -> (k < total)%nat) ->
  exists m,
    step_scheduler scheduler_step scheduler k model
    = inr (m, if has_scheduler scheduler then S k else k).
Proof.
  intros Hk. destruct scheduler as [total |]; cbn [step_scheduler has_scheduler].
  - specialize (Hk total eq_refl). apply Nat.ltb_lt in Hk. rewrite Hk.
    eexists. reflexivity.
  - eexists. reflexivity.
Qed.

Lemma step_scheduler_overrun (total k : nat) (model : T) :
  (total <= k)%nat ->
  step_scheduler scheduler_step (Some total) k model = inl ValueError.
Proof.
  intros Hk. cbn [step_scheduler]. apply Nat.ltb_ge in Hk. rewrite Hk. reflexivity.
Qed.

End Scheduler.

(** The steps and files of the events of a checkpoint. *)
Lemma summary_checkpoint {T : Type} (exp_dir : string) (e : nat)
    (logs_pre mdl_pre optim_pre : string) (l : logs) (model : T) (cloud : bool)
    (cloud_dir : string) (bucket : option string) :
  summary (checkpoint exp_dir e logs_pre mdl_pre optim_pre l model
           ++ (if cloud
               then checkpoint_uploads cloud_dir exp_dir e logs_pre mdl_pre optim_pre bucket
               else []))
  = {| n_optimizer := 0; n_scheduler := 0;
       files_saved := checkpoint_files logs_pre mdl_pre optim_pre e;
       files_uploaded :=
         if cloud then checkpoint_files logs_pre mdl_pre optim_pre e else [] |}.
Proof. destruct cloud; reflexivity. Qed.

Section Finetune.

Context {T Batch : Type}.
Variable to_device : T -> T.
Variable set_train : T -> T.
Variable set_eval : T -> T.
Variable make_optimizer : optimizer_kind -> float -> T -> T.
Variable make_onecycle : float -> nat -> Z -> T -> result T.
Variable fit_batch : criterion -> T -> Batch -> T * float.
Variable scheduler_step : T -> T.
Variable last_lr : T -> list float.
Variable eval_loss : criterion -> T -> Batch -> float.

Local Abbreviation ft :=
  (finetune to_device set_train set_eval make_optimizer make_onecycle fit_batch
     scheduler_step last_lr eval_loss).
Local Abbreviation ft_epochs :=
  (finetune_epochs to_device set_train set_eval fit_batch scheduler_step last_lr eval_loss).
Local Abbreviation ft_batches := (finetune_batches fit_batch scheduler_step).

Local Abbreviation ft_files := (checkpoint_files "logs_ft_epoch" "ast_ft_mdl_epoch"
                                  "ast_ft_optim_epoch").

Lemma fold_append_map {A B : Type} (f : A -> B) (l : list A) (acc : list B) :
  fold_left (fun acc a => acc ++ [f a]) l acc = acc ++ map f l.
Proof.
  revert acc. induction l as [| a l IH]; intros acc; cbn [fold_left map].
  - rewrite app_nil_r. reflexivity.
  - rewrite IH, <- app_assoc. reflexivity.
Qed.

Lemma validation_losses (model : T) (c : criterion) (l : list Batch) :
  validation to_device set_eval eval_loss model c l
  = (set_eval (to_device model), map (eval_loss c (set_eval (to_device model))) l).
Proof. unfold validation. rewrite fold_append_map. reflexivity. Qed.

(** The batches of an epoch that ran through. *)
Lemma finetune_batches_trace (c : criterion) (scheduler : option nat)
    (batches : list Batch) (model m : T) (k k' : nat) (tl tl' : list float)
    (evs : list event) :
  ft_batches c scheduler batches model k tl = (evs, inr (m, k', tl')) ->
  summary evs
  = {| n_optimizer := length batches;
       n_scheduler := if has_scheduler scheduler then length batches else 0%nat;
       files_saved := []; files_uploaded := [] |}
  /\ saved_logs evs = []
  /\ length tl' = (length tl + length batches)%nat
  /\ k' = (if has_scheduler scheduler then k + length batches else k)%nat
  /\ (forall total, scheduler = Some total -> (k <= total)%nat -> (k' <= total)%nat).
Proof.
  revert model k tl evs.
  induction batches as [| b batches IH]; intros model k tl evs; cbn [finetune_batches].
  - intros [= <- <- <- <-]. repeat split; try (destruct scheduler; reflexivity).
    + cbn. lia.
    + destruct scheduler; cbn; lia.
    + intros total _ Hk. exact Hk.
  - destruct (fit_batch c model b) as [m1 loss].
    destruct (step_scheduler scheduler_step scheduler k m1) as [err | [m2 k2]] eqn:Hstep;
      [discriminate |].
    apply step_scheduler_counts in Hstep as [Hk2 Hle].
    destruct (ft_batches c scheduler batches m2 k2 (tl ++ [loss])) as [evs1 r] eqn:Hrec.
    intros Heq; apply pair_equal_spec in Heq as [<- ->].
    apply IH in Hrec as (Hsum & Hlogs & Hlen & Hk' & Hbound).
    split; [| split; [| split; [| split]]].
    + change (OptimizerStep :: (if has_scheduler scheduler then [SchedulerStep] else [])
                ++ evs1)
        with ((OptimizerStep :: (if has_scheduler scheduler then [SchedulerStep] else []))
                ++ evs1).
      rewrite summary_of_app, Hsum. destruct (has_scheduler scheduler); reflexivity.
    + change (OptimizerStep :: (if has_scheduler scheduler then [SchedulerStep] else [])
                ++ evs1)
        with ((OptimizerStep :: (if has_scheduler scheduler then [SchedulerStep] else []))
                ++ evs1).
      rewrite saved_logs_app, Hlogs. destruct (has_scheduler scheduler); reflexivity.
    + rewrite Hlen, length_app. cbn [length]. lia.
    + rewrite Hk', Hk2. destruct (has_scheduler scheduler); cbn [length]; lia.
    + intros total Hs _. apply (Hbound total Hs), (Hle total Hs).
Qed.

(** The batches of an epoch run through when the scheduler, if there is one,
    has enough steps left for them. *)
Lemma finetune_batches_within (c : criterion) (scheduler : option nat)
    (batches : list Batch) (model : T) (k : nat) (tl : list float) :
  (forall total, scheduler = Some total -> (k + length batches <= total)%nat) ->
  exists evs r, ft_batches c scheduler batches model k tl = (evs, inr r).
Proof.
  revert model k tl.
  induction batches as [| b batches IH]; intros model k tl Hk; cbn [finetune_batches].
  - eexists _, _. reflexivity.
  - destruct (fit_batch c model b) as [m1 loss].
    destruct (step_scheduler_within scheduler_step scheduler k m1) as [m2 ->].
    { intros total Hs. specialize (Hk total Hs). cbn [length] in Hk. lia. }
    destruct (IH m2 (if has_scheduler scheduler then S k else k) (tl ++ [loss]))
      as (evs & r & ->).
    { intros total Hs. specialize (Hk total Hs). rewrite Hs. cbn [has_scheduler length] in *.
      lia. }
    eexists _, _. reflexivity.
Qed.

(** With fewer steps left than batches, [scheduler.step()] raises ValueError
    in the batch after the last step it was built for. *)
Lemma finetune_batches_overrun (c : criterion) (total : nat) (batches : list Batch)
    (model : T) (k : nat) (tl : list float) :
  (k <= total)%nat -> (total < k + length batches)%nat ->
  exists evs,
    ft_batches c (Some total) batches model k tl = (evs, inl ValueError)
    /\ summary evs
       = {| n_optimizer := S (total - k); n_scheduler := total - k;
            files_saved := []; files_uploaded := [] |}.
Proof.
  revert model k tl.
  induction batches as [| b batches IH]; intros model k tl Hle Hlt; cbn [finetune_batches].
  - cbn [length] in Hlt. lia.
  - destruct (fit_batch c model b) as [m1 loss].
    destruct (Nat.eq_dec k total) as [-> | Hne].
    + rewrite step_scheduler_overrun by lia. eexists. split; [reflexivity |].
      rewrite Nat.sub_diag. reflexivity.
    + cbn [step_scheduler]. assert (Hk : (k <? total)%nat = true) by (apply Nat.ltb_lt; lia).
      rewrite Hk. unfold ok.
      destruct (IH (scheduler_step m1) (S k) (tl ++ [loss])) as (evs & -> & Hsum);
        [lia | cbn [length] in Hlt; lia |].
      eexists. split; [reflexivity |]. cbn [has_scheduler].
      change (OptimizerStep :: [SchedulerStep] ++ evs)
        with ([OptimizerStep; SchedulerStep] ++ evs).
      rewrite summary_of_app, Hsum. unfold summary_app. cbn.
      replace (total - k)%nat with (S (total - S k)) by lia. reflexivity.
Qed.

(** The events of the logs of an epoch. *)
Lemma finetune_epochs_step (c : criterion) (scheduler : option nat) (train : dataloader)
    (val : option dataloader) (optim : string) (learning_rate : float) (loss_fn : string)
    (sched : option string) (exp_dir : string) (cloud : bool) (cloud_dir : string)
    (bucket : option string) (e : nat) (es : list nat) (model m1 : T) (k k1 : nat)
    (tl : list float) (evs1 : list event) :
  ft_batches c scheduler (iterate train e) (set_train model) k [] = (evs1, inr (m1, k1, tl)) ->
  exists evs_logs m2,
    ft_epochs c scheduler train val optim learning_rate loss_fn sched exp_dir cloud cloud_dir
      bucket (e :: es) model k
    = (evs1 ++ evs_logs
       ++ fst (ft_epochs c scheduler train val optim learning_rate loss_fn sched exp_dir
                 cloud cloud_dir bucket es m2 k1),
       snd (ft_epochs c scheduler train val optim learning_rate loss_fn sched exp_dir
              cloud cloud_dir bucket es m2 k1))
    /\ summary evs_logs
       = {| n_optimizer := 0; n_scheduler := 0;
            files_saved := if logs_epoch e then ft_files e else [];
            files_uploaded := if logs_epoch e && cloud then ft_files e else [] |}
    /\ map log_epoch (saved_logs evs_logs) = (if logs_epoch e then [e] else [])
    /\ Forall (fun l => log_epoch l = e /\ training_loss_list l = tl
                        /\ option_map (@length float) (val_loss_list l)
                           = option_map (fun v => length (iterate v e)) val)
         (saved_logs evs_logs).
Proof.
  intros Hb. cbn [finetune_epochs]. rewrite Hb.
  destruct (logs_epoch e).
  - destruct val as [v |].
    + rewrite validation_losses.
      destruct (ft_epochs c scheduler train (Some v) optim learning_rate loss_fn sched
                  exp_dir cloud cloud_dir bucket es (set_eval (to_device m1)) k1)
        as [evs2 r] eqn:Hrec.
      eexists _, (set_eval (to_device m1)). rewrite Hrec. cbn [fst snd].
      split; [reflexivity | split; [| split]].
      * rewrite summary_checkpoint. reflexivity.
      * rewrite saved_logs_app. destruct cloud; reflexivity.
      * rewrite saved_logs_app.
        destruct cloud; cbn; (constructor; [| constructor]); cbn;
          rewrite length_map; auto.
    + destruct (ft_epochs c scheduler train None optim learning_rate loss_fn sched
                  exp_dir cloud cloud_dir bucket es m1 k1) as [evs2 r] eqn:Hrec.
      eexists _, m1. rewrite Hrec. cbn [fst snd].
      split; [reflexivity | split; [| split]].
      * rewrite summary_checkpoint. reflexivity.
      * rewrite saved_logs_app. destruct cloud; reflexivity.
      * rewrite saved_logs_app.
        destruct cloud; cbn; (constructor; [| constructor]); cbn; auto.
  - destruct (ft_epochs c scheduler train val optim learning_rate loss_fn sched
                exp_dir cloud cloud_dir bucket es m1 k1) as [evs2 r] eqn:Hrec.
    eexists [], m1. rewrite Hrec. cbn [fst snd].
    split; [reflexivity | split; [| split]].
    + reflexivity.
    + reflexivity.
    + constructor.
Qed.

Lemma batches_over_cons (train : @dataloader Batch) (e : nat) (es : list nat) :
  batches_over train (e :: es) = (length (iterate train e) + batches_over train es)%nat.
Proof. reflexivity. Qed.

Lemma finetune_epochs_trace (c : criterion) (scheduler : option nat) (train : dataloader)
    (val : option dataloader) (optim : string) (learning_rate : float) (loss_fn : string)
    (sched : option string) (exp_dir : string) (cloud : bool) (cloud_dir : string)
    (bucket : option string) (es : list nat) (model m : T) (k : nat) (evs : list event) :
  ft_epochs c scheduler train val optim learning_rate loss_fn sched exp_dir cloud cloud_dir
    bucket es model k = (evs, inr m) ->
  summary evs
  = {| n_optimizer := batches_over train es;
       n_scheduler := if has_scheduler scheduler then batches_over train es else 0%nat;
       files_saved := flat_map ft_files (List.filter logs_epoch es);
       files_uploaded :=
         if cloud then flat_map ft_files (List.filter logs_epoch es) else [] |}
  /\ map log_epoch (saved_logs evs) = List.filter logs_epoch es
  /\ Forall (log_per_batch train val) (saved_logs evs).
Proof.
  revert model k evs. induction es as [| e es IH]; intros model k evs.
  - cbn [finetune_epochs]. intros [= <- <-]. cbn.
    destruct (has_scheduler scheduler), cloud; repeat split; constructor.
  - destruct (ft_batches c scheduler (iterate train e) (set_train model) k [])
      as [evs1 [err | [[m1 k1] tl]]] eqn:Hb.
    { cbn [finetune_epochs]. rewrite Hb. discriminate. }
    destruct (finetune_epochs_step c scheduler train val optim learning_rate loss_fn sched
                exp_dir cloud cloud_dir bucket e es model m1 k k1 tl evs1 Hb)
      as (evs_logs & m2 & -> & Hsl & Hel & Hll).
    apply finetune_batches_trace in Hb as (Hsum & Hlogs & Hlen & _ & _).
    destruct (ft_epochs c scheduler train val optim learning_rate loss_fn sched exp_dir
                cloud cloud_dir bucket es m2 k1) as [evs2 r] eqn:Hrec.
    cbn [fst snd]. intros Heq; apply pair_equal_spec in Heq as [<- ->].
    apply IH in Hrec as (IHsum & IHep & IHlogs).
    unfold batches_over. cbn [map list_sum List.filter]. fold (batches_over train es).
    split; [| split].
    + rewrite !summary_of_app, Hsum, Hsl, IHsum.
      destruct (has_scheduler scheduler), cloud, (logs_epoch e); cbn;
        unfold summary_app; cbn; rewrite ?Nat.add_0_r; reflexivity.
    + rewrite !saved_logs_app, Hlogs, !map_app, Hel, IHep.
      destruct (logs_epoch e); reflexivity.
    + rewrite !saved_logs_app, Hlogs. cbn [app]. apply Forall_app_2; [| exact IHlogs].
      eapply Forall_impl; [exact Hll |].
      intros l (He & Htl & Hval). unfold log_per_batch. rewrite He, Htl.
      split; [cbn [length] in Hlen; exact Hlen | exact Hval].
Qed.

(** The epochs run through when the scheduler, if there is one, was built for
    at least as many steps as the loader yields batches. *)
Lemma finetune_epochs_within (c : criterion) (scheduler : option nat) (train : dataloader)
    (val : option dataloader) (optim : string) (learning_rate : float) (loss_fn : string)
    (sched : option string) (exp_dir : string) (cloud : bool) (cloud_dir : string)
    (bucket : option string) (es : list nat) (model : T) (k : nat) :
  (forall total, scheduler = Some total -> (k + batches_over train es <= total)%nat) ->
  exists evs m,
    ft_epochs c scheduler train val optim learning_rate loss_fn sched exp_dir cloud cloud_dir
      bucket es model k = (evs, inr m).
Proof.
  revert model k. induction es as [| e es IH]; intros model k Hk.
  - eexists _, _. reflexivity.
  - setoid_rewrite batches_over_cons in Hk.
    destruct (finetune_batches_within c scheduler (iterate train e) (set_train model) k [])
      as (evs1 & [[m1 k1] tl] & Hb).
    { intros total Hs. specialize (Hk total Hs). lia. }
    destruct (finetune_epochs_step c scheduler train val optim learning_rate loss_fn sched
                exp_dir cloud cloud_dir bucket e es model m1 k k1 tl evs1 Hb)
      as (evs_logs & m2 & -> & _).
    apply finetune_batches_trace in Hb as (_ & _ & _ & Hk1 & _).
    destruct (IH m2 k1) as (evs2 & m & ->).
    { intros total Hs. specialize (Hk total Hs). rewrite Hk1, Hs. cbn [has_scheduler]. lia. }
    eexists _, _. reflexivity.
Qed.

(** When the loader yields more batches than the scheduler was built for,
    [scheduler.step()] raises ValueError right after the optimizer step that
    follows the last step it had. *)
Lemma finetune_epochs_overrun (c : criterion) (total : nat) (train : dataloader)
    (val : option dataloader) (optim : string) (learning_rate : float) (loss_fn : string)
    (sched : option string) (exp_dir : string) (cloud : bool) (cloud_dir : string)
    (bucket : option string) (es : list nat) (model : T) (k : nat) :
  (k <= total)%nat -> (total < k + batches_over train es)%nat ->
  exists evs,
    ft_epochs c (Some total) train val optim learning_rate loss_fn sched exp_dir cloud
      cloud_dir bucket es model k = (evs, inl ValueError)
    /\ optimizer_steps evs = S (total - k)
    /\ scheduler_steps evs = (total - k)%nat.
Proof.
  revert model k. induction es as [| e es IH]; intros model k Hle Hlt.
  - cbn in Hlt. lia.
  - rewrite batches_over_cons in Hlt.
    destruct (le_lt_dec (k + length (iterate train e)) total) as [Hin | Hout].
    + destruct (finetune_batches_within c (Some total) (iterate train e) (set_train model)
                  k []) as (evs1 & [[m1 k1] tl] & Hb).
      { intros t [= <-]. exact Hin. }
      destruct (finetune_epochs_step c (Some total) train val optim learning_rate loss_fn
                  sched exp_dir cloud cloud_dir bucket e es model m1 k k1 tl evs1 Hb)
        as (evs_logs & m2 & -> & Hsl & _).
      apply finetune_batches_trace in Hb as (Hsum & _ & _ & Hk1 & _).
      cbn [has_scheduler] in Hk1, Hsum.
      destruct (IH m2 k1) as (evs2 & -> & Ho & Hs); [lia | lia |].
      eexists. cbn [fst snd]. split; [reflexivity |].
      rewrite !optimizer_steps_app, !scheduler_steps_app, Ho, Hs.
      pose proof (f_equal n_optimizer Hsum) as H1. pose proof (f_equal n_scheduler Hsum) as H2.
      pose proof (f_equal n_optimizer Hsl) as H3. pose proof (f_equal n_scheduler Hsl) as H4.
      cbn [summary n_optimizer n_scheduler] in H1, H2, H3, H4.
      rewrite H1, H2, H3, H4. lia.
    + destruct (finetune_batches_overrun c total (iterate train e) (set_train model) k []
                  Hle Hout) as (evs1 & Hb & Hsum).
      cbn [finetune_epochs]. rewrite Hb. eexists. split; [reflexivity |].
      split; [exact (f_equal n_optimizer Hsum) | exact (f_equal n_scheduler Hsum)].
Qed.

Lemma batches_over_seq (train : @dataloader Batch) (n : nat) :
  loader_ok train -> batches_over train (seq 0 n) = (n * loader_len train)%nat.
Proof.
  intros Hok. unfold batches_over. generalize 0%nat as start.
  induction n as [| n IH]; intros start; [reflexivity |].
  change (list_sum (map (fun e => length (iterate train e)) (seq start (S n))))
    with (length (iterate train start)
          + list_sum (map (fun e => length (iterate train e)) (seq (S start) n)))%nat.
  rewrite IH, (Hok start). reflexivity.
Qed.

Lemma total_steps_epochs (train : @dataloader Batch) (epochs : Z) :
  total_steps train epochs = (Z.to_nat epochs * loader_len train)%nat.
Proof.
  unfold total_steps. destruct (Z.le_gt_cases 0 epochs) as [Hpos | Hneg].
  - rewrite Z2Nat.inj_mul by lia. rewrite Nat2Z.id. reflexivity.
  - replace (Z.to_nat epochs) with 0%nat by lia.
    rewrite Z2Nat.nonpos; [reflexivity | nia].
Qed.

Lemma logged_epochs_spec (epochs : Z) (e : nat) :
  In e (logged_epochs epochs) <-> Z.of_nat e < epochs /\ (e mod 10 = 0)%nat.
Proof.
  unfold logged_epochs, logs_epoch. rewrite List.filter_In, in_seq, Nat.eqb_eq.
  split; intros [H1 H2]; (split; [lia | exact H2]).
Qed.

(** The scheduler of a run: [OneCycleLR] built for [epochs * len(loader)]
    steps, or none. *)
Local Abbreviation scheduler_of sched train epochs :=
  (if is_onecycle sched then Some (total_steps train epochs) else None).

Lemma has_scheduler_of (sched : option string) (train : @dataloader Batch) (epochs : Z) :
  has_scheduler (scheduler_of sched train epochs) = is_onecycle sched.
Proof. destruct (is_onecycle sched); reflexivity. Qed.

(** What a returning run of [finetune] ran. *)
Lemma finetune_returns (model : T) (train : dataloader) (val : option dataloader)
    (optim : string) (learning_rate : float) (loss_fn : string) (sched : option string)
    (max_lr : float) (epochs : Z) (exp_dir : string) (cloud : bool) (cloud_dir : string)
    (bucket : option string) (evs : list event) (m : T) :
  ft model train val optim learning_rate loss_fn sched max_lr epochs exp_dir cloud cloud_dir
    bucket = (evs, inr m) ->
  exists c m0,
    criterion_of loss_fn = Some c
    /\ ft_epochs c (scheduler_of sched train epochs) train val optim learning_rate loss_fn
         sched exp_dir cloud cloud_dir bucket (seq 0 (Z.to_nat epochs)) m0 0
       = (evs, inr m).
Proof.
  unfold finetune. destruct (criterion_of loss_fn) as [c |]; [| discriminate].
  destruct (optimizer_of optim) as [kind |]; [| discriminate].
  destruct (is_onecycle sched).
  - destruct (make_onecycle _ _ _ _) as [err | m1]; cbn [rbind ok]; [discriminate |].
    intros Hrun. exists c, m1. split; [reflexivity | exact Hrun].
  - cbn [ok]. intros Hrun. eexists c, _. split; [reflexivity | exact Hrun].
Qed.

(** X10: [finetune] raises ValueError, before any optimizer step and before
    any file is written, when the loss name is neither MSE nor BCE or the
    optimizer name is neither adam nor adamw; the loss name CE is among the
    rejected ones. *)
Theorem finetune_rejects_names (model : T) (train : dataloader) (val : option dataloader)
    (optim : string) (learning_rate : float) (loss_fn : string) (sched : option string)
    (max_lr : float) (epochs : Z) (exp_dir : string) (cloud : bool) (cloud_dir : string)
    (bucket : option string) :
  (loss_fn <> "MSE" /\ loss_fn <> "BCE") \/ (optim <> "adam" /\ optim <> "adamw") ->
  ft model train val optim learning_rate loss_fn sched max_lr epochs exp_dir cloud cloud_dir
    bucket = ([], inl ValueError)
  /\ ft model train val optim learning_rate "CE" sched max_lr epochs exp_dir cloud cloud_dir
       bucket = ([], inl ValueError).
Proof.
  intros Hbad. split; [| reflexivity].
  unfold finetune, criterion_of, optimizer_of.
  destruct Hbad as [[H1 H2] | [H1 H2]].
  - apply String.eqb_neq in H1, H2. rewrite H1, H2. reflexivity.
  - apply String.eqb_neq in H1, H2. rewrite H1, H2.
    destruct (String.eqb loss_fn "MSE"); [reflexivity |].
    destruct (String.eqb loss_fn "BCE"); reflexivity.
Qed.

(** X11: in a run of [finetune] that returns, over a loader that yields
    [len(loader)] batches per pass, [optimizer.step()] is called
    [epochs * len(loader)] times, and [scheduler.step()] as many times with
    the one-cycle scheduler (the number of steps it was built for) and never
    without it. *)
Theorem finetune_step_counts (model : T) (train : dataloader) (val : option dataloader)
    (optim : string) (learning_rate : float) (loss_fn : string) (sched : option string)
    (max_lr : float) (epochs : Z) (exp_dir : string) (cloud : bool) (cloud_dir : string)
    (bucket : option string) (evs : list event) (m : T) :
  ft model train val optim learning_rate loss_fn sched max_lr epochs exp_dir cloud cloud_dir
    bucket = (evs, inr m) ->
  loader_ok train ->
  optimizer_steps evs = (Z.to_nat epochs * loader_len train)%nat
  /\ scheduler_steps evs
     = if is_onecycle sched then (Z.to_nat epochs * loader_len train)%nat else 0%nat.
Proof.
  intros Hrun Hok. apply finetune_returns in Hrun as (c & m0 & _ & Hrun).
  apply finetune_epochs_trace in Hrun as (Hsum & _ & _).
  rewrite (batches_over_seq train _ Hok), has_scheduler_of in Hsum.
  split.
  - exact (f_equal n_optimizer Hsum).
  - exact (f_equal n_scheduler Hsum).
Qed.

(** X12: a run of [finetune] that returns has written, in this order, the
    logs, the model and the optimizer state of each epoch [e] below [epochs]
    with [e % 10 == 0], and no other file; it has uploaded the same files when
    [cloud] is set and none otherwise. *)
Theorem finetune_checkpoints (model : T) (train : dataloader) (val : option dataloader)
    (optim : string) (learning_rate : float) (loss_fn : string) (sched : option string)
    (max_lr : float) (epochs : Z) (exp_dir : string) (cloud : bool) (cloud_dir : string)
    (bucket : option string) (evs : list event) (m : T) :
  ft model train val optim learning_rate loss_fn sched max_lr epochs exp_dir cloud cloud_dir
    bucket = (evs, inr m) ->
  saved_files evs
  = flat_map (fun e => [Numbered "logs_ft_epoch" e ".json";
                        Numbered "ast_ft_mdl_epoch" e ".pt";
                        Numbered "ast_ft_optim_epoch" e ".pt"]) (logged_epochs epochs)
  /\ uploaded_files evs = (if cloud then saved_files evs else [])
  /\ (forall e, In e (logged_epochs epochs)
                <-> Z.of_nat e < epochs /\ (e mod 10 = 0)%nat).
Proof.
  intros Hrun. apply finetune_returns in Hrun as (c & m0 & _ & Hrun).
  apply finetune_epochs_trace in Hrun as (Hsum & _ & _).
  pose proof (f_equal files_saved Hsum) as Hsaved.
  pose proof (f_equal files_uploaded Hsum) as Hup.
  cbn [files_saved files_uploaded summary] in Hsaved, Hup.
  split; [exact Hsaved | split].
  - rewrite Hup, Hsaved. reflexivity.
  - intros e. apply logged_epochs_spec.
Qed.

(** X13: the logs that a returning run of [finetune] has written are those of
    the epochs [e] below [epochs] with [e % 10 == 0], in order, and each holds
    the losses of its own epoch only: one training loss per batch of that
    epoch and, with a validation loader, one validation loss per batch of its
    pass. *)
Theorem finetune_logs_per_epoch (model : T) (train : dataloader) (val : option dataloader)
    (optim : string) (learning_rate : float) (loss_fn : string) (sched : option string)
    (max_lr : float) (epochs : Z) (exp_dir : string) (cloud : bool) (cloud_dir : string)
    (bucket : option string) (evs : list event) (m : T) :
  ft model train val optim learning_rate loss_fn sched max_lr epochs exp_dir cloud cloud_dir
    bucket = (evs, inr m) ->
  map log_epoch (saved_logs evs) = logged_epochs epochs
  /\ Forall (fun l =>
               length (training_loss_list l) = length (iterate train (log_epoch l))
               /\ option_map (@length float) (val_loss_list l)
                  = option_map (fun v => length (iterate v (log_epoch l))) val)
       (saved_logs evs).
Proof.
  intros Hrun. apply finetune_returns in Hrun as (c & m0 & _ & Hrun).
  apply finetune_epochs_trace in Hrun as (_ & Hep & Hlogs).
  split; [exact Hep | exact Hlogs].
Qed.

(** X18: with a loss name among MSE and BCE, an optimizer name among adam and
    adamw, and a one-cycle scheduler that constructs when it is asked for,
    [finetune] returns a model when there is no scheduler or when the loader
    yields, over all epochs, at most the [epochs * len(loader)] batches that
    the scheduler was built for; when it yields more, [scheduler.step()]
    raises ValueError right after the optimizer step number
    [epochs * len(loader) + 1]. A loader that yields [len(loader)] batches in
    every pass yields exactly the number the scheduler was built for. *)
Theorem finetune_returns_unless_overrun (model : T) (train : dataloader)
    (val : option dataloader) (optim : string) (learning_rate : float) (loss_fn : string)
    (sched : option string) (max_lr : float) (epochs : Z) (exp_dir : string) (cloud : bool)
    (cloud_dir : string) (bucket : option string) :
  loss_fn = "MSE"%string \/ loss_fn = "BCE"%string ->
  optim = "adam"%string \/ optim = "adamw"%string ->
  (is_onecycle sched = true ->
   forall m0, exists m1, make_onecycle max_lr (loader_len train) epochs m0 = inr m1) ->
  let total := (Z.to_nat epochs * loader_len train)%nat in
  let yielded := batches_over train (seq 0 (Z.to_nat epochs)) in
  (is_onecycle sched = false \/ (yielded <= total)%nat ->
   exists evs m,
     ft model train val optim learning_rate loss_fn sched max_lr epochs exp_dir cloud
       cloud_dir bucket = (evs, inr m))
  /\ (is_onecycle sched = true -> (total < yielded)%nat ->
      exists evs,
        ft model train val optim learning_rate loss_fn sched max_lr epochs exp_dir cloud
          cloud_dir bucket = (evs, inl ValueError)
        /\ optimizer_steps evs = S total
        /\ scheduler_steps evs = total)
  /\ (loader_ok train -> yielded = total).
Proof.
  intros Hloss Hopt Hsched total yielded.
  assert (Hc : exists c, criterion_of loss_fn = Some c).
  { destruct Hloss as [-> | ->]; eexists; reflexivity. }
  assert (Hk : exists kind, optimizer_of optim = Some kind).
  { destruct Hopt as [-> | ->]; eexists; reflexivity. }
  destruct Hc as [c Hc], Hk as [kind Hk].
  split; [| split].
  - intros Hfit. unfold finetune. rewrite Hc, Hk.
    destruct (is_onecycle sched) eqn:Ho.
    + destruct (Hsched eq_refl (make_optimizer kind learning_rate (to_device model)))
        as [m1 ->].
      cbn [rbind ok]. apply finetune_epochs_within.
      intros t [= <-]. rewrite total_steps_epochs.
      destruct Hfit as [Hf | Hf]; [discriminate | exact Hf].
    + cbn [ok]. apply finetune_epochs_within. discriminate.
  - intros Ho Hover. unfold finetune. rewrite Hc, Hk, Ho.
    destruct (Hsched Ho (make_optimizer kind learning_rate (to_device model))) as [m1 ->].
    cbn [rbind ok].
    destruct (finetune_epochs_overrun c (total_steps train epochs) train val optim
                learning_rate loss_fn sched exp_dir cloud cloud_dir bucket
                (seq 0 (Z.to_nat epochs)) m1 0) as (evs & Hrun & H1 & H2).
    { lia. }
    { rewrite total_steps_epochs. exact Hover. }
    exists evs. rewrite Nat.sub_0_r, total_steps_epochs in H1, H2. auto.
  - intros Hok. apply batches_over_seq, Hok.
Qed.

End Finetune.

(** ** [pretrain] and [validation_mask] *)

Section Pretrain.

Context {T Batch Loss : Type}.
Variable to_device : T -> T.
Variable set_train : T -> T.
Variable set_eval : T -> T.
Variable make_optimizer : optimizer_kind -> float -> T -> T.
Variable make_onecycle : float -> nat -> Z -> T -> result T.
Variable scheduler_step : T -> T.
Variable last_lr : T -> list float.
Variable forward_mpc : T -> Batch -> Z -> bool -> Loss * Loss.
Variable forward_mpg : T -> Batch -> Z -> bool -> Loss.
Variable loss_mean : Loss -> Loss.
Variable loss_joint : Loss -> Loss -> Loss.
Variable loss_item : Loss -> float.
Variable zero_grad : T -> T.
Variable backward_step : T -> Loss -> T.

Local Abbreviation pt :=
  (pretrain to_device set_train set_eval make_optimizer make_onecycle scheduler_step last_lr
     forward_mpc forward_mpg loss_mean loss_joint loss_item zero_grad backward_step).
Local Abbreviation pt_epochs :=
  (pretrain_epochs to_device set_train set_eval scheduler_step last_lr forward_mpc
     forward_mpg loss_mean loss_joint loss_item zero_grad backward_step).
Local Abbreviation pt_batches :=
  (pretrain_batches scheduler_step forward_mpc forward_mpg loss_mean loss_joint loss_item
     zero_grad backward_step).
Local Abbreviation pt_losses := (pretrain_losses forward_mpc forward_mpg loss_mean loss_joint).
Local Abbreviation vm := (validation_mask to_device set_eval forward_mpc forward_mpg loss_item).
Local Abbreviation vm_batches := (validation_mask_batches forward_mpc forward_mpg loss_item).

Local Abbreviation pt_files := (checkpoint_files "logs_pt_epoch" "ast_mdl_pt_epoch"
                                  "ast_optim_pt_epoch").

Lemma pretrain_losses_unknown (model : T) (task : string) (cluster : bool) (mask_patch : Z)
    (b : Batch) :
  ~ known_task task -> pt_losses model task cluster mask_patch b = None.
Proof.
  intros Hun. unfold pretrain_losses, known_task in *.
  destruct (String.eqb_spec task "pretrain_mpc"); [tauto |].
  destruct (String.eqb_spec task "pretrain_mpg"); [tauto |].
  destruct (String.eqb_spec task "pretrain_joint"); [tauto |]. reflexivity.
Qed.

Lemma vm_batches_known (model : T) (task : string) (cluster : bool) (mask_patch : Z)
    (batches : list Batch) (vl va : list float) :
  known_task task ->
  length (fst (vm_batches model task cluster mask_patch batches vl va))
  = (length vl + length batches)%nat
  /\ length (snd (vm_batches model task cluster mask_patch batches vl va))
     = (length va + length batches)%nat.
Proof.
  intros Hk. revert vl va. induction batches as [| b batches IH]; intros vl va.
  - cbn. lia.
  - destruct Hk as [-> | [-> | ->]]; cbn [validation_mask_batches String.eqb Ascii.eqb
      Bool.eqb]; cbn match.
    + destruct (forward_mpc model b mask_patch cluster) as [acc nce].
      destruct (IH (vl ++ [loss_item nce]) (va ++ [loss_item acc])) as [H1 H2].
      rewrite H1, H2, !length_app. cbn. lia.
    + destruct (IH (vl ++ [loss_item (forward_mpg model b mask_patch cluster)])
                  (va ++ [loss_item (forward_mpg model b mask_patch cluster)])) as [H1 H2].
      rewrite H1, H2, !length_app. cbn. lia.
    + destruct (forward_mpc model b mask_patch cluster) as [acc nce].
      destruct (IH (vl ++ [loss_item (forward_mpg model b mask_patch cluster)])
                  (va ++ [loss_item acc])) as [H1 H2].
      rewrite H1, H2, !length_app. cbn. lia.
Qed.

Lemma vm_batches_unknown (model : T) (task : string) (cluster : bool) (mask_patch : Z)
    (batches : list Batch) (vl va : list float) :
  ~ known_task task -> vm_batches model task cluster mask_patch batches vl va = (vl, va).
Proof.
  intros Hun. unfold known_task in Hun.
  induction batches as [| b batches IH]; cbn [validation_mask_batches]; [reflexivity |].
  destruct (String.eqb_spec task "pretrain_mpc"); [tauto |].
  destruct (String.eqb_spec task "pretrain_mpg"); [tauto |].
  destruct (String.eqb_spec task "pretrain_joint"); [tauto |]. exact IH.
Qed.

Lemma vm_batches_mpg (model : T) (cluster : bool) (mask_patch : Z) (batches : list Batch)
    (vl : list float) :
  fst (vm_batches model "pretrain_mpg" cluster mask_patch batches vl vl)
  = snd (vm_batches model "pretrain_mpg" cluster mask_patch batches vl vl).
Proof.
  revert vl. induction batches as [| b batches IH]; intros vl; [reflexivity |].
  cbn [validation_mask_batches String.eqb Ascii.eqb Bool.eqb]; cbn match. apply IH.
Qed.

(** X16: [validation_mask] returns two lists with one entry per batch for the
    three pre-training tasks; under the generative task the accuracy list is
    the loss list; a task name it does not know is not rejected: both lists
    come back empty. *)
Theorem validation_mask_lists (model : T) (dataloader_val : list Batch) (task : string)
    (cluster : bool) (mask_patch : Z) :
  (known_task task ->
   length (fst (snd (vm model dataloader_val task cluster mask_patch)))
   = length dataloader_val
   /\ length (snd (snd (vm model dataloader_val task cluster mask_patch)))
      = length dataloader_val)
  /\ (task = "pretrain_mpg"%string ->
      fst (snd (vm model dataloader_val task cluster mask_patch))
      = snd (snd (vm model dataloader_val task cluster mask_patch)))
  /\ (~ known_task task -> snd (vm model dataloader_val task cluster mask_patch) = ([], [])).
Proof.
  unfold validation_mask. cbn [snd]. split; [| split].
  - intros Hk. apply (vm_batches_known _ _ _ _ dataloader_val [] [] Hk).
  - intros ->. apply vm_batches_mpg.
  - intros Hun. apply vm_batches_unknown, Hun.
Qed.

Local Abbreviation scheduler_of sched train epochs :=
  (if is_onecycle sched then Some (total_steps train epochs) else None).

(** The batches of an epoch that ran through. *)
Lemma pretrain_batches_trace (scheduler : option nat) (task : string) (cluster : bool)
    (mask_patch : Z) (batches : list Batch) (model m : T) (k k' : nat)
    (tl ta tl' ta' : list float) (evs : list event) :
  pt_batches scheduler task cluster mask_patch batches model k tl ta
  = (evs, inr (m, k', tl', ta')) ->
  summary evs
  = {| n_optimizer := length batches;
       n_scheduler := if has_scheduler scheduler then length batches else 0%nat;
       files_saved := []; files_uploaded := [] |}
  /\ saved_logs evs = []
  /\ length tl' = (length tl + length batches)%nat
  /\ (task = "pretrain_mpg"%string -> tl = ta -> tl' = ta')
  /\ k' = (if has_scheduler scheduler then k + length batches else k)%nat.
Proof.
  revert model k tl ta evs.
  induction batches as [| b batches IH]; intros model k tl ta evs; cbn [pretrain_batches].
  - intros [= <- <- <- <- <-]. repeat split; try (destruct scheduler; reflexivity).
    + cbn. lia.
    + intros _ H. exact H.
    + destruct scheduler; cbn; lia.
  - destruct (pt_losses (zero_grad model) task cluster mask_patch b) as [[acc loss] |] eqn:Hl;
      [| discriminate].
    destruct (step_scheduler scheduler_step scheduler k (backward_step (zero_grad model) loss))
      as [err | [m2 k2]] eqn:Hstep; [discriminate |].
    apply step_scheduler_counts in Hstep as [Hk2 _].
    destruct (pt_batches scheduler task cluster mask_patch batches m2 k2 _ _)
      as [evs1 r] eqn:Hrec.
    intros Heq; apply pair_equal_spec in Heq as [<- ->].
    apply IH in Hrec as (Hsum & Hlogs & Hlen & Hmpg & Hk').
    split; [| split; [| split; [| split]]].
    + change (OptimizerStep :: (if has_scheduler scheduler then [SchedulerStep] else [])
                ++ evs1)
        with ((OptimizerStep :: (if has_scheduler scheduler then [SchedulerStep] else []))
                ++ evs1).
      rewrite summary_of_app, Hsum. destruct (has_scheduler scheduler); reflexivity.
    + change (OptimizerStep :: (if has_scheduler scheduler then [SchedulerStep] else [])
                ++ evs1)
        with ((OptimizerStep :: (if has_scheduler scheduler then [SchedulerStep] else []))
                ++ evs1).
      rewrite saved_logs_app, Hlogs. destruct (has_scheduler scheduler); reflexivity.
    + rewrite Hlen, length_app. cbn [length]. lia.
    + intros -> ->. apply Hmpg; [reflexivity |].
      unfold pretrain_losses in Hl. cbn in Hl. injection Hl as <- <-. reflexivity.
    + rewrite Hk', Hk2. destruct (has_scheduler scheduler); cbn [length]; lia.
Qed.

Lemma pretrain_batches_unknown (scheduler : option nat) (task : string) (cluster : bool)
    (mask_patch : Z) (b : Batch) (batches : list Batch) (model : T) (k : nat)
    (tl ta : list float) :
  ~ known_task task ->
  pt_batches scheduler task cluster mask_patch (b :: batches) model k tl ta
  = ([], inl UnboundLocalError).
Proof.
  intros Hun. cbn [pretrain_batches].
  rewrite (pretrain_losses_unknown _ _ _ _ _ Hun). reflexivity.
Qed.

Lemma pretrain_losses_known (model : T) (task : string) (cluster : bool) (mask_patch : Z)
    (b : Batch) :
  known_task task -> exists al, pt_losses model task cluster mask_patch b = Some al.
Proof.
  intros [-> | [-> | ->]]; unfold pretrain_losses;
    cbn [String.eqb Ascii.eqb Bool.eqb]; cbn match.
  - destruct (forward_mpc model b mask_patch cluster). eexists. reflexivity.
  - eexists. reflexivity.
  - destruct (forward_mpc model b mask_patch cluster). eexists. reflexivity.
Qed.

(** Under a known task the batches of an epoch run through when the
    scheduler, if there is one, has enough steps left for them. *)
Lemma pretrain_batches_within (scheduler : option nat) (task : string) (cluster : bool)
    (mask_patch : Z) (batches : list Batch) (model : T) (k : nat) (tl ta : list float) :
  known_task task ->
  (forall total, scheduler = Some total -> (k + length batches <= total)%nat) ->
  exists evs r,
    pt_batches scheduler task cluster mask_patch batches model k tl ta = (evs, inr r).
Proof.
  intros Hknown. revert model k tl ta.
  induction batches as [| b batches IH]; intros model k tl ta Hk; cbn [pretrain_batches].
  - eexists _, _. reflexivity.
  - destruct (pretrain_losses_known (zero_grad model) task cluster mask_patch b Hknown)
      as [[acc loss] ->].
    destruct (step_scheduler_within scheduler_step scheduler k
                (backward_step (zero_grad model) loss)) as [m2 ->].
    { intros total Hs. specialize (Hk total Hs). cbn [length] in Hk. lia. }
    destruct (IH m2 (if has_scheduler scheduler then S k else k)
                (tl ++ [loss_item loss]) (ta ++ [loss_item acc])) as (evs & r & ->).
    { intros total Hs. specialize (Hk total Hs). rewrite Hs. cbn [has_scheduler length] in *.
      lia. }
    eexists _, _. reflexivity.
Qed.

(** With fewer steps left than batches, [scheduler.step()] raises ValueError
    in the batch after the last step it was built for. *)
Lemma pretrain_batches_overrun (total : nat) (task : string) (cluster : bool)
    (mask_patch : Z) (batches : list Batch) (model : T) (k : nat) (tl ta : list float) :
  known_task task ->
  (k <= total)%nat -> (total < k + length batches)%nat ->
  exists evs,
    pt_batches (Some total) task cluster mask_patch batches model k tl ta
    = (evs, inl ValueError)
    /\ summary evs
       = {| n_optimizer := S (total - k); n_scheduler := total - k;
            files_saved := []; files_uploaded := [] |}.
Proof.
  intros Hknown. revert model k tl ta.
  induction batches as [| b batches IH]; intros model k tl ta Hle Hlt;
    cbn [pretrain_batches].
  - cbn [length] in Hlt. lia.
  - destruct (pretrain_losses_known (zero_grad model) task cluster mask_patch b Hknown)
      as [[acc loss] ->].
    destruct (Nat.eq_dec k total) as [-> | Hne].
    + rewrite step_scheduler_overrun by lia. eexists. split; [reflexivity |].
      rewrite Nat.sub_diag. reflexivity.
    + cbn [step_scheduler]. assert (Hk : (k <? total)%nat = true) by (apply Nat.ltb_lt; lia).
      rewrite Hk. unfold ok.
      destruct (IH (scheduler_step (backward_step (zero_grad model) loss)) (S k)
                  (tl ++ [loss_item loss]) (ta ++ [loss_item acc])) as (evs & -> & Hsum);
        [lia | cbn [length] in Hlt; lia |].
      eexists. split; [reflexivity |]. cbn [has_scheduler].
      change (OptimizerStep :: [SchedulerStep] ++ evs)
        with ([OptimizerStep; SchedulerStep] ++ evs).
      rewrite summary_of_app, Hsum. unfold summary_app. cbn.
      replace (total - k)%nat with (S (total - S k)) by lia. reflexivity.
Qed.

(** The events of the logs of an epoch. *)
Lemma pretrain_epochs_step (scheduler : option nat) (train : dataloader)
    (val : option dataloader) (optim : string) (learning_rate : float) (cluster : bool)
    (task : string) (mask_patch : Z) (exp_dir : string) (cloud : bool) (cloud_dir : string)
    (bucket : option string) (e : nat) (es : list nat) (model m1 : T) (k k1 : nat)
    (tl ta : list float) (evs1 : list event) :
  pt_batches scheduler task cluster mask_patch (iterate train e) (set_train model) k [] []
  = (evs1, inr (m1, k1, tl, ta)) ->
  exists evs_logs m2,
    pt_epochs scheduler train val optim learning_rate cluster task mask_patch exp_dir cloud
      cloud_dir bucket (e :: es) model k
    = (evs1 ++ evs_logs
       ++ fst (pt_epochs scheduler train val optim learning_rate cluster task mask_patch
                 exp_dir cloud cloud_dir bucket es m2 k1),
       snd (pt_epochs scheduler train val optim learning_rate cluster task mask_patch
              exp_dir cloud cloud_dir bucket es m2 k1))
    /\ summary evs_logs
       = {| n_optimizer := 0; n_scheduler := 0;
            files_saved := if logs_epoch e then pt_files e else [];
            files_uploaded := if logs_epoch e && cloud then pt_files e else [] |}
    /\ map log_epoch (saved_logs evs_logs) = (if logs_epoch e then [e] else [])
    /\ (task = "pretrain_mpg"%string -> tl = ta ->
        Forall (fun l => training_acc_list l = Some (training_loss_list l)
                         /\ val_acc_list l = val_loss_list l) (saved_logs evs_logs)).
Proof.
  intros Hb. cbn [pretrain_epochs]. rewrite Hb.
  destruct (logs_epoch e).
  - destruct val as [v |].
    + destruct (vm m1 (iterate v e) task cluster mask_patch) as [m2 [vl va]] eqn:Hv.
      cbv beta iota zeta.
      destruct (pt_epochs scheduler train (Some v) optim learning_rate cluster task
                  mask_patch exp_dir cloud cloud_dir bucket es m2 k1) as [evs2 r] eqn:Hrec.
      eexists _, m2. rewrite Hrec. cbn [fst snd].
      split; [reflexivity | split; [| split]].
      * rewrite summary_checkpoint. reflexivity.
      * rewrite saved_logs_app. destruct cloud; reflexivity.
      * intros Ht Heq. rewrite saved_logs_app.
        assert (Hval : vl = va).
        { pose proof (vm_batches_mpg (set_eval (to_device m1)) cluster mask_patch
                        (iterate v e) []) as Hmpg.
          unfold validation_mask in Hv. rewrite Ht in Hv.
          apply pair_equal_spec in Hv as [_ Hv]. rewrite Hv in Hmpg. exact Hmpg. }
        destruct cloud; cbn; (constructor; [| constructor]); cbn;
          rewrite Heq, Hval; split; reflexivity.
    + cbv beta iota zeta.
      destruct (pt_epochs scheduler train None optim learning_rate cluster task
                  mask_patch exp_dir cloud cloud_dir bucket es m1 k1) as [evs2 r] eqn:Hrec.
      eexists _, m1. rewrite Hrec. cbn [fst snd].
      split; [reflexivity | split; [| split]].
      * rewrite summary_checkpoint. reflexivity.
      * rewrite saved_logs_app. destruct cloud; reflexivity.
      * intros Ht Heq. rewrite saved_logs_app.
        destruct cloud; cbn; (constructor; [| constructor]); cbn;
          rewrite Heq; split; reflexivity.
  - cbv beta iota zeta.
    destruct (pt_epochs scheduler train val optim learning_rate cluster task
                mask_patch exp_dir cloud cloud_dir bucket es m1 k1) as [evs2 r] eqn:Hrec.
    eexists [], m1. rewrite Hrec. cbn [fst snd].
    split; [reflexivity | split; [| split]].
    + reflexivity.
    + reflexivity.
    + intros _ _. constructor.
Qed.

Lemma pretrain_epochs_trace (scheduler : option nat) (train : dataloader)
    (val : option dataloader) (optim : string) (learning_rate : float) (cluster : bool)
    (task : string) (mask_patch : Z) (exp_dir : string) (cloud : bool) (cloud_dir : string)
    (bucket : option string) (es : list nat) (model m : T) (k : nat) (evs : list event) :
  pt_epochs scheduler train val optim learning_rate cluster task mask_patch exp_dir cloud
    cloud_dir bucket es model k = (evs, inr m) ->
  summary evs
  = {| n_optimizer := batches_over train es;
       n_scheduler := if has_scheduler scheduler then batches_over train es else 0%nat;
       files_saved := flat_map pt_files (List.filter logs_epoch es);
       files_uploaded :=
         if cloud then flat_map pt_files (List.filter logs_epoch es) else [] |}
  /\ map log_epoch (saved_logs evs) = List.filter logs_epoch es
  /\ (task = "pretrain_mpg"%string ->
      Forall (fun l => training_acc_list l = Some (training_loss_list l)
                       /\ val_acc_list l = val_loss_list l) (saved_logs evs)).
Proof.
  revert model k evs. induction es as [| e es IH]; intros model k evs.
  - cbn [pretrain_epochs]. intros [= <- <-]. cbn.
    destruct (has_scheduler scheduler), cloud; repeat split; constructor.
  - destruct (pt_batches scheduler task cluster mask_patch (iterate train e)
                (set_train model) k [] []) as [evs1 [err | [[[m1 k1] tl] ta]]] eqn:Hb.
    { cbn [pretrain_epochs]. rewrite Hb. discriminate. }
    destruct (pretrain_epochs_step scheduler train val optim learning_rate cluster task
                mask_patch exp_dir cloud cloud_dir bucket e es model m1 k k1 tl ta evs1 Hb)
      as (evs_logs & m2 & -> & Hsl & Hel & Hll).
    apply pretrain_batches_trace in Hb as (Hsum & Hlogs & _ & Hmpg & _).
    destruct (pt_epochs scheduler train val optim learning_rate cluster task mask_patch
                exp_dir cloud cloud_dir bucket es m2 k1) as [evs2 r] eqn:Hrec.
    cbn [fst snd]. intros Heq; apply pair_equal_spec in Heq as [<- ->].
    apply IH in Hrec as (IHsum & IHep & IHmpg).
    rewrite batches_over_cons. cbn [List.filter].
    split; [| split].
    + rewrite !summary_of_app, Hsum, Hsl, IHsum.
      destruct (has_scheduler scheduler), cloud, (logs_epoch e); cbn;
        unfold summary_app; cbn; rewrite ?Nat.add_0_r; reflexivity.
    + rewrite !saved_logs_app, Hlogs, !map_app, Hel, IHep.
      destruct (logs_epoch e); reflexivity.
    + intros Ht. rewrite !saved_logs_app, Hlogs. cbn [app].
      apply Forall_app_2; [exact (Hll Ht (Hmpg Ht eq_refl)) | exact (IHmpg Ht)].
Qed.

(** Under a known task the epochs run through when the scheduler, if there is
    one, was built for at least as many steps as the loader yields batches. *)
Lemma pretrain_epochs_within (scheduler : option nat) (train : dataloader)
    (val : option dataloader) (optim : string) (learning_rate : float) (cluster : bool)
    (task : string) (mask_patch : Z) (exp_dir : string) (cloud : bool) (cloud_dir : string)
    (bucket : option string) (es : list nat) (model : T) (k : nat) :
  known_task task ->
  (forall total, scheduler = Some total -> (k + batches_over train es <= total)%nat) ->
  exists evs m,
    pt_epochs scheduler train val optim learning_rate cluster task mask_patch exp_dir cloud
      cloud_dir bucket es model k = (evs, inr m).
Proof.
  intros Hknown. revert model k. induction es as [| e es IH]; intros model k Hk.
  - eexists _, _. reflexivity.
  - setoid_rewrite batches_over_cons in Hk.
    destruct (pretrain_batches_within scheduler task cluster mask_patch (iterate train e)
                (set_train model) k [] [] Hknown) as (evs1 & [[[m1 k1] tl] ta] & Hb).
    { intros total Hs. specialize (Hk total Hs). lia. }
    destruct (pretrain_epochs_step scheduler train val optim learning_rate cluster task
                mask_patch exp_dir cloud cloud_dir bucket e es model m1 k k1 tl ta evs1 Hb)
      as (evs_logs & m2 & -> & _).
    apply pretrain_batches_trace in Hb as (_ & _ & _ & _ & Hk1).
    destruct (IH m2 k1) as (evs2 & m & ->).
    { intros total Hs. specialize (Hk total Hs). rewrite Hk1, Hs. cbn [has_scheduler]. lia. }
    eexists _, _. reflexivity.
Qed.

(** When the loader yields more batches than the scheduler was built for,
    [scheduler.step()] raises ValueError right after the optimizer step that
    follows the last step it had. *)
Lemma pretrain_epochs_overrun (total : nat) (train : dataloader)
    (val : option dataloader) (optim : string) (learning_rate : float) (cluster : bool)
    (task : string) (mask_patch : Z) (exp_dir : string) (cloud : bool) (cloud_dir : string)
    (bucket : option string) (es : list nat) (model : T) (k : nat) :
  known_task task ->
  (k <= total)%nat -> (total < k + batches_over train es)%nat ->
  exists evs,
    pt_epochs (Some total) train val optim learning_rate cluster task mask_patch exp_dir
      cloud cloud_dir bucket es model k = (evs, inl ValueError)
    /\ optimizer_steps evs = S (total - k)
    /\ scheduler_steps evs = (total - k)%nat.
Proof.
  intros Hknown. revert model k. induction es as [| e es IH]; intros model k Hle Hlt.
  - cbn in Hlt. lia.
  - rewrite batches_over_cons in Hlt.
    destruct (le_lt_dec (k + length (iterate train e)) total) as [Hin | Hout].
    + destruct (pretrain_batches_within (Some total) task cluster mask_patch
                  (iterate train e) (set_train model) k [] [] Hknown)
        as (evs1 & [[[m1 k1] tl] ta] & Hb).
      { intros t [= <-]. exact Hin. }
      destruct (pretrain_epochs_step (Some total) train val optim learning_rate cluster
                  task mask_patch exp_dir cloud cloud_dir bucket e es model m1 k k1 tl ta
                  evs1 Hb) as (evs_logs & m2 & -> & Hsl & _).
      apply pretrain_batches_trace in Hb as (Hsum & _ & _ & _ & Hk1).
      cbn [has_scheduler] in Hk1, Hsum.
      destruct (IH m2 k1) as (evs2 & -> & Ho & Hs); [lia | lia |].
      eexists. cbn [fst snd]. split; [reflexivity |].
      rewrite !optimizer_steps_app, !scheduler_steps_app, Ho, Hs.
      pose proof (f_equal n_optimizer Hsum) as H1. pose proof (f_equal n_scheduler Hsum) as H2.
      pose proof (f_equal n_optimizer Hsl) as H3. pose proof (f_equal n_scheduler Hsl) as H4.
      cbn [summary n_optimizer n_scheduler] in H1, H2, H3, H4.
      rewrite H1, H2, H3, H4. lia.
    + destruct (pretrain_batches_overrun total task cluster mask_patch (iterate train e)
                  (set_train model) k [] [] Hknown Hle Hout) as (evs1 & Hb & Hsum).
      cbn [pretrain_epochs]. rewrite Hb. eexists. split; [reflexivity |].
      split; [exact (f_equal n_optimizer Hsum) | exact (f_equal n_scheduler Hsum)].
Qed.

(** What a returning run of [pretrain] ran. *)
Lemma pretrain_returns (model : T) (train : dataloader) (val : option dataloader)
    (optim : string) (learning_rate : float) (scheduler : option string) (max_lr : float)
    (epochs : Z) (cluster : bool) (task : string) (mask_patch : Z) (exp_dir : string)
    (cloud : bool) (cloud_dir : string) (bucket : option string) (evs : list event) (m : T) :
  pt model train val optim learning_rate scheduler max_lr epochs cluster task mask_patch
    exp_dir cloud cloud_dir bucket = (evs, inr m) ->
  exists m0,
    pt_epochs (scheduler_of scheduler train epochs) train val optim learning_rate cluster
      task mask_patch exp_dir cloud cloud_dir bucket (seq 0 (Z.to_nat epochs)) m0 0
    = (evs, inr m).
Proof.
  unfold pretrain. destruct (optimizer_of optim) as [kind |]; [| discriminate].
  destruct (is_onecycle scheduler).
  - destruct (make_onecycle _ _ _ _) as [err | m1]; cbn [rbind ok]; [discriminate |].
    intros Hrun. exists m1. exact Hrun.
  - cbn [ok]. intros Hrun. eexists. exact Hrun.
Qed.

(** X14: with a task name other than the three pre-training tasks, [pretrain]
    returns no model: once the optimizer and the scheduler are built, the first
    batch of the first epoch raises UnboundLocalError at [loss.backward()],
    before any optimizer step and before any file is written. *)
Theorem pretrain_unknown_task (model : T) (train : dataloader) (val : option dataloader)
    (optim : string) (learning_rate : float) (scheduler : option string) (max_lr : float)
    (epochs : Z) (cluster : bool) (task : string) (mask_patch : Z) (exp_dir : string)
    (cloud : bool) (cloud_dir : string) (bucket : option string) :
  ~ known_task task ->
  optim = "adam"%string \/ optim = "adamw"%string ->
  (is_onecycle scheduler = true ->
   forall m0, exists m1, make_onecycle max_lr (loader_len train) epochs m0 = inr m1) ->
  0 < epochs ->
  iterate train 0 <> [] ->
  pt model train val optim learning_rate scheduler max_lr epochs cluster task mask_patch
    exp_dir cloud cloud_dir bucket = ([], inl UnboundLocalError).
Proof.
  intros Hun Hopt Hsched Hep Hne.
  assert (Hfirst : forall sched m0,
             pt_epochs sched train val optim learning_rate cluster task mask_patch exp_dir
               cloud cloud_dir bucket (seq 0 (Z.to_nat epochs)) m0 0
             = ([], inl UnboundLocalError)).
  { intros sched m0. destruct (Z.to_nat epochs) as [| n] eqn:Hn; [lia |].
    cbn [seq pretrain_epochs].
    destruct (iterate train 0) as [| b batches]; [congruence |].
    rewrite (pretrain_batches_unknown _ _ _ _ _ _ _ _ _ _ Hun). reflexivity. }
  unfold pretrain.
  assert (Hkind : exists kind, optimizer_of optim = Some kind).
  { destruct Hopt as [-> | ->]; eexists; reflexivity. }
  destruct Hkind as [kind ->].
  destruct (is_onecycle scheduler).
  - destruct (Hsched eq_refl (make_optimizer kind learning_rate (to_device model)))
      as [m1 ->].
    cbn [rbind ok]. apply Hfirst.
  - cbn [ok]. apply Hfirst.
Qed.

(** X19: with one of the three pre-training tasks, an optimizer name among
    adam and adamw, and a one-cycle scheduler that constructs when it is asked
    for, [pretrain] returns a model when there is no scheduler or when the
    loader yields, over all epochs, at most the [epochs * len(loader)] batches
    that the scheduler was built for; when it yields more, [scheduler.step()]
    raises ValueError right after the optimizer step number
    [epochs * len(loader) + 1]. A loader that yields [len(loader)] batches in
    every pass yields exactly the number the scheduler was built for. *)
Theorem pretrain_returns_unless_overrun (model : T) (train : dataloader)
    (val : option dataloader) (optim : string) (learning_rate : float)
    (scheduler : option string) (max_lr : float) (epochs : Z) (cluster : bool)
    (task : string) (mask_patch : Z) (exp_dir : string) (cloud : bool) (cloud_dir : string)
    (bucket : option string) :
  known_task task ->
  optim = "adam"%string \/ optim = "adamw"%string ->
  (is_onecycle scheduler = true ->
   forall m0, exists m1, make_onecycle max_lr (loader_len train) epochs m0 = inr m1) ->
  let total := (Z.to_nat epochs * loader_len train)%nat in
  let yielded := batches_over train (seq 0 (Z.to_nat epochs)) in
  (is_onecycle scheduler = false \/ (yielded <= total)%nat ->
   exists evs m,
     pt model train val optim learning_rate scheduler max_lr epochs cluster task mask_patch
       exp_dir cloud cloud_dir bucket = (evs, inr m))
  /\ (is_onecycle scheduler = true -> (total < yielded)%nat ->
      exists evs,
        pt model train val optim learning_rate scheduler max_lr epochs cluster task
          mask_patch exp_dir cloud cloud_dir bucket = (evs, inl ValueError)
        /\ optimizer_steps evs = S total
        /\ scheduler_steps evs = total)
  /\ (loader_ok train -> yielded = total).
Proof.
  intros Hknown Hopt Hsched total yielded.
  assert (Hkind : exists kind, optimizer_of optim = Some kind).
  { destruct Hopt as [-> | ->]; eexists; reflexivity. }
  destruct Hkind as [kind Hkind].
  split; [| split].
  - intros Hfit. unfold pretrain. rewrite Hkind.
    destruct (is_onecycle scheduler) eqn:Ho.
    + destruct (Hsched eq_refl (make_optimizer kind learning_rate (to_device model)))
        as [m1 ->].
      cbn [rbind ok]. apply pretrain_epochs_within; [exact Hknown |].
      intros t [= <-]. rewrite total_steps_epochs.
      destruct Hfit as [Hf | Hf]; [discriminate | exact Hf].
    + cbn [ok]. apply pretrain_epochs_within; [exact Hknown | discriminate].
  - intros Ho Hover. unfold pretrain. rewrite Hkind, Ho.
    destruct (Hsched Ho (make_optimizer kind learning_rate (to_device model))) as [m1 ->].
    cbn [rbind ok].
    destruct (pretrain_epochs_overrun (total_steps train epochs) train val optim
                learning_rate cluster task mask_patch exp_dir cloud cloud_dir bucket
                (seq 0 (Z.to_nat epochs)) m1 0 Hknown) as (evs & Hrun & H1 & H2).
    { lia. }
    { rewrite total_steps_epochs. exact Hover. }
    exists evs. rewrite Nat.sub_0_r, total_steps_epochs in H1, H2. auto.
  - intros Hok. apply batches_over_seq, Hok.
Qed.

(** X15: a run of [pretrain] that returns, over a loader that yields
    [len(loader)] batches per pass, has called [optimizer.step()]
    [epochs * len(loader)] times and [scheduler.step()] as many times with the
    one-cycle scheduler and never without it; it has written the logs, the
    model and the optimizer state of each epoch [e] below [epochs] with
    [e % 10 == 0], in this order, under the pre-training file names, and no
    other file, and has uploaded the same files when [cloud] is set. *)
Theorem pretrain_steps_and_checkpoints (model : T) (train : dataloader)
    (val : option dataloader) (optim : string) (learning_rate : float)
    (scheduler : option string) (max_lr : float) (epochs : Z) (cluster : bool)
    (task : string) (mask_patch : Z) (exp_dir : string) (cloud : bool) (cloud_dir : string)
    (bucket : option string) (evs : list event) (m : T) :
  pt model train val optim learning_rate scheduler max_lr epochs cluster task mask_patch
    exp_dir cloud cloud_dir bucket = (evs, inr m) ->
  loader_ok train ->
  optimizer_steps evs = (Z.to_nat epochs * loader_len train)%nat
  /\ scheduler_steps evs
     = (if is_onecycle scheduler then (Z.to_nat epochs * loader_len train)%nat else 0%nat)
  /\ saved_files evs
     = flat_map (fun e => [Numbered "logs_pt_epoch" e ".json";
                           Numbered "ast_mdl_pt_epoch" e ".pt";
                           Numbered "ast_optim_pt_epoch" e ".pt"]) (logged_epochs epochs)
  /\ uploaded_files evs = (if cloud then saved_files evs else []).
Proof.
  intros Hrun Hok. apply pretrain_returns in Hrun as [m0 Hrun].
  apply pretrain_epochs_trace in Hrun as (Hsum & _ & _).
  rewrite (batches_over_seq train _ Hok), has_scheduler_of in Hsum.
  pose proof (f_equal files_saved Hsum) as Hsaved.
  pose proof (f_equal files_uploaded Hsum) as Hup.
  cbn [files_saved files_uploaded summary] in Hsaved, Hup.
  split; [exact (f_equal n_optimizer Hsum) | split; [exact (f_equal n_scheduler Hsum) |]].
  split; [exact Hsaved |]. rewrite Hup, Hsaved. reflexivity.
Qed.

(** X17: under the generative task every log that a returning run of
    [pretrain] has written, one per epoch [e] below [epochs] with
    [e % 10 == 0], reports the losses as accuracies: its training accuracy
    list is its training loss list and its validation accuracy list is its
    validation loss list. *)
Theorem pretrain_mpg_accuracy_is_loss (model : T) (train : dataloader)
    (val : option dataloader) (optim : string) (learning_rate : float)
    (scheduler : option string) (max_lr : float) (epochs : Z) (cluster : bool)
    (task : string) (mask_patch : Z) (exp_dir : string) (cloud : bool) (cloud_dir : string)
    (bucket : option string) (evs : list event) (m : T) :
  task = "pretrain_mpg"%string ->
  pt model train val optim learning_rate scheduler max_lr epochs cluster task mask_patch
    exp_dir cloud cloud_dir bucket = (evs, inr m) ->
  map log_epoch (saved_logs evs) = logged_epochs epochs
  /\ Forall (fun l => training_acc_list l = Some (training_loss_list l)
                      /\ val_acc_list l = val_loss_list l) (saved_logs evs).
Proof.
  intros Ht Hrun. apply pretrain_returns in Hrun as [m0 Hrun].
  apply pretrain_epochs_trace in Hrun as (_ & Hep & Hmpg).
  split; [exact Hep | exact (Hmpg Ht)].
Qed.

End Pretrain.

(** ** Concrete instances of the further properties *)

(** Index 3 on the table of three recordings. *)
Lemma getitem_out_of_range_witness :
  __getitem__ DemoRun.call_audio DemoRun.call_spec (IdxInt 3)
    {| self := built DemoRun.eval_args; world := 0%nat |}
  = ({| self := built DemoRun.eval_args; world := 0%nat |}, inl IndexError)
  /\ __getitem__ DemoRun.call_audio DemoRun.call_spec
       (IdxTensor (Tensor0 3)) {| self := built DemoRun.eval_args; world := 0%nat |}
     = ({| self := built DemoRun.eval_args; world := 0%nat |}, inl IndexError).
Proof.
  apply (getitem_out_of_range DemoRun.call_audio DemoRun.call_spec
           (built DemoRun.eval_args) 3 0%nat).
  right. vm_compute. discriminate.
Defined.

(** Index -1 is index 2 on the table of three recordings. *)
Lemma getitem_negative_index_witness :
  __getitem__ DemoRun.call_audio DemoRun.call_spec (IdxInt (-1))
    {| self := built DemoRun.eval_args; world := 0%nat |}
  = __getitem__ DemoRun.call_audio DemoRun.call_spec (IdxInt 2)
      {| self := built DemoRun.eval_args; world := 0%nat |}.
Proof.
  apply (getitem_negative_index DemoRun.call_audio DemoRun.call_spec
           (-1) {| self := built DemoRun.eval_args; world := 0%nat |}).
  vm_compute. split; [discriminate | reflexivity].
Defined.

(** The label [rough] names no column of the table. *)
Lemma getitem_missing_label_witness :
  __getitem__ DemoRun.call_audio DemoRun.call_spec (IdxInt 0)
    {| self := built (with_table DemoRun.eval_args Demo.table ["breathy"; "rough"]%string);
       world := 0%nat |}
  = ({| self := built (with_table DemoRun.eval_args Demo.table ["breathy"; "rough"]%string);
        world := 0%nat |}, inl KeyError).
Proof.
  apply (getitem_missing_label DemoRun.call_audio DemoRun.call_spec
           (built (with_table DemoRun.eval_args Demo.table ["breathy"; "rough"]%string))
           0 0%nat).
  - vm_compute. split; [discriminate | reflexivity].
  - apply Exists_cons_tl, Exists_cons_hd. compute_done.
Defined.

(** The evaluation configuration constructs with a label that names no
    column. *)
Lemma init_ignores_table_witness :
  __init__ (with_table DemoRun.eval_args Demo.table ["rough"]%string)
  = inr (built (with_table DemoRun.eval_args Demo.table ["rough"]%string))
  /\ audio_transform (built (with_table DemoRun.eval_args Demo.table ["rough"]%string))
     = audio_transform (built DemoRun.eval_args)
  /\ al_transform (built (with_table DemoRun.eval_args Demo.table ["rough"]%string))
     = al_transform (built DemoRun.eval_args)
  /\ spec_transform (built (with_table DemoRun.eval_args Demo.table ["rough"]%string))
     = spec_transform (built DemoRun.eval_args).
Proof.
  apply (init_ignores_table DemoRun.eval_args (built DemoRun.eval_args) Demo.table
           ["rough"]%string).
  vm_compute. reflexivity.
Defined.

(** Rows 2 and 0 of the table, in this order. *)
Lemma getitem_index_list_witness :
  __getitem__ DemoRun.call_audio DemoRun.call_spec (IdxList [2; 0])
    {| self := built DemoRun.eval_args; world := 0%nat |}
  = on_dataset (built DemoRun.eval_args)
      (run_chains DemoRun.call_audio DemoRun.call_spec
         (built DemoRun.eval_args)
         {| uid := Many ["u003"; "u001"]%string; targets := Many [[0; 1]; [1; 0]]%float;
            waveform := None; sample_rate := None; fbank := None |} 0%nat)
  /\ __getitem__ DemoRun.call_audio DemoRun.call_spec
       (IdxTensor (Tensor1 [2; 0])) {| self := built DemoRun.eval_args; world := 0%nat |}
     = on_dataset (built DemoRun.eval_args)
         (run_chains DemoRun.call_audio DemoRun.call_spec
            (built DemoRun.eval_args)
            {| uid := Many ["u003"; "u001"]%string; targets := Many [[0; 1]; [1; 0]]%float;
               waveform := None; sample_rate := None; fbank := None |} 0%nat).
Proof.
  apply (getitem_index_list DemoRun.call_audio DemoRun.call_spec
           (built DemoRun.eval_args) [2; 0] 0%nat).
  - repeat constructor; vm_compute; discriminate.
  - compute_done.
  - compute_done.
Defined.

(** Two rows of predictions, the second with a NaN target: one row of scores
    against two rows of targets. *)
Lemma calc_auc_filters_predictions_only_witness :
  exists pred_mat,
    auc_inputs LoopsDemo.sigmoid [[1]; [3]]%float [[1]; [nan]]%float
    = ok ([[1]; [nan]]%float, pred_mat)
    /\ length pred_mat
       = length (List.filter (fun row => (nan_count row =? 0)%nat) [[1]; [nan]]%float)
    /\ (length pred_mat = length [[1]; [nan]]%float
        <-> Forall (fun row => Forall (fun x => PrimFloat.is_nan x = false) row)
              [[1]; [nan]]%float)
    /\ (forall e, LoopsDemo.roc_auc_score [[1]; [nan]]%float pred_mat = inl e ->
        calc_auc (T:=nat) LoopsDemo.sigmoid LoopsDemo.roc_auc_score [[1]; [3]]%float
          [[1]; [nan]]%float ["breathy"]%string "exp" false "runs" None
        = ([], inl e)).
Proof.
  apply (calc_auc_filters_predictions_only (T:=nat) LoopsDemo.sigmoid LoopsDemo.roc_auc_score
           [[1]; [3]]%float [[1]; [nan]]%float ["breathy"]%string "exp" false "runs" None).
  reflexivity.
Defined.

(** Two batches of two embeddings of width 2. *)
Lemma embedding_extraction_concat_witness :
  embedding_extraction LoopsDemo.to_device LoopsDemo.set_eval LoopsDemo.extract_embedding
    0%nat [0; 1]%nat "ft" (-1) "ft_cls"
  = ok (Array2 {| width := 2;
                  rows := [[0.5; 1.5]; [2.5; 3.5]; [2.5; 3.5]; [0.5; 1.5]]%float |}).
Proof.
  apply (embedding_extraction_concat LoopsDemo.to_device LoopsDemo.set_eval
           LoopsDemo.extract_embedding 0%nat [0; 1]%nat "ft" (-1) "ft_cls" 2%nat).
  - lia.
  - repeat constructor.
Defined.

(** The optimizer name sgd. *)
Lemma finetune_rejects_names_witness :
  finetune LoopsDemo.to_device LoopsDemo.set_train LoopsDemo.set_eval
    LoopsDemo.make_optimizer LoopsDemo.make_onecycle LoopsDemo.fit_batch
    LoopsDemo.scheduler_step LoopsDemo.last_lr LoopsDemo.eval_loss 0%nat LoopsDemo.train
    None "sgd" 0.5%float "BCE" None 0.5%float 2 "exp" false "runs" None
  = ([], inl ValueError).
Proof.
  refine (proj1 (finetune_rejects_names LoopsDemo.to_device LoopsDemo.set_train
                   LoopsDemo.set_eval LoopsDemo.make_optimizer LoopsDemo.make_onecycle
                   LoopsDemo.fit_batch LoopsDemo.scheduler_step LoopsDemo.last_lr
                   LoopsDemo.eval_loss 0%nat LoopsDemo.train None "sgd" 0.5%float "BCE" None
                   0.5%float 2 "exp" false "runs" None _)).
  right. split; discriminate.
Defined.

(** Twelve epochs over a loader of two batches: 24 steps of each kind. *)
Lemma finetune_step_counts_witness :
  optimizer_steps (fst LoopsDemo.finetune_run) = 24%nat
  /\ scheduler_steps (fst LoopsDemo.finetune_run) = 24%nat.
Proof.
  apply (finetune_step_counts LoopsDemo.to_device LoopsDemo.set_train LoopsDemo.set_eval
           LoopsDemo.make_optimizer LoopsDemo.make_onecycle LoopsDemo.fit_batch
           LoopsDemo.scheduler_step LoopsDemo.last_lr LoopsDemo.eval_loss 0%nat LoopsDemo.train
           (Some LoopsDemo.val) "adamw" 0.0625%float "BCE" (Some "onecycle"%string)
           0.125%float 12 "exp" true "runs" None (fst LoopsDemo.finetune_run) 24%nat).
  - vm_compute. reflexivity.
  - intros e. reflexivity.
Defined.

(** Twelve epochs: the checkpoints of epochs 0 and 10. *)
Lemma finetune_checkpoints_witness :
  saved_files (fst LoopsDemo.finetune_run)
  = [Numbered "logs_ft_epoch" 0 ".json"; Numbered "ast_ft_mdl_epoch" 0 ".pt";
     Numbered "ast_ft_optim_epoch" 0 ".pt"; Numbered "logs_ft_epoch" 10 ".json";
     Numbered "ast_ft_mdl_epoch" 10 ".pt"; Numbered "ast_ft_optim_epoch" 10 ".pt"]
  /\ uploaded_files (fst LoopsDemo.finetune_run) = saved_files (fst LoopsDemo.finetune_run).
Proof.
  destruct (finetune_checkpoints LoopsDemo.to_device LoopsDemo.set_train LoopsDemo.set_eval
              LoopsDemo.make_optimizer LoopsDemo.make_onecycle LoopsDemo.fit_batch
              LoopsDemo.scheduler_step LoopsDemo.last_lr LoopsDemo.eval_loss 0%nat
              LoopsDemo.train (Some LoopsDemo.val) "adamw" 0.0625%float "BCE"
              (Some "onecycle"%string) 0.125%float 12 "exp" true "runs" None
              (fst LoopsDemo.finetune_run) 24%nat) as (Hsaved & Hup & _).
  - vm_compute. reflexivity.
  - split; [exact Hsaved | exact Hup].
Defined.

(** Twelve epochs: two logs, each with two training losses and one validation
    loss. *)
Lemma finetune_logs_per_epoch_witness :
  map log_epoch (saved_logs (fst LoopsDemo.finetune_run)) = [0; 10]%nat
  /\ Forall (fun l =>
               length (training_loss_list l) = 2%nat
               /\ option_map (@length float) (val_loss_list l) = Some 1%nat)
       (saved_logs (fst LoopsDemo.finetune_run)).
Proof.
  apply (finetune_logs_per_epoch LoopsDemo.to_device LoopsDemo.set_train LoopsDemo.set_eval
           LoopsDemo.make_optimizer LoopsDemo.make_onecycle LoopsDemo.fit_batch
           LoopsDemo.scheduler_step LoopsDemo.last_lr LoopsDemo.eval_loss 0%nat LoopsDemo.train
           (Some LoopsDemo.val) "adamw" 0.0625%float "BCE" (Some "onecycle"%string)
           0.125%float 12 "exp" true "runs" None (fst LoopsDemo.finetune_run) 24%nat).
  vm_compute. reflexivity.
Defined.

(** The task name [pretrain] is none of the three. *)
Lemma pretrain_unknown_task_witness :
  LoopsDemo.pretrain_run "pretrain" = ([], inl UnboundLocalError).
Proof.
  apply (pretrain_unknown_task LoopsDemo.to_device LoopsDemo.set_train LoopsDemo.set_eval
           LoopsDemo.make_optimizer LoopsDemo.make_onecycle LoopsDemo.scheduler_step
           LoopsDemo.last_lr LoopsDemo.forward_mpc LoopsDemo.forward_mpg LoopsDemo.loss_mean
           LoopsDemo.loss_joint LoopsDemo.loss_item LoopsDemo.zero_grad
           LoopsDemo.backward_step 0%nat LoopsDemo.train (Some LoopsDemo.val) "adamw"
           0.0625%float (Some "onecycle"%string) 0.125%float 12 false "pretrain" 400 "exp"
           true "runs" None).
  - intros [H | [H | H]]; discriminate.
  - right. reflexivity.
  - intros _ m0. exists m0. reflexivity.
  - lia.
  - discriminate.
Defined.

(** Twelve epochs of joint pre-training over a loader of two batches. *)
Lemma pretrain_steps_and_checkpoints_witness :
  optimizer_steps (fst (LoopsDemo.pretrain_run "pretrain_joint")) = 24%nat
  /\ scheduler_steps (fst (LoopsDemo.pretrain_run "pretrain_joint")) = 24%nat
  /\ saved_files (fst (LoopsDemo.pretrain_run "pretrain_joint"))
     = [Numbered "logs_pt_epoch" 0 ".json"; Numbered "ast_mdl_pt_epoch" 0 ".pt";
        Numbered "ast_optim_pt_epoch" 0 ".pt"; Numbered "logs_pt_epoch" 10 ".json";
        Numbered "ast_mdl_pt_epoch" 10 ".pt"; Numbered "ast_optim_pt_epoch" 10 ".pt"]
  /\ uploaded_files (fst (LoopsDemo.pretrain_run "pretrain_joint"))
     = saved_files (fst (LoopsDemo.pretrain_run "pretrain_joint")).
Proof.
  apply (pretrain_steps_and_checkpoints LoopsDemo.to_device LoopsDemo.set_train
           LoopsDemo.set_eval LoopsDemo.make_optimizer LoopsDemo.make_onecycle
           LoopsDemo.scheduler_step LoopsDemo.last_lr LoopsDemo.forward_mpc
           LoopsDemo.forward_mpg LoopsDemo.loss_mean LoopsDemo.loss_joint LoopsDemo.loss_item
           LoopsDemo.zero_grad LoopsDemo.backward_step 0%nat LoopsDemo.train
           (Some LoopsDemo.val) "adamw" 0.0625%float (Some "onecycle"%string) 0.125%float 12
           false "pretrain_joint" 400 "exp" true "runs" None
           (fst (LoopsDemo.pretrain_run "pretrain_joint")) 24%nat).
  - vm_compute. reflexivity.
  - intros e. reflexivity.
Defined.

(** Twelve epochs of generative pre-training: two logs. *)
Lemma pretrain_mpg_accuracy_is_loss_witness :
  map log_epoch (saved_logs (fst (LoopsDemo.pretrain_run "pretrain_mpg"))) = [0; 10]%nat
  /\ Forall (fun l => training_acc_list l = Some (training_loss_list l)
                      /\ val_acc_list l = val_loss_list l)
       (saved_logs (fst (LoopsDemo.pretrain_run "pretrain_mpg"))).
Proof.
  apply (pretrain_mpg_accuracy_is_loss LoopsDemo.to_device LoopsDemo.set_train
           LoopsDemo.set_eval LoopsDemo.make_optimizer LoopsDemo.make_onecycle
           LoopsDemo.scheduler_step LoopsDemo.last_lr LoopsDemo.forward_mpc
           LoopsDemo.forward_mpg LoopsDemo.loss_mean LoopsDemo.loss_joint LoopsDemo.loss_item
           LoopsDemo.zero_grad LoopsDemo.backward_step 0%nat LoopsDemo.train
           (Some LoopsDemo.val) "adamw" 0.0625%float (Some "onecycle"%string) 0.125%float 12
           false "pretrain_mpg" 400 "exp" true "runs" None
           (fst (LoopsDemo.pretrain_run "pretrain_mpg")) 24%nat).
  - reflexivity.
  - vm_compute. reflexivity.
Defined.

(** Two epochs of fine-tuning with the one-cycle scheduler: over the loader of
    two batches the run returns; over the loader that yields three batches in
    a pass and reports a length of 2, the fifth call of [scheduler.step()]
    raises. *)
Lemma finetune_returns_unless_overrun_witness :
  (exists evs m,
     finetune LoopsDemo.to_device LoopsDemo.set_train LoopsDemo.set_eval
       LoopsDemo.make_optimizer LoopsDemo.make_onecycle LoopsDemo.fit_batch
       LoopsDemo.scheduler_step LoopsDemo.last_lr LoopsDemo.eval_loss 0%nat LoopsDemo.train
       None "adam" 0.5%float "MSE" (Some "onecycle"%string) 0.5%float 2 "exp" false "runs"
       None
     = (evs, inr m))
  /\ (exists evs,
        finetune LoopsDemo.to_device LoopsDemo.set_train LoopsDemo.set_eval
          LoopsDemo.make_optimizer LoopsDemo.make_onecycle LoopsDemo.fit_batch
          LoopsDemo.scheduler_step LoopsDemo.last_lr LoopsDemo.eval_loss 0%nat
          LoopsDemo.long_train None "adam" 0.5%float "MSE" (Some "onecycle"%string)
          0.5%float 2 "exp" false "runs" None
        = (evs, inl ValueError)
        /\ optimizer_steps evs = 5%nat
        /\ scheduler_steps evs = 4%nat).
Proof.
  split.
  - destruct (finetune_returns_unless_overrun LoopsDemo.to_device LoopsDemo.set_train
                LoopsDemo.set_eval LoopsDemo.make_optimizer LoopsDemo.make_onecycle
                LoopsDemo.fit_batch LoopsDemo.scheduler_step LoopsDemo.last_lr
                LoopsDemo.eval_loss 0%nat LoopsDemo.train None "adam" 0.5%float "MSE"
                (Some "onecycle"%string) 0.5%float 2 "exp" false "runs" None)
      as (Hret & _ & _);
      [left; reflexivity | left; reflexivity | intros _ m0; exists m0; reflexivity |].
    apply Hret. right. vm_compute. lia.
  - destruct (finetune_returns_unless_overrun LoopsDemo.to_device LoopsDemo.set_train
                LoopsDemo.set_eval LoopsDemo.make_optimizer LoopsDemo.make_onecycle
                LoopsDemo.fit_batch LoopsDemo.scheduler_step LoopsDemo.last_lr
                LoopsDemo.eval_loss 0%nat LoopsDemo.long_train None "adam" 0.5%float "MSE"
                (Some "onecycle"%string) 0.5%float 2 "exp" false "runs" None)
      as (_ & Hover & _);
      [left; reflexivity | left; reflexivity | intros _ m0; exists m0; reflexivity |].
    apply Hover; [reflexivity | vm_compute; lia].
Defined.

(** Two epochs of pre-training with the discriminative task and the one-cycle
    scheduler: over the loader of two batches the run returns; over the loader
    that yields three batches in a pass and reports a length of 2, the fifth
    call of [scheduler.step()] raises. *)
Lemma pretrain_returns_unless_overrun_witness :
  (exists evs m,
     pretrain LoopsDemo.to_device LoopsDemo.set_train LoopsDemo.set_eval
       LoopsDemo.make_optimizer LoopsDemo.make_onecycle LoopsDemo.scheduler_step
       LoopsDemo.last_lr LoopsDemo.forward_mpc LoopsDemo.forward_mpg LoopsDemo.loss_mean
       LoopsDemo.loss_joint LoopsDemo.loss_item LoopsDemo.zero_grad LoopsDemo.backward_step
       0%nat LoopsDemo.train (Some LoopsDemo.val) "adamw" 0.0625%float
       (Some "onecycle"%string) 0.125%float 2 false "pretrain_mpc" 400 "exp" true "runs" None
     = (evs, inr m))
  /\ (exists evs,
        pretrain LoopsDemo.to_device LoopsDemo.set_train LoopsDemo.set_eval
          LoopsDemo.make_optimizer LoopsDemo.make_onecycle LoopsDemo.scheduler_step
          LoopsDemo.last_lr LoopsDemo.forward_mpc LoopsDemo.forward_mpg LoopsDemo.loss_mean
          LoopsDemo.loss_joint LoopsDemo.loss_item LoopsDemo.zero_grad
          LoopsDemo.backward_step 0%nat LoopsDemo.long_train (Some LoopsDemo.val) "adamw"
          0.0625%float (Some "onecycle"%string) 0.125%float 2 false "pretrain_mpc" 400 "exp"
          true "runs" None
        = (evs, inl ValueError)
        /\ optimizer_steps evs = 5%nat
        /\ scheduler_steps evs = 4%nat).
Proof.
  split.
  - destruct (pretrain_returns_unless_overrun LoopsDemo.to_device LoopsDemo.set_train
                LoopsDemo.set_eval LoopsDemo.make_optimizer LoopsDemo.make_onecycle
                LoopsDemo.scheduler_step LoopsDemo.last_lr LoopsDemo.forward_mpc
                LoopsDemo.forward_mpg LoopsDemo.loss_mean LoopsDemo.loss_joint
                LoopsDemo.loss_item LoopsDemo.zero_grad LoopsDemo.backward_step 0%nat
                LoopsDemo.train (Some LoopsDemo.val) "adamw" 0.0625%float
                (Some "onecycle"%string) 0.125%float 2 false "pretrain_mpc" 400 "exp" true
                "runs" None)
      as (Hret & _ & _);
      [left; reflexivity | right; reflexivity | intros _ m0; exists m0; reflexivity |].
    apply Hret. right. vm_compute. lia.
  - destruct (pretrain_returns_unless_overrun LoopsDemo.to_device LoopsDemo.set_train
                LoopsDemo.set_eval LoopsDemo.make_optimizer LoopsDemo.make_onecycle
                LoopsDemo.scheduler_step LoopsDemo.last_lr LoopsDemo.forward_mpc
                LoopsDemo.forward_mpg LoopsDemo.loss_mean LoopsDemo.loss_joint
                LoopsDemo.loss_item LoopsDemo.zero_grad LoopsDemo.backward_step 0%nat
                LoopsDemo.long_train (Some LoopsDemo.val) "adamw" 0.0625%float
                (Some "onecycle"%string) 0.125%float 2 false "pretrain_mpc" 400 "exp" true
                "runs" None)
      as (_ & Hover & _);
      [left; reflexivity | right; reflexivity | intros _ m0; exists m0; reflexivity |].
    apply Hover; [reflexivity | vm_compute; lia].
Defined.
